(** * Restoring joystick profiles: a shallow embedding of the three restorers

    The repository holds three Python programs that re-associate backed-up
    controller configuration with live artifacts whose GUID was regenerated:

    - [bms_restore.py]   (module [Bms]): flat folder of [*.xml] profiles;
    - [dcs_restore.py]   (module [Dcs]): tree of [*.diff.lua] bindings;
    - [okb_update_directinput_guids.py] (module [Okb]): records of a JSON
      document keyed by GUID.

    Python strings are modelled by [string], each character standing for the
    code point of the same number (the Latin-1 range).  The file system is a
    finite map from paths to nodes; exceptions are values of [exn]; the code
    that performs I/O lives in the monad [M] of section "Worlds". *)

From Stdlib Require Import ZArith Ascii String List Lia Bool.
From stdpp Require Import base option list gmap strings fin_maps sorting.

Set Warnings "-register-all".

Local Open Scope Z_scope.
Local Open Scope stdpp_scope.

(** ** Python strings *)

Module PyStr.

(** [str.isspace] on one code point below 256: U+0009..U+000D,
    U+001C..U+001F, U+0020, U+0085 and U+00A0.  The [\s] class of [re] on a
    [str] pattern and [str.strip] use the same table. *)
Definition is_space (c : ascii) : bool :=
  let n := N_of_ascii c in
  ((9 <=? n) && (n <=? 13))%N || ((28 <=? n) && (n <=? 32))%N
  || (n =? 133)%N || (n =? 160)%N.

Definition newline : ascii := "010"%char.

(** [.] of [re] without DOTALL: anything but a line feed. *)
Definition is_dot (c : ascii) : bool := negb (Ascii.eqb c newline).

(** The class [[0-9A-Fa-f-]]. *)
Definition is_hexdash (c : ascii) : bool :=
  let n := N_of_ascii c in
  ((48 <=? n) && (n <=? 57))%N || ((65 <=? n) && (n <=? 70))%N
  || ((97 <=? n) && (n <=? 102))%N || (n =? 45)%N.

Fixpoint forallb_str (p : ascii → bool) (s : string) : bool :=
  match s with
  | "" => true
  | String c s' => p c && forallb_str p s'
  end.

Fixpoint lstrip (s : string) : string :=
  match s with
  | "" => ""
  | String c s' => if is_space c then lstrip s' else s
  end.

Fixpoint rstrip (s : string) : string :=
  match s with
  | "" => ""
  | String c s' =>
      match rstrip s' with
      | "" => if is_space c then "" else String c ""
      | r => String c r
      end
  end.

(** [s.strip()] *)
Definition strip (s : string) : string := lstrip (rstrip s).

(** [str.lower] on one code point below 256: A..Z and the capital letters
    U+00C0..U+00DE (but the multiplication sign U+00D7) move by 32. *)
Definition lower_char (c : ascii) : ascii :=
  let n := N_of_ascii c in
  if (((65 <=? n) && (n <=? 90)) ||
      ((192 <=? n) && (n <=? 222) && negb (n =? 215)))%N
  then ascii_of_N (n + 32) else c.

Fixpoint lower (s : string) : string :=
  match s with
  | "" => ""
  | String c s' => String (lower_char c) (lower s')
  end.

(** [s.rfind(c)], [None] standing for -1. *)
Fixpoint rfind (c : ascii) (s : string) : option nat :=
  match s with
  | "" => None
  | String a s' =>
      match rfind c s' with
      | Some i => Some (S i)
      | None => if Ascii.eqb a c then Some O else None
      end
  end.

Fixpoint str_take (n : nat) (s : string) : string :=
  match n, s with
  | S n', String c s' => String c (str_take n' s')
  | _, _ => ""
  end.

Fixpoint str_drop (n : nat) (s : string) : string :=
  match n, s with
  | S n', String _ s' => str_drop n' s'
  | _, _ => s
  end.

Fixpoint endswith (s suf : string) : bool :=
  if String.eqb s suf then true
  else match s with
       | "" => false
       | String _ s' => endswith s' suf
       end.

Fixpoint startswith (s pre : string) {struct pre} : bool :=
  match pre, s with
  | "", _ => true
  | String a pre', String b s' => Ascii.eqb a b && startswith s' pre'
  | String _ _, "" => false
  end.

(** [s.split(sep)] for a one-character separator: never empty. *)
Fixpoint split_on (sep : ascii) (s : string) : list string :=
  match s with
  | "" => [""]
  | String c s' =>
      if Ascii.eqb c sep then "" :: split_on sep s'
      else match split_on sep s' with
           | w :: ws => String c w :: ws
           | [] => [String c ""]
           end
  end.

(** [s.split()]: the maximal runs of characters that are not white space. *)
Fixpoint split_ws_go (cur : string) (s : string) : list string :=
  match s with
  | "" => match cur with "" => [] | _ => [String.rev cur] end
  | String c s' =>
      if is_space c
      then match cur with
           | "" => split_ws_go "" s'
           | _ => String.rev cur :: split_ws_go "" s'
           end
      else split_ws_go (String c cur) s'
  end.

Definition split_ws (s : string) : list string := split_ws_go "" s.

(** [sep.join(ws)] *)
Fixpoint join (sep : string) (ws : list string) : string :=
  match ws with
  | [] => ""
  | [w] => w
  | w :: ws' => w +:+ sep +:+ join sep ws'
  end.

End PyStr.

(** ** The slice of [pathlib] that the restorers use, on one path component *)

Module PyPath.
Import PyStr.

Definition dot : ascii := "."%char.

(** [PurePath.suffix]: the text from the last dot on, unless that dot is the
    first or the last character of the name. *)
Definition suffix (name : string) : string :=
  match rfind dot name with
  | Some i =>
      if (0 <? i)%nat && (i <? String.length name - 1)%nat
      then str_drop i name else ""
  | None => ""
  end.

(** [PurePath.stem] *)
Definition stem (name : string) : string :=
  match rfind dot name with
  | Some i =>
      if (0 <? i)%nat && (i <? String.length name - 1)%nat
      then str_take i name else name
  | None => name
  end.

Fixpoint lstrip_dots (s : string) : string :=
  match s with
  | String c s' => if Ascii.eqb c dot then lstrip_dots s' else s
  | "" => ""
  end.

(** [PurePath.suffixes] *)
Definition suffixes (name : string) : list string :=
  if endswith name "." then []
  else map (String dot) (tail (split_on dot (lstrip_dots name))).

(** [l[-2:]] *)
Definition last_two {A} (l : list A) : list A :=
  drop (length l - 2)%nat l.

(** [PurePath.with_suffix] applied to the final component; [None] stands for
    the [ValueError] of an invalid suffix or an empty name.  A component
    never holds a separator. *)
Definition with_suffix (name suf : string) : option string :=
  if (negb (String.eqb suf "") && negb (startswith suf ".")) || String.eqb suf "."
  then None
  else if String.eqb name "" then None
  else match suffix name with
       | "" => Some (name +:+ suf)
       | old => Some (str_take (String.length name - String.length old) name +:+ suf)
       end.

End PyPath.

(** ** The fragment of [re] behind [GUID_FILENAME_RE] and [GUID_DIFF_RE] *)

Module PyRe.
Import PyStr.

Inductive regex :=
| Cls (p : ascii → bool)      (* one character of a class *)
| Star (p : ascii → bool)     (* greedy [c*] over a class *)
| Seq (r1 r2 : regex)
| Eos.                        (* [$] *)

(** Backtracking in the order of [re]: a greedy star first tries one more
    character, then the continuation. *)
Fixpoint star_k (p : ascii → bool) (s : string) (k : string → bool) : bool :=
  match s with
  | "" => k ""
  | String c s' => if p c then star_k p s' k || k s else k s
  end.

Fixpoint run (r : regex) (s : string) (k : string → bool) : bool :=
  match r with
  | Cls p => match s with
             | "" => false
             | String c s' => p c && k s'
             end
  | Star p => star_k p s k
  | Seq r1 r2 => run r1 s (λ s', run r2 s' k)
  | Eos => (String.eqb s "" || String.eqb s (String newline "")) && k s
  end.

(** A leading capture group [(c* )]: what the group holds in the first
    successful path. *)
Fixpoint capture_star (p : ascii → bool) (s : string) (k : string → bool)
  : option string :=
  match s with
  | "" => if k "" then Some "" else None
  | String c s' =>
      if p c then
        match capture_star p s' k with
        | Some g => Some (String c g)
        | None => if k s then Some "" else None
        end
      else if k s then Some "" else None
  end.

Definition chr (c : ascii) : regex := Cls (Ascii.eqb c).

Fixpoint lit (s : string) (r : regex) : regex :=
  match s with
  | "" => r
  | String c s' => Seq (chr c) (lit s' r)
  end.

Fixpoint rep (n : nat) (p : ascii → bool) (r : regex) : regex :=
  match n with
  | O => r
  | S n' => Seq (Cls p) (rep n' p r)
  end.

(** [\s+\{[0-9A-Fa-f-]{36}\}<ext>$] *)
Definition guid_tail (ext : string) : regex :=
  Seq (Cls is_space) (Seq (Star is_space)
    (lit "{" (rep 36 is_hexdash (lit "}" (lit ext Eos))))).

(** [re.compile(r"^(?P<stem>.* )\s+\{[0-9A-Fa-f-]{36}\}<ext>$").match(name)],
    reduced to the group [stem]. *)
Definition guid_match (ext name : string) : option string :=
  capture_star is_dot name (λ rest, run (guid_tail ext) rest (λ _, true)).

End PyRe.

(** ** The two key normalizers *)

Module BmsKey.
Import PyStr PyPath PyRe.

(** [GUID_FILENAME_RE.match] *)
Definition GUID_FILENAME_RE : string → option string := guid_match ".xml".

Definition normalize_key (xml_filename : string) : string :=
  match GUID_FILENAME_RE xml_filename with
  | Some stem_group => strip stem_group
  | None => strip (stem xml_filename)
  end.

End BmsKey.

Module DcsKey.
Import PyStr PyPath PyRe.

Definition GUID_DIFF_RE : string → option string := guid_match ".diff.lua".

Definition normalize_guid_filename (name : string) : string :=
  match GUID_DIFF_RE name with
  | Some stem_group => strip stem_group
  | None => name
  end.

End DcsKey.

(** ** Worlds: the file system, the clock, injected faults and the trace *)

Module World.

(** A path is the list of its parts from the root of the file system;
    [p / name] is [p ++ [name]].  Names are compared exactly. *)
Abbreviation path := (list string).

Inductive node :=
| File (content : string) (mtime : Z)
| Dir (mtime : Z).

Inductive exn :=
| FileNotFoundError | NotADirectoryError | IsADirectoryError | FileExistsError
| PermissionError | SameFileError
| ValueError | AttributeError | TypeError.

(** [isinstance(e, OSError)] *)
Definition is_OSError (e : exn) : bool :=
  match e with
  | ValueError | AttributeError | TypeError => false
  | _ => true
  end.

(** The points where a fault can be injected into the operating system. *)
Inductive ioop := OpRead | OpWrite | OpReplace | OpUnlink | OpZip.

Inductive tag :=
| TagOK | TagFIX | TagMISS | TagCOPY | TagDRYRUN | TagWARN | TagZIP | TagINFO.

(** What a run does, in the order in which it does it. *)
Inductive event :=
| EvPrint (t : tag) (subject : string)
| EvSummary (restored identical missing : Z)
| EvMkdir (p : path)
| EvCopyfile (src dst : path)
| EvCopy2 (src dst : path)
| EvReplace (src dst : path)
| EvUnlink (p : path)
| EvZipOpen (archive : path)
| EvZip (archive : path) (sources : list path)
| EvWriteText (p : path)
| EvPlanned (p : path) (changes : nat).

Record world := World {
  files : gmap path node;
  now : Z;                       (* the clock read by a write *)
  deny : ioop → path → bool;     (* the operation fails on that path *)
  cut : path → nat;              (* bytes written before a failing write stops *)
  trace : list event;
}.

Definition set_files (f : gmap path node → gmap path node) (w : world) : world :=
  World (f (files w)) (now w) (deny w) (cut w) (trace w).

Definition log (e : event) (w : world) : world :=
  World (files w) (now w) (deny w) (cut w) (trace w ++ [e]).

Inductive res (A : Type) :=
| Ok (a : A)
| Raise (e : exn).
Arguments Ok {A} a.
Arguments Raise {A} e.

(** Computations that read and change the world and may raise; the world
    survives an exception. *)
Definition M (A : Type) : Type := world → res A * world.

Definition ret {A} (a : A) : M A := λ w, (Ok a, w).

Definition bind {A B} (f : A → M B) (m : M A) : M B :=
  λ w, match m w with
       | (Ok a, w') => f a w'
       | (Raise e, w') => (Raise e, w')
       end.

#[global] Instance M_ret : MRet M := @ret.
#[global] Instance M_bind : MBind M := @bind.

Definition raise {A} (e : exn) : M A := λ w, (Raise e, w).

Definition gets {A} (f : world → A) : M A := λ w, (Ok (f w), w).

Definition emit (e : event) : M unit := λ w, (Ok tt, log e w).

(** [print(f"[TAG] ... {subject}")] *)
Definition print (t : tag) (subject : string) : M unit := emit (EvPrint t subject).

(** [try: body finally: fin] *)
Definition try_finally {A} (body : M A) (fin : M unit) : M A :=
  λ w, let '(r, w1) := body w in
       match fin w1 with
       | (Ok _, w2) => (r, w2)
       | (Raise e, w2) => (Raise e, w2)
       end.

(** [try: body except OSError: pass] *)
Definition except_OSError_pass (body : M unit) : M unit :=
  λ w, match body w with
       | (Raise e, w') => if is_OSError e then (Ok tt, w') else (Raise e, w')
       | r => r
       end.

(** [for x in xs: acc = body(acc, x)] *)
Fixpoint for_each {A S} (body : S → A → M S) (acc : S) (xs : list A) : M S :=
  match xs with
  | [] => ret acc
  | x :: xs' => acc' ← body acc x; for_each body acc' xs'
  end.

(** *** Paths *)

Definition name (p : path) : string := List.last p "".

Definition parent (p : path) : path := removelast p.

(** [k.relative_to(d)] *)
Fixpoint relative_to (d k : path) : option path :=
  match d, k with
  | [], _ => Some k
  | a :: d', b :: k' => if String.eqb a b then relative_to d' k' else None
  | _ :: _, [] => None
  end.

Definition is_child (d k : path) : bool :=
  match relative_to d k with
  | Some [_] => true
  | _ => false
  end.

(** The order of [sorted] on [PurePosixPath]: the parts, lexicographically. *)
Fixpoint path_leb (p q : path) : bool :=
  match p, q with
  | [], _ => true
  | _ :: _, [] => false
  | a :: p', b :: q' =>
      match String.compare a b with
      | Lt => true
      | Gt => false
      | Eq => path_leb p' q'
      end
  end.

Definition path_le (p q : path) : Prop := path_leb p q.

Definition sorted (ps : list path) : list path := merge_sort path_le ps.

(** *** Views of the file system *)

Definition fs_exists (fs : gmap path node) (p : path) : bool :=
  match fs !! p with Some _ => true | None => false end.

Definition fs_is_file (fs : gmap path node) (p : path) : bool :=
  match fs !! p with Some (File _ _) => true | _ => false end.

Definition fs_is_dir (fs : gmap path node) (p : path) : bool :=
  match fs !! p with Some (Dir _) => true | _ => false end.

(** The entries of directory [d], in the order of the operating system. *)
Definition fs_children (fs : gmap path node) (d : path) : list path :=
  List.filter (is_child d) (map_to_list fs).*1.

(** The prefixes of [rel] that are neither empty nor [rel] itself. *)
Definition inner_prefixes (rel : path) : list path :=
  map (λ n, take n rel) (seq 1 (length rel - 1)).

(** The entries below [root] that a descent through directories reaches. *)
Definition fs_reaches (fs : gmap path node) (root k : path) : bool :=
  match relative_to root k with
  | Some (_ :: _ as rel) =>
      forallb (λ q, fs_is_dir fs (root ++ q)) (inner_prefixes rel)
  | _ => false
  end.

Definition fs_descendants (fs : gmap path node) (root : path) : list path :=
  List.filter (fs_reaches fs root) (map_to_list fs).*1.

(** *** Operations of [pathlib], [os] and [shutil] *)

Definition exists_ (p : path) : M bool := gets (λ w, fs_exists (files w) p).
Definition is_file (p : path) : M bool := gets (λ w, fs_is_file (files w) p).

(** [p.iterdir()] *)
Definition iterdir (d : path) : M (list path) :=
  λ w, match files w !! d with
       | Some (Dir _) => (Ok (fs_children (files w) d), w)
       | Some (File _ _) => (Raise NotADirectoryError, w)
       | None => (Raise FileNotFoundError, w)
       end.

(** [root.rglob("*")]: nothing is found below a root that is no folder. *)
Definition rglob_all (root : path) : M (list path) :=
  λ w, match files w !! root with
       | Some (Dir _) => (Ok (fs_descendants (files w) root), w)
       | _ => (Ok [], w)
       end.

(** [p.stat().st_mtime] *)
Definition stat_mtime (p : path) : M Z :=
  λ w, match files w !! p with
       | Some (File _ m) | Some (Dir m) => (Ok m, w)
       | None => (Raise FileNotFoundError, w)
       end.

(** [open(p, "rb").read()] *)
Definition read_file (p : path) : M string :=
  λ w, match files w !! p with
       | Some (File c _) =>
           if deny w OpRead p then (Raise PermissionError, w) else (Ok c, w)
       | Some (Dir _) => (Raise IsADirectoryError, w)
       | None => (Raise FileNotFoundError, w)
       end.

(** [open(p, "wb").write(c)]: the file is created or truncated, then
    filled; an injected fault stops the filling after [cut w p] bytes. *)
Definition write_file (p : path) (c : string) : M unit :=
  λ w, match files w !! p with
       | Some (Dir _) => (Raise IsADirectoryError, w)
       | _ =>
         match files w !! parent p with
         | Some (Dir _) =>
             if deny w OpWrite p
             then (Raise PermissionError,
                   set_files <[p := File (PyStr.str_take (cut w p) c) (now w)]> w)
             else (Ok tt, set_files <[p := File c (now w)]> w)
         | Some (File _ _) => (Raise NotADirectoryError, w)
         | None => (Raise FileNotFoundError, w)
         end
       end.

(** [shutil.copyfile(src, dst)] *)
Definition shutil_copyfile (src dst : path) : M unit :=
  same ← gets (λ w, bool_decide (src = dst) && fs_exists (files w) src);
  if same : bool then raise SameFileError
  else c ← read_file src; write_file dst c.

Definition copyfile (src dst : path) : M unit :=
  emit (EvCopyfile src dst);; shutil_copyfile src dst.

(** [os.utime(p, (m, m))] on an existing file *)
Definition set_mtime (p : path) (m : Z) : M unit :=
  λ w, match files w !! p with
       | Some (File c _) => (Ok tt, set_files <[p := File c m]> w)
       | _ => (Ok tt, w)
       end.

(** [shutil.copy2(src, dst)]: into [dst] when it is a directory; the
    modification time of the source is kept ([copystat]). *)
Definition copy2 (src dst : path) : M unit :=
  emit (EvCopy2 src dst);;
  d ← gets (λ w, fs_is_dir (files w) dst);
  let dst' := if d : bool then dst ++ [name src] else dst in
  shutil_copyfile src dst';;
  m ← stat_mtime src;
  set_mtime dst' m.

(** [os.replace(src, dst)], in one step.  The restorers only ever move a
    regular file; of a directory the model moves the node alone. *)
Definition os_replace (src dst : path) : M unit :=
  λ w, match files w !! src with
       | None => (Raise FileNotFoundError, w)
       | Some n =>
           if deny w OpReplace dst then (Raise PermissionError, w)
           else if bool_decide (src = dst) then (Ok tt, w)
           else match n, files w !! dst with
                | File _ _, Some (Dir _) => (Raise IsADirectoryError, w)
                | Dir _, Some _ => (Raise NotADirectoryError, w)
                | _, _ => (Ok tt, set_files (λ fs, delete src (<[dst := n]> fs)) w)
                end
       end.

Definition replace (src dst : path) : M unit :=
  emit (EvReplace src dst);; os_replace src dst.

(** [p.unlink()] *)
Definition os_unlink (p : path) : M unit :=
  λ w, match files w !! p with
       | None => (Raise FileNotFoundError, w)
       | Some (Dir _) => (Raise IsADirectoryError, w)
       | Some (File _ _) =>
           if deny w OpUnlink p then (Raise PermissionError, w)
           else (Ok tt, set_files (delete p) w)
       end.

Definition unlink (p : path) : M unit :=
  emit (EvUnlink p);; os_unlink p.

(** One level of [mkdir]: an existing directory is kept, a file in the way
    raises. *)
Definition ensure_dir (d : path) (is_last : bool) : M unit :=
  λ w, match files w !! d with
       | Some (Dir _) => (Ok tt, w)
       | Some (File _ _) =>
           (Raise (if is_last then FileExistsError else NotADirectoryError), w)
       | None => (Ok tt, set_files <[d := Dir (now w)]> w)
       end.

(** [p.mkdir(parents=True, exist_ok=True)]: every missing prefix of [p],
    from the root down. *)
Fixpoint mkdir_chain (done todo : path) : M unit :=
  match todo with
  | [] => ret ()
  | a :: todo' =>
      let d := done ++ [a] in
      ensure_dir d (match todo' with [] => true | _ => false end);;
      mkdir_chain d todo'
  end.

Definition mkdir_parents (p : path) : M unit :=
  emit (EvMkdir p);; mkdir_chain [] p.

(** [p.with_suffix(p.suffix + ".tmp")] *)
Definition with_tmp_suffix (p : path) : M path :=
  match PyPath.with_suffix (name p) (PyPath.suffix (name p) +:+ ".tmp") with
  | Some n => ret (parent p ++ [n])
  | None => raise ValueError
  end.

(** The cleanup of both file restorers:
    [if tmp.exists(): try: tmp.unlink() except OSError: pass] *)
Definition cleanup_tmp (tmp : path) : M unit :=
  e ← exists_ tmp;
  if e : bool then except_OSError_pass (unlink tmp) else ret ().

(** *** External libraries *)

(** [hashlib.sha256(content).hexdigest()] *)
Class Hashlib := sha256 : string → string.

(** The bytes of a [zipfile] archive holding these entries. *)
Class Archiver := zip_encode : list (path * string) → string.

(** [sha256_file], the same in both file restorers: the file is read in
    chunks of one MiB, which feed one digest. *)
Definition sha256_file `{Hashlib} (p : path) : M string :=
  c ← read_file p; mret (sha256 c).

(** [max(paths, key=lambda p: p.stat().st_mtime)]: the first of the newest. *)
Fixpoint max_mtime_go (best : path) (best_m : Z) (ps : list path) : M path :=
  match ps with
  | [] => ret best
  | p :: ps' =>
      m ← stat_mtime p;
      if best_m <? m then max_mtime_go p m ps' else max_mtime_go best best_m ps'
  end.

Definition max_mtime (ps : list path) : M path :=
  match ps with
  | [] => raise ValueError
  | p :: ps' => m ← stat_mtime p; max_mtime_go p m ps'
  end.

(** [choose_target], the same in both file restorers. *)
Definition choose_target (paths : list path) : M path :=
  match paths with
  | [p] => ret p
  | _ => max_mtime paths
  end.

(** [with ZipFile(zip_path, "w") as zf: for p in ...:
    zf.write(p, arcname=p.relative_to(src_dir))]: the archive is created
    empty, then the files are listed and read into it one by one. *)
Fixpoint zip_entries (src_dir : path) (ps : list path)
    (acc : list (path * string)) : M (list (path * string)) :=
  match ps with
  | [] => ret acc
  | p :: ps' =>
      c ← read_file p;
      zip_entries src_dir ps' (acc ++ [(default p (relative_to src_dir p), c)])
  end.

Definition zip_write `{Archiver} (zip_path src_dir : path)
    (lister : M (list path)) : M unit :=
  denied ← gets (λ w, deny w OpZip zip_path);
  if denied : bool then raise PermissionError
  else
    emit (EvZipOpen zip_path);;
    write_file zip_path "";;
    ps ← lister;
    es ← zip_entries src_dir ps [];
    emit (EvZip zip_path ps);;
    write_file zip_path (zip_encode es).

(** The files that [os.walk(src_dir)] visits. *)
Definition walk_files (src_dir : path) : M (list path) :=
  gets (λ w, List.filter (fs_is_file (files w)) (fs_descendants (files w) src_dir)).

Record summary := Summary {
  restored : Z;
  identical : Z;
  missing : Z;
  copied_missing : Z;
}.

Definition summary0 : summary := Summary 0 0 0 0.

Definition add_restored (s : summary) : summary :=
  Summary (restored s + 1) (identical s) (missing s) (copied_missing s).
Definition add_identical (s : summary) : summary :=
  Summary (restored s) (identical s + 1) (missing s) (copied_missing s).
Definition add_missing (s : summary) : summary :=
  Summary (restored s) (identical s) (missing s + 1) (copied_missing s).
Definition add_copied (s : summary) : summary :=
  Summary (restored s) (identical s) (missing s) (copied_missing s + 1).

End World.

(** ** [bms_restore.py] *)

Module Bms.
Import World PyStr PyPath.
Export BmsKey.

Record Settings := {
  bms_config_dir : path;
  backup_dir : path;
  zip_name_prefix : string;
  zip_destination : string;  (* "backup_dir" or "bms_config_dir" *)
  copy_if_missing : bool;
}.

Definition is_xml (p : path) : bool :=
  String.eqb (lower (suffix (name p))) ".xml".

Definition list_xml_files (folder : path) : M (list path) :=
  e ← exists_ folder;
  if e : bool then
    ps ← iterdir folder;
    xs ← gets (λ w, List.filter (λ p, fs_is_file (files w) p && is_xml p) ps);
    mret (sorted xs)
  else mret [].

(** A [dict[str, list[Path]]], in insertion order. *)
Abbreviation index := (list (string * list path)).

(** [idx.setdefault(k, []).append(p)] *)
Fixpoint setdefault_append (idx : index) (k : string) (p : path) : index :=
  match idx with
  | [] => [(k, [p])]
  | (k', ps) :: idx' =>
      if String.eqb k' k then (k', ps ++ [p]) :: idx'
      else (k', ps) :: setdefault_append idx' k p
  end.

(** [idx.get(key, [])] *)
Fixpoint index_get (idx : index) (key : string) : list path :=
  match idx with
  | [] => []
  | (k', ps) :: idx' => if String.eqb k' key then ps else index_get idx' key
  end.

Definition index_of (ps : list path) : index :=
  fold_left (λ idx p, setdefault_append idx (normalize_key (name p)) p) ps [].

Definition build_index (folder : path) : M index :=
  ps ← list_xml_files folder; mret (index_of ps).

Section Restore.
Context `{Hashlib} `{Archiver}.

Definition make_zip_of_bms_config (settings : Settings) (ts : string) : M path :=
  let src_dir := bms_config_dir settings in
  let dest_dir :=
    if String.eqb (zip_destination settings) "backup_dir"
    then backup_dir settings else bms_config_dir settings in
  mkdir_parents dest_dir;;
  let zip_path := dest_dir ++ [zip_name_prefix settings +:+ "." +:+ ts +:+ ".zip"] in
  zip_write zip_path src_dir (walk_files src_dir);;
  print TagZIP (name zip_path);;
  mret zip_path.

(** The [try ... finally] of [restore_from_backups]. *)
Definition replace_content (backup_file target : path) (acc : summary)
  : M summary :=
  tmp ← with_tmp_suffix target;
  try_finally
    (copyfile backup_file tmp;;
     replace tmp target;;
     print TagFIX (name target);;
     mret (add_restored acc))
    (cleanup_tmp tmp).

(** The body of the loop over [backup_index.items()]. *)
Definition restore_key (settings : Settings) (bms_index : index)
    (acc : summary) (item : string * list path) : M summary :=
  let '(key, backup_files) := item in
  backup_file ← choose_target backup_files;
  match index_get bms_index key with
  | [] =>
      if copy_if_missing settings then
        let dest := bms_config_dir settings ++ [name backup_file] in
        copy2 backup_file dest;;
        print TagCOPY (name dest);;
        mret (add_missing acc)
      else
        print TagMISS key;;
        mret (add_missing acc)
  | targets =>
      target ← choose_target targets;
      hb ← sha256_file backup_file;
      ht ← sha256_file target;
      if String.eqb hb ht then
        print TagOK (name target);;
        mret (add_identical acc)
      else replace_content backup_file target acc
  end.

(** [None] is the early return on a missing backup folder; otherwise the
    counters that the summary prints. *)
Definition restore_from_backups (settings : Settings) : M (option summary) :=
  eb ← exists_ (backup_dir settings);
  if negb eb then
    print TagWARN "Backup dir does not exist";;
    mret None
  else
    el ← exists_ (bms_config_dir settings);
    if negb el then raise FileNotFoundError
    else
      backup_index ← build_index (backup_dir settings);
      bms_index ← build_index (bms_config_dir settings);
      s ← for_each (restore_key settings bms_index) summary0 backup_index;
      emit (EvSummary (restored s) (identical s) (missing s));;
      mret (Some s).

(** [main], from the settings that [read_settings] returns; [ts] is the
    text of [datetime.now().strftime(...)]. *)
Definition main (settings : Settings) (ts : string) : M Z :=
  el ← exists_ (bms_config_dir settings);
  if negb el then raise FileNotFoundError
  else
    eb ← exists_ (backup_dir settings);
    (if negb eb then print TagWARN "backup_dir not found yet" else mret ());;
    make_zip_of_bms_config settings ts;;
    restore_from_backups settings;;
    mret 0.

End Restore.
End Bms.

(** ** [dcs_restore.py] *)

Module Dcs.
Import World PyStr PyPath.
Export DcsKey.

Record Settings := {
  dcs_input_dir : path;
  backup_dir : path;
  zip_name_prefix : string;
  zip_destination : string;
  copy_if_missing : bool;
}.

(** [p.suffixes[-2:] == [".diff", ".lua"]] *)
Definition is_diff_lua (p : path) : bool :=
  bool_decide (last_two (suffixes (name p)) = [".diff"; ".lua"]).

(** [rel.as_posix()] *)
Definition as_posix (rel : path) : string := join "/" rel.

Section Restore.
Context `{Hashlib} `{Archiver}.

Definition zip_entire_folder (src_dir dest_dir : path) (prefix ts : string) : M path :=
  mkdir_parents dest_dir;;
  let zip_path := dest_dir ++ [prefix +:+ "." +:+ ts +:+ ".zip"] in
  zip_write zip_path src_dir (walk_files src_dir);;
  print TagZIP (name zip_path);;
  mret zip_path.

(** The [try ... finally] that both branches of [restore_dcs] share, up to
    the extra line that the second one prints. *)
Definition replace_content (dry_run : bool) (backup_file target_file : path)
    (shown : string) (extra : M unit) (acc : summary) : M summary :=
  tmp ← with_tmp_suffix target_file;
  try_finally
    ((if dry_run then print TagDRYRUN shown
      else
        copyfile backup_file tmp;;
        replace tmp target_file;;
        print TagFIX shown);;
     extra;;
     mret (add_restored acc))
    (cleanup_tmp tmp).

(** The body of the loop over [sorted(backup_root.rglob("*"))]. *)
Definition restore_file (settings : Settings) (dry_run : bool)
    (acc : summary) (backup_file : path) : M summary :=
  let backup_root := backup_dir settings in
  let dcs_root := dcs_input_dir settings in
  f ← is_file backup_file;
  if negb f then mret acc
  else if String.eqb (lower (suffix (name backup_file))) ".zip" then mret acc
  else if negb (is_diff_lua backup_file) then mret acc
  else if negb (bool_decide (is_Some (GUID_DIFF_RE (name backup_file)))) then mret acc
  else if negb (String.eqb (lower (name (parent backup_file))) "joystick") then mret acc
  else
    match relative_to backup_root backup_file with
    | None => raise ValueError
    | Some rel =>
      let target_parent := dcs_root ++ parent rel in
      e ← exists_ target_parent;
      if negb e then
        if copy_if_missing settings then
          mkdir_parents target_parent;;
          let dest := dcs_root ++ rel in
          copy2 backup_file dest;;
          print TagCOPY (as_posix rel);;
          mret (add_copied (add_missing acc))
        else
          print TagMISS (as_posix (parent rel));;
          mret (add_missing acc)
      else if is_diff_lua backup_file
              && bool_decide (is_Some (GUID_DIFF_RE (name backup_file))) then
        let key := normalize_guid_filename (name backup_file) in
        ps ← iterdir target_parent;
        candidates ← gets (λ w,
          List.filter (λ p, fs_is_file (files w) p && is_diff_lua p
                            && String.eqb (normalize_guid_filename (name p)) key) ps);
        match candidates with
        | [] =>
            if copy_if_missing settings then
              let dest := target_parent ++ [name backup_file] in
              copy2 backup_file dest;;
              print TagCOPY (as_posix rel);;
              mret (add_copied (add_missing acc))
            else
              print TagMISS key;;
              mret (add_missing acc)
        | _ =>
            target_file ← choose_target candidates;
            hb ← sha256_file backup_file;
            ht ← sha256_file target_file;
            if String.eqb hb ht then
              print TagOK (as_posix (default target_file (relative_to dcs_root target_file)));;
              mret (add_identical acc)
            else
              replace_content dry_run backup_file target_file
                (as_posix (default target_file (relative_to dcs_root target_file)))
                (mret ()) acc
        end
      else
        let target_file := dcs_root ++ rel in
        et ← exists_ target_file;
        if negb et then
          if copy_if_missing settings then
            copy2 backup_file target_file;;
            print TagCOPY (as_posix rel);;
            mret (add_copied (add_missing acc))
          else
            print TagMISS (as_posix rel);;
            mret (add_missing acc)
        else
          hb ← sha256_file backup_file;
          ht ← sha256_file target_file;
          if String.eqb hb ht then
            print TagOK (as_posix rel);;
            mret (add_identical acc)
          else
            replace_content dry_run backup_file target_file
              (as_posix rel) (print TagFIX (as_posix rel)) acc
    end.

Definition restore_dcs (settings : Settings) (dry_run : bool) : M summary :=
  eb ← exists_ (backup_dir settings);
  if negb eb then raise FileNotFoundError
  else
    el ← exists_ (dcs_input_dir settings);
    if negb el then raise FileNotFoundError
    else
      backup_files ← rglob_all (backup_dir settings);
      s ← for_each (restore_file settings dry_run) summary0 (sorted backup_files);
      emit (EvSummary (restored s) (identical s) (missing s));;
      mret s.

(** [main], from the settings of [read_settings] and the answer of
    [ask_run_mode]. *)
Definition main (settings : Settings) (dry_run : bool) (ts : string) : M Z :=
  (if negb dry_run then
     let dest_dir := parent (backup_dir settings) in
     mkdir_parents dest_dir;;
     zip_entire_folder (dcs_input_dir settings) dest_dir (zip_name_prefix settings) ts;;
     mret ()
   else mret ());;
  restore_dcs settings dry_run;;
  mret 0.

End Restore.
End Dcs.

(** ** [okb_update_directinput_guids.py] *)

Module Okb.
Import World PyStr.

(** What [json.loads] returns.  A [dict] keeps its insertion order and has
    no two equal keys; numbers are kept as integers. *)
Inductive json :=
| JNull
| JBool (b : bool)
| JNum (n : Z)
| JStr (s : string)
| JArr (items : list json)
| JObj (members : list (string * json)).

(** The library functions on text, which the development does not look
    into. *)
Class PyText := {
  (** [json.loads(bytes.decode("utf-8"))], [None] when either raises *)
  json_loads : string → option json;
  (** [json.dumps(v, indent=2)], encoded *)
  json_dumps : json → string;
  (** [str.casefold] and [str.upper] *)
  casefold : string → string;
  upper : string → string;
  (** [str(v)] for a value that is not a [str] *)
  py_repr : json → string;
}.

Definition ZIP_PREFIX : string := "okb_directinput".
Definition CASE_INSENSITIVE_NAMES : bool := true.
Definition NORMALIZE_WHITESPACE : bool := true.

(** [d.get(k)] *)
Fixpoint dict_get {A} (d : list (string * A)) (k : string) : option A :=
  match d with
  | [] => None
  | (k', v) :: d' => if String.eqb k' k then Some v else dict_get d' k
  end.

(** [d[k] = v]: in place when the key is there, at the end otherwise. *)
Fixpoint dict_set {A} (d : list (string * A)) (k : string) (v : A)
  : list (string * A) :=
  match d with
  | [] => [(k, v)]
  | (k', v') :: d' =>
      if String.eqb k' k then (k', v) :: d' else (k', v') :: dict_set d' k v
  end.

(** [bool(v)]; a missing field reads as [None]. *)
Definition truthy (v : option json) : bool :=
  match v with
  | None | Some JNull => false
  | Some (JBool b) => b
  | Some (JNum n) => negb (n =? 0)
  | Some (JStr s) => negb (String.eqb s "")
  | Some (JArr l) => match l with [] => false | _ => true end
  | Some (JObj l) => match l with [] => false | _ => true end
  end.

(** What [enumerate_directinput_devices] returns:
    [(kind, normalized name) -> [guid, ...]]. *)
Abbreviation registry := (list ((string * string) * list string)).

Fixpoint registry_get (device_map : registry) (kind nname : string)
  : option (list string) :=
  match device_map with
  | [] => None
  | ((k, n), guids) :: rest =>
      if String.eqb k kind && String.eqb n nname then Some guids
      else registry_get rest kind nname
  end.

Record change := Change {
  ch_kind : string;
  ch_name : string;
  from_key : string;
  from_id : string;
  to : string;
}.

Record plan := Plan {
  file : path;
  changes : list change;
  new_data : json;
}.

Section Remap.
Context `{PyText}.

Definition normalize_name (name : string) : string :=
  let s := if NORMALIZE_WHITESPACE then join " " (split_ws name) else name in
  if CASE_INSENSITIVE_NAMES then casefold s else s.

(** [str(v)] *)
Definition py_str (v : json) : string :=
  match v with
  | JStr s => s
  | _ => py_repr v
  end.

(** [device_map.get((kind, normalize_name(name)))] for a record whose
    [Kind] and [Name] are truthy: [normalize_name] needs a [str], the key
    needs a hashable [Kind], and only a [str] is equal to a kind of the
    registry. *)
Definition lookup_device (device_map : registry) (kind name : option json)
  : res (option (list string)) :=
  match name with
  | Some (JStr n) =>
      let nname := normalize_name n in
      match kind with
      | Some (JStr k) => Ok (registry_get device_map k nname)
      | Some (JArr _) | Some (JObj _) => Raise TypeError
      | _ => Ok None
      end
  | _ => Raise AttributeError
  end.

(** The body of the loop over [devices.items()]. *)
Definition remap_entry (device_map : registry)
    (st : list (string * json) * list change) (item : string * json)
  : res (list (string * json) * list change) :=
  let '(new_devices, changes) := st in
  let '(old_guid, entry) := item in
  match entry with
  | JObj fields =>
      let kind := dict_get fields "Kind" in
      let name := dict_get fields "Name" in
      let old_id := default (JStr old_guid) (dict_get fields "ID") in
      if negb (truthy kind) || negb (truthy name) then
        Ok (dict_set new_devices old_guid entry, changes)
      else
        match lookup_device device_map kind name with
        | Raise e => Raise e
        | Ok None | Ok (Some []) =>
            Ok (dict_set new_devices old_guid entry, changes)
        | Ok (Some (new_guid :: _)) =>
            let old_key_u := upper old_guid in
            let old_id_u := upper (py_str old_id) in
            let changes' :=
              if negb (String.eqb old_key_u new_guid)
                 || negb (String.eqb old_id_u new_guid)
              then changes ++ [Change (py_str (default JNull kind))
                                      (py_str (default JNull name))
                                      old_key_u old_id_u new_guid]
              else changes in
            let new_entry := dict_set fields "ID" (JStr new_guid) in
            Ok (dict_set new_devices new_guid (JObj new_entry), changes')
        end
  | _ => Ok (dict_set new_devices old_guid entry, changes)
  end.

Fixpoint remap_devices (device_map : registry)
    (st : list (string * json) * list change) (devices : list (string * json))
  : res (list (string * json) * list change) :=
  match devices with
  | [] => Ok st
  | item :: rest =>
      match remap_entry device_map st item with
      | Ok st' => remap_devices device_map st' rest
      | Raise e => Raise e
      end
  end.

(** [build_plan_for_file] after the [try] that reads and parses. *)
Definition plan_of_data (path : path) (device_map : registry) (data : json)
  : res (option plan) :=
  match data with
  | JObj top =>
      match default (JObj []) (dict_get top "Devices") with
      | JObj devices =>
          match remap_devices device_map ([], []) devices with
          | Raise e => Raise e
          | Ok (new_devices, []) => Ok None
          | Ok (new_devices, changes) =>
              Ok (Some (Plan path changes
                          (JObj (dict_set top "Devices" (JObj new_devices)))))
          end
      | _ => Ok None
      end
  | _ => Raise AttributeError
  end.

Definition build_plan_for_file (path : path) (device_map : registry)
  : M (option plan) :=
  λ w, match read_file path w with
       | (Raise _, w') => (Ok None, w')
       | (Ok text, w') =>
           match json_loads text with
           | None => (Ok None, w')
           | Some data => (plan_of_data path device_map data, w')
           end
       end.

(** [p.write_text(text, encoding="utf-8")] *)
Definition write_text (p : path) (text : string) : M unit :=
  emit (EvWriteText p);; write_file p text.

(** [sorted(okb_root.rglob("DirectInput.json"))] *)
Definition find_directinput (okb_root : path) : M (list path) :=
  ps ← rglob_all okb_root;
  mret (sorted (List.filter (λ p, String.eqb (name p) "DirectInput.json") ps)).

(** [plans = []; for f in json_files: ...] *)
Fixpoint collect_plans (device_map : registry) (json_files : list path)
    (plans : list plan) : M (list plan) :=
  match json_files with
  | [] => mret plans
  | f :: rest =>
      pl ← build_plan_for_file f device_map;
      collect_plans device_map rest
        (match pl with Some p => plans ++ [p] | None => plans end)
  end.

Definition print_planned_changes (plans : list plan) : M unit :=
  for_each (λ _ pl, emit (EvPlanned (file pl) (length (changes pl)))) () plans.

Definition apply_plans (plans : list plan) : M unit :=
  for_each (λ _ pl,
    write_text (file pl) (json_dumps (new_data pl) +:+ String newline ""))
    () plans.

(** [main], from the roots that [load_ini] returns, the answer of
    [ask_mode] and the registry of [enumerate_directinput_devices]. *)
Definition main `{Archiver} (okb_root backup_root : path) (dry_run : bool)
    (device_map : registry) (ts : string) : M unit :=
  json_files ← find_directinput okb_root;
  match json_files with
  | [] => print TagINFO "No DirectInput.json files found."
  | _ =>
      plans ← collect_plans device_map json_files [];
      print_planned_changes plans;;
      match plans with
      | [] => print TagINFO "No changes required."
      | _ =>
          let zip_path := backup_root ++ [ZIP_PREFIX +:+ "_" +:+ ts +:+ ".zip"] in
          zip_write zip_path okb_root (mret (map file plans));;
          print TagINFO "Backup written";;
          if dry_run then print TagINFO "Dry-run: no files modified."
          else apply_plans plans;; print TagINFO "Changes applied."
      end
  end.

End Remap.
End Okb.

(** * Notions that the statements use *)

(** What [build_index] sees of a folder. *)
Module IndexSpec.
Import World.

(** The result of [list_xml_files] on an existing folder. *)
Definition xml_files (fs : gmap path node) (d : path) : list path :=
  sorted (List.filter (λ p, fs_is_file fs p && Bms.is_xml p) (fs_children fs d)).

Definition key_of (p : path) : string := BmsKey.normalize_key (name p).

(** [p.stat().st_mtime], when there is such a node. *)
Definition mtime_of (fs : gmap path node) (p : path) : option Z :=
  match fs !! p with
  | Some (File _ m) | Some (Dir m) => Some m
  | None => None
  end.

(** The candidates of one key. *)
Definition keyed (fs : gmap path node) (d : path) (k : string) : list path :=
  List.filter (λ p, String.eqb (key_of p) k) (xml_files fs d).

(** A world that holds these files, without faults. *)
Definition world_of_files (fs : gmap path node) : world :=
  World fs 0 (λ _ _, false) (λ _, O) [].

(** A key on which a pass has nothing left to do: the newest backup file
    [b] of the key and the newest live candidate have the same digest; or
    the key has no live candidate and is either left missing or was copied
    into a directory that stands where the copy should go. *)
Definition settled `{Hashlib} (st : Bms.Settings) (k : string)
    (backup_files : list path) (fs : gmap path node) : Prop :=
  ∃ b cb mb,
    (choose_target backup_files (world_of_files fs)).1 = Ok b ∧
    fs !! b = Some (File cb mb) ∧
    match keyed fs (Bms.bms_config_dir st) k with
    | [] =>
        Bms.copy_if_missing st = false ∨
        ∃ md, fs !! (Bms.bms_config_dir st ++ [name b]) = Some (Dir md) ∧
              fs !! (Bms.bms_config_dir st ++ [name b; name b]) = Some (File cb mb) ∧
              b ≠ Bms.bms_config_dir st ++ [name b; name b]
    | T =>
        ∃ t ct mt,
          (choose_target T (world_of_files fs)).1 = Ok t ∧
          fs !! t = Some (File ct mt) ∧ sha256 ct = sha256 cb
    end.

(** No operation fails by injection. *)
Definition no_faults (w : world) : Prop := ∀ op p, deny w op p = false.

End IndexSpec.

Module KeySpec.
Import PyStr PyRe.

(** What a regex consumes ([s1]) in front of what is left ([s2]). *)
Fixpoint lang (r : regex) (s1 s2 : string) : Prop :=
  match r with
  | Cls p => ∃ c, s1 = String c "" ∧ p c = true
  | Star p => forallb_str p s1 = true
  | Seq r1 r2 => ∃ a b, s1 = a +:+ b ∧ lang r1 a (b +:+ s2) ∧ lang r2 b s2
  | Eos => s1 = "" ∧ (s2 = "" ∨ s2 = String newline "")
  end.

(** The names that the tail of the two patterns accepts. *)
Definition guid_shape (ws g nl : string) : Prop :=
  ws ≠ "" ∧ forallb_str is_space ws = true ∧
  String.length g = 36%nat ∧ forallb_str is_hexdash g = true ∧
  (nl = "" ∨ nl = String newline "").

(** The names of the pattern [<stem> {<36-char GUID>}<ext>]. *)
Definition guid_named (ext name : string) : Prop :=
  ∃ stem ws g nl,
    forallb_str is_dot stem = true ∧ guid_shape ws g nl ∧
    name = stem +:+ ws +:+ "{" +:+ g +:+ "}" +:+ ext +:+ nl.

(** The last character of a text, if any. *)
Fixpoint last_char (s : string) : option ascii :=
  match s with
  | "" => None
  | String c s' => match last_char s' with Some d => Some d | None => Some c end
  end.

End KeySpec.

Module Audit.
Import World.

(** The path whose node an event may have changed. *)
Definition touches (e : event) (p : path) : Prop :=
  match e with
  | EvCopyfile _ dst => p = dst
  | EvCopy2 src dst => p = dst ∨ p = dst ++ [name src]
  | EvReplace src dst => p = src ∨ p = dst
  | EvUnlink q => p = q
  | EvZipOpen a => p = a
  | EvWriteText q => p = q
  | _ => False
  end.

Definition same_env (w w' : world) : Prop :=
  now w' = now w ∧ deny w' = deny w ∧ cut w' = cut w.

(** A computation whose every change to an existing node is announced by an
    event of the trace, all its events being of the kind [Q]. *)
Definition effects {A} (Q : event → Prop) (m : M A) : Prop :=
  ∀ w, same_env w (m w).2 ∧
       ∃ evs, trace (m w).2 = trace w ++ evs ∧ Forall Q evs ∧
              ∀ p n, files w !! p = Some n →
                     (∀ e, e ∈ evs → ¬ touches e p) →
                     files (m w).2 !! p = Some n.

(** A computation that is silent and changes no node but those of [P]. *)
Definition changes_only {A} (P : path → Prop) (m : M A) : Prop :=
  ∀ w, same_env w (m w).2 ∧ trace (m w).2 = trace w ∧
       ∀ p n, files w !! p = Some n → ¬ P p → files (m w).2 !! p = Some n.

(** A continuation that does nothing but print [evs] and return [s]. *)
Definition prints {S} (k : M S) (s : S) (evs : list event) : Prop :=
  ∀ w, k w = (Ok s, World (files w) (now w) (deny w) (cut w) (trace w ++ evs)).

(** The temporary sibling of a target. *)
Definition tmp_of (target : path) : path :=
  parent target ++ [name target +:+ ".tmp"].

(** What an identity-preserving replacement of the content of [target] by
    that of [backup_file] is: whatever happens, nothing but [target] and its
    temporary sibling changes and no file is left at the sibling (unless its
    removal fails too); a failure leaves [target] as it was; a success
    copies to the sibling, renames it over [target], and leaves the bytes of
    [backup_file] under the unchanged path [target]. *)
Definition atomic_replacement {S} (m : M S) (backup_file target : path)
    (w : world) : Prop :=
  let '(r, w') := m w in
  (∀ p, p ≠ tmp_of target → p ≠ target → files w' !! p = files w !! p) ∧
  (deny w OpUnlink (tmp_of target) = false →
   fs_is_file (files w') (tmp_of target) = false) ∧
  match r with
  | Raise _ => files w' !! target = files w !! target
  | Ok _ =>
      ∃ cb mb evs,
        files w !! backup_file = Some (File cb mb) ∧
        files w' = delete (tmp_of target) (<[target := File cb (now w)]> (files w)) ∧
        trace w' = trace w ++ EvCopyfile backup_file (tmp_of target)
                              :: EvReplace (tmp_of target) target :: evs
  end.

(** A replacement that returns [s]: [target] holds the bytes [cb], stamped
    by the clock, and nothing is left at its temporary sibling. *)
Definition replaced {S} (m : M S) (s : S) (target : path) (cb : string)
    (w : world) : Prop :=
  (m w).1 = Ok s ∧
  files (m w).2 !! target = Some (File cb (now w)) ∧
  files (m w).2 !! tmp_of target = None.





End Audit.

Module OkbSpec.
Import World Okb.
Section Spec.
Context `{PyText} `{Archiver}.

(** The live identifier that a record is re-keyed to, if any: the first
    identifier that the registry lists for its kind and normalized name. *)
Definition live_guid (device_map : registry) (entry : json) : option string :=
  match entry with
  | JObj fields =>
      if truthy (dict_get fields "Kind") && truthy (dict_get fields "Name") then
        match lookup_device device_map (dict_get fields "Kind")
                (dict_get fields "Name") with
        | Ok (Some (g :: _)) => Some g
        | _ => None
        end
      else None
  | _ => None
  end.

Definition out_key (device_map : registry) (item : string * json) : string :=
  default item.1 (live_guid device_map item.2).

Definition out_val (device_map : registry) (item : string * json) : json :=
  match live_guid device_map item.2, item.2 with
  | Some g, JObj fields => JObj (dict_set fields "ID" (JStr g))
  | _, e => e
  end.

Definition rekey (device_map : registry) (items new_devices : list (string * json))
  : list (string * json) :=
  fold_left (λ d it, dict_set d (out_key device_map it) (out_val device_map it))
    items new_devices.

(** A text that [build_plan_for_file] gives up on: not JSON, or JSON whose
    ["Devices"] is not an object. *)
Definition unusable (text : string) : Prop :=
  json_loads text = None ∨
  ∃ top v, json_loads text = Some (JObj top) ∧ dict_get top "Devices" = Some v ∧
           ∀ devices, v ≠ JObj devices.

(** What [main] does once the plans are known. *)
Definition after_plans (okb_root backup_root : path) (dry_run : bool)
    (ts : string) (plans : list plan) : M unit :=
  print_planned_changes plans;;
  match plans with
  | [] => print TagINFO "No changes required."
  | _ =>
      let zip_path := backup_root ++ [ZIP_PREFIX +:+ "_" +:+ ts +:+ ".zip"] in
      zip_write zip_path okb_root (mret (map file plans));;
      print TagINFO "Backup written";;
      if dry_run then print TagINFO "Dry-run: no files modified."
      else apply_plans plans;; print TagINFO "Changes applied."
  end.

End Spec.
End OkbSpec.


(** * Sample runs *)

(** Small worlds on which the programs are run: a digest that is the
    content itself, an archive that keeps nothing, and a JSON reader that
    knows one document. *)
Module Samples.
Import World Okb.

Definition hash_id : Hashlib := λ c, c.
Definition zip_stub : Archiver := λ es, "PK".
Definition no_deny : ioop → path → bool := λ _ _, false.
Definition world_of (fs : list (path * node)) (clock : Z) : world :=
  World (list_to_map fs) clock no_deny (λ _, O) [].

Definition g1 : string := "{11111111-1111-1111-1111-111111111111}".
Definition g2 : string := "{22222222-2222-2222-2222-222222222222}".
Definition g3 : string := "{33333333-3333-3333-3333-333333333333}".

(** BMS: two devices, both with a backup that differs from the live file. *)
Definition bms_settings : Bms.Settings :=
  Bms.Build_Settings ["bms"] ["bak"] "config" "backup_dir" false.

Definition bak_stick : path := ["bak"; "Stick " +:+ g1 +:+ ".xml"].
Definition bak_throttle : path := ["bak"; "Throttle " +:+ g1 +:+ ".xml"].
Definition bms_stick : path := ["bms"; "Stick " +:+ g2 +:+ ".xml"].
Definition bms_throttle : path := ["bms"; "Throttle " +:+ g2 +:+ ".xml"].

Definition bms_files : list (path * node) :=
  [ (["bms"], Dir 0); (["bak"], Dir 0);
    (bak_stick, File "X" 1); (bak_throttle, File "T" 1);
    (bms_stick, File "Y" 2); (bms_throttle, File "U" 2) ].

Definition bms_world : world := world_of bms_files 10.

(** The same files, on a system that refuses to rename onto the live file
    of the stick. *)
Definition refuse_stick : ioop → path → bool :=
  λ op p, match op with
          | OpReplace => String.eqb (name p) (name bms_stick)
          | _ => false
          end.

Definition bms_refused : world :=
  World (list_to_map bms_files) 10 refuse_stick (λ _, O) [].

(** The same files, on a system that refuses the rename and the removal of
    the temporary file as well. *)
Definition refuse_stick_and_cleanup : ioop → path → bool :=
  λ op p, match op with
          | OpReplace => String.eqb (name p) (name bms_stick)
          | OpUnlink => String.eqb (name p) (name bms_stick +:+ ".tmp")
          | _ => false
          end.

Definition bms_stuck : world :=
  World (list_to_map bms_files) 10 refuse_stick_and_cleanup (λ _, O) [].

Definition bms_live_index : Bms.index :=
  [ ("Stick", [bms_stick]); ("Throttle", [bms_throttle]) ].

(** The world after a pass. *)
Definition bms_after : world :=
  (Bms.restore_from_backups (H := hash_id) bms_settings bms_world).2.

(** A world without the backup folder. *)
Definition bms_no_backup : world := world_of [ (["bms"], Dir 0) ] 10.

(** DCS *)
Definition dcs_settings (copy : bool) : Dcs.Settings :=
  Dcs.Build_Settings ["dcs"] ["bak"; "tree"] "dcs" "backup_dir" copy.

Definition dcs_bak_stick (g : string) : path :=
  ["bak"; "tree"; "Joystick"; "Stick " +:+ g +:+ ".diff.lua"].
Definition dcs_live_stick (g : string) : path :=
  ["dcs"; "Joystick"; "Stick " +:+ g +:+ ".diff.lua"].

(** A backup file whose device has no file in the live tree. *)
Definition dcs_missing : world :=
  world_of [ (["dcs"], Dir 0); (["dcs"; "Joystick"], Dir 0);
             (["bak"], Dir 0); (["bak"; "tree"], Dir 0);
             (["bak"; "tree"; "Joystick"], Dir 0);
             (dcs_bak_stick g1, File "X" 1) ] 10.

(** Two backup files of one device, with different contents. *)
Definition dcs_twice : world :=
  world_of [ (["dcs"], Dir 0); (["dcs"; "Joystick"], Dir 0);
             (dcs_live_stick g3, File "Y" 3);
             (["bak"], Dir 0); (["bak"; "tree"], Dir 0);
             (["bak"; "tree"; "Joystick"], Dir 0);
             (dcs_bak_stick g1, File "X1" 1);
             (dcs_bak_stick g2, File "X2" 2) ] 10.




Definition dcs_after : world :=
  (Dcs.restore_dcs (H := hash_id) (dcs_settings false) false dcs_twice).2.

(** A live tree without its backup tree. *)
Definition dcs_no_backup : world :=
  world_of [ (["dcs"], Dir 0); (["dcs"; "Joystick"], Dir 0) ] 10.

(** OpenKneeboard: one profile whose document lists the same stick twice
    under two stale identifiers, and one profile whose file is not JSON. *)
Definition stick_a : list (string * json) :=
  [ ("ID", JStr g1); ("Kind", JStr "GameController"); ("Name", JStr "Stick") ].
Definition stick_b : list (string * json) :=
  [ ("ID", JStr g2); ("Kind", JStr "GameController"); ("Name", JStr "Stick");
    ("Buttons", JNum 3) ].
Definition okb_doc : list (string * json) :=
  [ ("Devices", JObj [ (g1, JObj stick_a); (g2, JObj stick_b) ]) ].

Definition text_toy : PyText := {|
  json_loads := λ s, if String.eqb s "doc" then Some (JObj okb_doc) else None;
  json_dumps := λ _, "dumped";
  casefold := PyStr.lower;
  upper := λ s, s;
  py_repr := λ _, "";
|}.

Definition okb_registry : registry := [ (("GameController", "stick"), [g3]) ].

Definition okb_good : path := ["okb"; "a"; "DirectInput.json"].
Definition okb_broken : path := ["okb"; "b"; "DirectInput.json"].

(** The plan for the good profile. *)
Definition okb_plan : plan :=
  match plan_of_data (H := text_toy) okb_good okb_registry (JObj okb_doc) with
  | Ok (Some pl) => pl
  | _ => Plan okb_good [] JNull
  end.

Definition okb_world : world :=
  world_of [ (["okb"], Dir 0); (["okb"; "a"], Dir 0); (["okb"; "b"], Dir 0);
             (["zips"], Dir 0);
             (okb_good, File "doc" 1); (okb_broken, File "{oops" 1) ] 10.

End Samples.

(** * Notions for the order of a run *)

Module Order.
Import World.

(** The events by which a run changes or removes a file that is not its
    archive. *)
Definition mutation (e : event) : Prop :=
  match e with
  | EvCopyfile _ _ | EvCopy2 _ _ | EvReplace _ _ | EvUnlink _ | EvWriteText _ => True
  | _ => False
  end.

(** A computation whose events are all of the kind [Q]. *)
Definition emits {A} (Q : event → Prop) (m : M A) : Prop :=
  ∀ w, ∃ evs, trace (m w).2 = trace w ++ evs ∧ Forall Q evs.

(** A computation that has filled an archive whenever it returns. *)
Definition zips {A} (m : M A) : Prop :=
  ∀ w a w', m w = (Ok a, w') →
    ∃ evs z srcs, trace w' = trace w ++ evs ∧ EvZip z srcs ∈ evs.

(** Events among which an archive was filled before the first change. *)
Definition archive_first (evs : list event) : Prop :=
  ∀ pre e post, evs = pre ++ e :: post → mutation e →
    ∃ z srcs, EvZip z srcs ∈ pre.

Definition archived_run {A} (m : M A) : Prop :=
  ∀ w, ∃ evs, trace (m w).2 = trace w ++ evs ∧ archive_first evs.

(** An event that writes, if at all, at or below [root]. *)
Definition within (root : path) (e : event) : Prop :=
  match e with
  | EvCopyfile _ dst | EvCopy2 _ dst => root `prefix_of` dst
  | EvReplace src dst => root `prefix_of` src ∧ root `prefix_of` dst
  | EvUnlink p => root `prefix_of` p
  | EvZipOpen _ | EvZip _ _ | EvWriteText _ => False
  | _ => True
  end.

(** The backup files that the DCS restorer applies: device files with a
    GUID in the name, in a folder named [joystick] in any mix of cases. *)
Definition binding_file (p : path) : Prop :=
  Dcs.is_diff_lua p = true ∧ is_Some (DcsKey.GUID_DIFF_RE (name p)) ∧
  PyStr.lower (name (parent p)) = "joystick".

(** An event that copies, if at all, from a file that [P] holds of. *)
Definition copies_from (P : path → Prop) (e : event) : Prop :=
  match e with
  | EvCopyfile src _ | EvCopy2 src _ => P src
  | _ => True
  end.

(** The events of a run of the remapper that found [json_files]. *)
Definition okb_event (json_files : list path) (zip_path : path) (dry_run : bool)
    (e : event) : Prop :=
  match e with
  | EvPrint _ _ | EvPlanned _ _ => True
  | EvZipOpen z | EvZip z _ => z = zip_path
  | EvWriteText p => dry_run = false ∧ p ∈ json_files
  | _ => False
  end.

End Order.

(** * More sample runs *)

Module Samples2.
Import World Okb Samples.

(** The BMS settings with the archive in the live folder. *)
Definition bms_settings_live : Bms.Settings :=
  Bms.Build_Settings ["bms"] ["bak"] "config" "bms_config_dir" false.

Definition bms_archive : path := ["bms"; "config.T.zip"].

(** No device is attached. *)
Definition okb_no_devices : registry := [].

End Samples2.

(** * The prompts and the device kinds *)

(** The answers are the lines that [input] returns, one for each prompt;
    when they run out [input] raises [EOFError], for which [None] stands.
    Beside the choice, what was written to the terminal. *)
Module Prompt.
Import PyStr.

Definition dcs_menu : list string :=
  [ ""; "Select mode:"; "  [D] Dry run (no changes)"; "  [R] Replace files";
    "Choice [D/R]: " ].

(** [ask_run_mode] of [dcs_restore.py]; [true] is the dry run. *)
Fixpoint ask_run_mode (answers : list string) : option bool * list string :=
  match answers with
  | [] => (None, dcs_menu)
  | a :: rest =>
      let choice := lower (strip a) in
      if String.eqb choice "" || String.eqb choice "d" then
        (Some true, dcs_menu ++ ["Dry-run selected. No files will be modified."])
      else if String.eqb choice "r" then
        (Some false, dcs_menu ++ ["Replace mode selected. Files may be modified."])
      else
        let '(r, out) := ask_run_mode rest in
        (r, dcs_menu ++ ["Invalid choice. Please enter D or R."] ++ out)
  end.

Definition okb_prompt (default_dry_run : bool) : string :=
  "Mode? [D]ry-run or [R]eplace (default "
  +:+ (if default_dry_run then "D" else "R") +:+ "): ".

(** [ask_mode] of [okb_update_directinput_guids.py] *)
Fixpoint ask_mode (default_dry_run : bool) (answers : list string)
  : option bool * list string :=
  match answers with
  | [] => (None, [okb_prompt default_dry_run])
  | a :: rest =>
      let ans := lower (strip a) in
      if String.eqb ans "" then (Some default_dry_run, [okb_prompt default_dry_run])
      else if startswith ans "d" then (Some true, [okb_prompt default_dry_run])
      else if startswith ans "r" then (Some false, [okb_prompt default_dry_run])
      else
        let '(r, out) := ask_mode default_dry_run rest in
        (r, okb_prompt default_dry_run :: "Please enter D or R." :: out)
  end.

End Prompt.

Module DeviceKind.

Definition DIDEVTYPE_KEYBOARD : Z := 18.
Definition DIDEVTYPE_MOUSE : Z := 19.
Definition DIDEVTYPE_JOYSTICK : Z := 20.
Definition DIDEVTYPE_GAMEPAD : Z := 21.
Definition DIDEVTYPE_DRIVING : Z := 22.
Definition DIDEVTYPE_FLIGHT : Z := 23.
Definition DIDEVTYPE_1STPERSON : Z := 24.

(** [kind_from_dwDevType]: the device type is the low byte. *)
Definition kind_from_dwDevType (dwDevType : Z) : string :=
  let t := Z.land dwDevType 255 in
  if t =? DIDEVTYPE_KEYBOARD then "Keyboard"
  else if t =? DIDEVTYPE_MOUSE then "Mouse"
  else if (t =? DIDEVTYPE_JOYSTICK) || (t =? DIDEVTYPE_GAMEPAD)
          || (t =? DIDEVTYPE_DRIVING) || (t =? DIDEVTYPE_FLIGHT)
          || (t =? DIDEVTYPE_1STPERSON)
  then "GameController"
  else "Other".

End DeviceKind.

Module StrFacts.
Import PyStr.

Lemma app_cons c a b : String c a +:+ b = String c (a +:+ b).
Proof. reflexivity. Qed.

Lemma app_nil_l b : "" +:+ b = b.
Proof. reflexivity. Qed.

Ltac sapp := rewrite ?app_cons, ?app_nil_l in *.

Lemma app_nil_r s : s +:+ "" = s.
Proof. induction s; sapp; congruence. Qed.

Lemma app_assoc a b c : (a +:+ b) +:+ c = a +:+ b +:+ c.
Proof. induction a; sapp; congruence. Qed.

Ltac snorm :=
  repeat (rewrite app_assoc || rewrite app_cons || rewrite app_nil_l
          || rewrite app_nil_r).

Lemma length_app a b : String.length (a +:+ b) = (String.length a + String.length b)%nat.
Proof. induction a; sapp; simpl; congruence. Qed.

Lemma app_inj_tail a b t u :
  String.length t = String.length u → a +:+ t = b +:+ u → a = b ∧ t = u.
Proof.
  revert b. induction a as [|c a IH]; intros [|d b] Hl E; sapp.
  - done.
  - subst t. simpl in Hl. rewrite length_app in Hl. lia.
  - subst u. simpl in Hl. rewrite length_app in Hl. lia.
  - injection E as -> E. destruct (IH b Hl E) as [-> ->]. done.
Qed.

Lemma forallb_app p a b :
  forallb_str p (a +:+ b) = forallb_str p a && forallb_str p b.
Proof. induction a; sapp; simpl; [done|]. rewrite IHa. by rewrite andb_assoc. Qed.

Lemma rstrip_spaces ws : forallb_str is_space ws = true → rstrip ws = "".
Proof.
  induction ws as [|c ws IH]; simpl; [done|].
  intros [Hc Hw]%andb_true_iff. rewrite (IH Hw), Hc. done.
Qed.

Lemma rstrip_app_spaces a ws :
  forallb_str is_space ws = true → rstrip (a +:+ ws) = rstrip a.
Proof.
  intros Hw. induction a as [|c a IH]; sapp; simpl.
  - by apply rstrip_spaces.
  - by rewrite IH.
Qed.

Lemma strip_app_spaces a ws :
  forallb_str is_space ws = true → strip (a +:+ ws) = strip a.
Proof. intros. unfold strip. by rewrite rstrip_app_spaces. Qed.

End StrFacts.

Module ReFacts.
Import PyStr PyRe KeySpec StrFacts.

Lemma star_k_iff p s k :
  star_k p s k = true ↔
  ∃ s1 s2, s = s1 +:+ s2 ∧ forallb_str p s1 = true ∧ k s2 = true.
Proof.
  induction s as [|c s IH]; simpl.
  - split.
    + intros Hk. exists "", "". done.
    + intros (s1 & s2 & E & _ & Hk). destruct s1; sapp; [|done]. by subst s2.
  - destruct (p c) eqn:Hc.
    + rewrite orb_true_iff, IH. split.
      * intros [(s1 & s2 & -> & H1 & H2)|Hk].
        -- exists (String c s1), s2. sapp. simpl. rewrite Hc. done.
        -- exists "", (String c s). done.
      * intros (s1 & s2 & E & H1 & H2). destruct s1 as [|d s1]; sapp.
        -- right. by subst s2.
        -- injection E as <- ->. simpl in H1. rewrite Hc in H1. left. eauto.
    + split.
      * intros Hk. exists "", (String c s). done.
      * intros (s1 & s2 & E & H1 & H2). destruct s1 as [|d s1]; sapp.
        -- by subst s2.
        -- injection E as <- ->. simpl in H1. by rewrite Hc in H1.
Qed.

Lemma run_iff r : ∀ s k,
  run r s k = true ↔ ∃ s1 s2, s = s1 +:+ s2 ∧ lang r s1 s2 ∧ k s2 = true.
Proof.
  induction r as [p|p|r1 IH1 r2 IH2|]; intros s k; simpl.
  - destruct s as [|c s].
    + split; [done|]. intros (s1 & s2 & E & (c & -> & _) & _). done.
    + rewrite andb_true_iff. split.
      * intros [Hc Hk]. exists (String c ""), s. eauto.
      * intros (s1 & s2 & E & (d & -> & Hd) & Hk). sapp. by injection E as -> ->.
  - apply star_k_iff.
  - rewrite IH1. split.
    + intros (a & rest & -> & Ha & (b & s2 & -> & Hb & Hk)%IH2).
      exists (a +:+ b), s2. rewrite app_assoc. eauto 10.
    + intros (s1 & s2 & -> & (a & b & -> & Ha & Hb) & Hk).
      exists a, (b +:+ s2). rewrite app_assoc. split; [done|]. split; [done|].
      apply IH2. eauto.
  - rewrite andb_true_iff, orb_true_iff, !String.eqb_eq. split.
    + intros [Hs Hk]. exists "", s. sapp. done.
    + intros (s1 & s2 & -> & [-> Hs] & Hk). sapp. done.
Qed.

Lemma lang_lit t r s1 s2 :
  lang (lit t r) s1 s2 ↔ ∃ b, s1 = t +:+ b ∧ lang r b s2.
Proof.
  revert s1. induction t as [|c t IH]; intros s1; simpl.
  - split; [eauto|]. by intros (b & -> & ?).
  - split.
    + intros (a & b & -> & (d & -> & Hd) & (b' & -> & Hb)%IH).
      apply Ascii.eqb_eq in Hd as <-. exists b'. done.
    + intros (b & -> & Hb). exists (String c ""), (t +:+ b).
      split; [done|]. split; [exists c; by rewrite Ascii.eqb_refl|].
      apply IH. eauto.
Qed.

Lemma lang_rep n p r s1 s2 :
  lang (rep n p r) s1 s2 ↔
  ∃ g b, s1 = g +:+ b ∧ String.length g = n ∧ forallb_str p g = true ∧ lang r b s2.
Proof.
  revert s1. induction n as [|n IH]; intros s1; simpl.
  - split.
    + intros Hr. exists "", s1. done.
    + intros (g & b & -> & Hl & _ & Hb). destruct g; [done|]. done.
  - split.
    + intros (a & b & -> & (c & -> & Hc) & (g & b' & -> & Hl & Hg & Hb)%IH).
      exists (String c g), b'. simpl. rewrite Hc, Hl. done.
    + intros (g & b & -> & Hl & Hg & Hb). destruct g as [|c g]; [done|].
      simpl in *. apply andb_true_iff in Hg as [Hc Hg].
      exists (String c ""), (g +:+ b). split; [done|]. split; [eauto|].
      apply IH. exists g, b. split; [done|]. split; [lia|]. done.
Qed.

Lemma lang_seq r1 r2 s1 s2 :
  lang (Seq r1 r2) s1 s2 ↔
  ∃ a b, s1 = a +:+ b ∧ lang r1 a (b +:+ s2) ∧ lang r2 b s2.
Proof. reflexivity. Qed.

Lemma guid_tail_iff ext s :
  run (guid_tail ext) s (λ _, true) = true ↔
  ∃ ws g nl, guid_shape ws g nl ∧ s = ws +:+ "{" +:+ g +:+ "}" +:+ ext +:+ nl.
Proof.
  rewrite run_iff. unfold guid_tail. split.
  - intros (s1 & s2 & -> & Hl & _).
    apply lang_seq in Hl as (a & b & -> & (c & -> & Hc) & Hl).
    apply lang_seq in Hl as (a2 & b2 & -> & Ha2 & Hl).
    apply lang_lit in Hl as (b3 & -> & Hl).
    apply lang_rep in Hl as (g & b4 & -> & Hg & Hgh & Hl).
    apply lang_lit in Hl as (b5 & -> & Hl).
    apply lang_lit in Hl as (b6 & -> & [-> Hnl]).
    exists (String c a2), g, s2. split.
    + split; [done|]. simpl. simpl in Ha2. rewrite Hc. done.
    + snorm. done.
  - intros (ws & g & nl & (Hws & Hsp & Hg & Hgh & Hnl) & ->).
    destruct ws as [|c ws]; [done|]. simpl in Hsp. apply andb_true_iff in Hsp as [Hc Hsp].
    exists (String c ws +:+ "{" +:+ g +:+ "}" +:+ ext), nl.
    split; [by rewrite !app_assoc|]. split; [|done].
    apply lang_seq. exists (String c ""), (ws +:+ "{" +:+ g +:+ "}" +:+ ext). split; [done|].
    split; [simpl; eauto|].
    apply lang_seq. exists ws, ("{" +:+ g +:+ "}" +:+ ext). split; [done|]. split; [done|].
    apply lang_lit. exists (g +:+ "}" +:+ ext). split; [done|].
    apply lang_rep. exists g, ("}" +:+ ext). split; [done|]. split; [done|]. split; [done|].
    apply lang_lit. exists ext. split; [done|].
    apply lang_lit. exists "". split; [by rewrite app_nil_r|]. done.
Qed.

Lemma capture_star_sound p s k g :
  capture_star p s k = Some g →
  ∃ rest, s = g +:+ rest ∧ forallb_str p g = true ∧ k rest = true.
Proof.
  revert g. induction s as [|c s IH]; intros g; simpl.
  - destruct (k "") eqn:Hk; [|done]. intros [= <-]. exists "". done.
  - destruct (p c) eqn:Hc.
    + destruct (capture_star p s k) as [g'|] eqn:Hg.
      * intros [= <-]. destruct (IH _ eq_refl) as (rest & -> & Hp & Hk).
        exists rest. simpl. rewrite Hc. done.
      * destruct (k (String c s)) eqn:Hk; [|done]. intros [= <-]. eauto.
    + destruct (k (String c s)) eqn:Hk; [|done]. intros [= <-]. eauto.
Qed.

Lemma capture_star_complete p s k g rest :
  s = g +:+ rest → forallb_str p g = true → k rest = true →
  is_Some (capture_star p s k).
Proof.
  revert g. induction s as [|c s IH]; intros g E Hg Hk; simpl.
  - destruct g; [|done]. sapp. subst rest. rewrite Hk. done.
  - destruct g as [|d g]; sapp.
    + subst rest. rewrite Hk. destruct (p c); [|done].
      destruct (capture_star p s k); done.
    + injection E as <- ->. simpl in Hg. apply andb_true_iff in Hg as [-> Hg].
      destruct (IH g eq_refl Hg Hk) as [g' ->]. done.
Qed.

End ReFacts.

Module KeyFacts.
Import PyStr PyPath PyRe KeySpec StrFacts ReFacts.

Lemma last_char_app a b : b ≠ "" → last_char (a +:+ b) = last_char b.
Proof.
  intros Hb. induction a as [|c a IH]; sapp; [done|]. simpl. rewrite IH.
  destruct b as [|d b]; [done|]. simpl. by destruct (last_char b).
Qed.

Lemma last_char_snoc a c : last_char (a +:+ String c "") = Some c.
Proof. by rewrite last_char_app. Qed.

(** The text after the stem determines how long it is. *)
Lemma guid_tails_equal ext e0 c P1 ws1 g1 nl1 P2 ws2 g2 nl2 :
  ext = e0 +:+ String c "" → c ≠ newline →
  guid_shape ws1 g1 nl1 → guid_shape ws2 g2 nl2 →
  P1 +:+ ws1 +:+ "{" +:+ g1 +:+ "}" +:+ ext +:+ nl1 =
  P2 +:+ ws2 +:+ "{" +:+ g2 +:+ "}" +:+ ext +:+ nl2 →
  P1 +:+ ws1 = P2 +:+ ws2.
Proof.
  intros -> Hc (_ & _ & Hg1 & _ & Hn1) (_ & _ & Hg2 & _ & Hn2) E.
  assert (nl1 = nl2) as ->.
  { apply (f_equal last_char) in E.
    destruct Hn1 as [-> | ->], Hn2 as [-> | ->]; try done.
    - rewrite !app_nil_r in E.
      replace (P1 +:+ ws1 +:+ "{" +:+ g1 +:+ "}" +:+ e0 +:+ String c "")
        with ((P1 +:+ ws1 +:+ "{" +:+ g1 +:+ "}" +:+ e0) +:+ String c "") in E
        by (snorm; done).
      replace (P2 +:+ ws2 +:+ "{" +:+ g2 +:+ "}" +:+ (e0 +:+ String c "") +:+ String newline "")
        with ((P2 +:+ ws2 +:+ "{" +:+ g2 +:+ "}" +:+ e0 +:+ String c "") +:+ String newline "") in E
        by (snorm; done).
      rewrite !last_char_snoc in E. congruence.
    - rewrite !app_nil_r in E.
      replace (P2 +:+ ws2 +:+ "{" +:+ g2 +:+ "}" +:+ e0 +:+ String c "")
        with ((P2 +:+ ws2 +:+ "{" +:+ g2 +:+ "}" +:+ e0) +:+ String c "") in E
        by (snorm; done).
      replace (P1 +:+ ws1 +:+ "{" +:+ g1 +:+ "}" +:+ (e0 +:+ String c "") +:+ String newline "")
        with ((P1 +:+ ws1 +:+ "{" +:+ g1 +:+ "}" +:+ e0 +:+ String c "") +:+ String newline "") in E
        by (snorm; done).
      rewrite !last_char_snoc in E. congruence. }
  rewrite <-!(app_assoc P1), <-!(app_assoc P2) in E.
  apply app_inj_tail in E; [tauto|].
  rewrite !length_app. simpl. lia.
Qed.

Lemma guid_match_shape ext e0 c stem ws g nl :
  ext = e0 +:+ String c "" → c ≠ newline →
  forallb_str is_dot stem = true → guid_shape ws g nl →
  ∃ s, guid_match ext (stem +:+ ws +:+ "{" +:+ g +:+ "}" +:+ ext +:+ nl) = Some s
       ∧ strip s = strip stem.
Proof.
  intros Hext Hc Hstem Hsh. unfold guid_match.
  set (k := λ rest, run (guid_tail ext) rest (λ _, true)).
  set (name := stem +:+ ws +:+ "{" +:+ g +:+ "}" +:+ ext +:+ nl).
  assert (Hk : k (ws +:+ "{" +:+ g +:+ "}" +:+ ext +:+ nl) = true).
  { apply guid_tail_iff. eauto. }
  destruct (capture_star_complete is_dot name k stem _ eq_refl Hstem Hk) as [s Hs].
  exists s. split; [done|].
  apply capture_star_sound in Hs as (rest & E & _ & Hrest).
  apply guid_tail_iff in Hrest as (ws' & g' & nl' & Hsh' & ->).
  pose proof (guid_tails_equal _ _ _ _ _ _ _ _ _ _ _ Hext Hc Hsh Hsh' E) as E'.
  rewrite <-(strip_app_spaces s ws'), <-(strip_app_spaces stem ws), E'; [done|..].
  - apply Hsh.
  - apply Hsh'.
Qed.

Lemma guid_match_inv ext name s :
  guid_match ext name = Some s →
  forallb_str is_dot s = true ∧
  ∃ ws g nl, guid_shape ws g nl ∧
             name = s +:+ ws +:+ "{" +:+ g +:+ "}" +:+ ext +:+ nl.
Proof.
  intros (rest & -> & Hs & Hrest)%capture_star_sound. split; [done|].
  apply guid_tail_iff in Hrest as (ws & g & nl & Hsh & ->). eauto.
Qed.

Lemma guid_match_None ext name : ¬ guid_named ext name → guid_match ext name = None.
Proof.
  intros Hn. destruct (guid_match ext name) as [s|] eqn:E; [|done].
  destruct Hn. apply guid_match_inv in E as (Hs & ws & g & nl & Hsh & ->).
  exists s, ws, g, nl. done.
Qed.

(** C4 (key normalizers, as the code has them).  On a name of the shape
    [<stem><spaces>{<36 hex digits or dashes>}<ext>], with [.xml] for BMS
    and [.diff.lua] for DCS, both normalizers return the stripped stem.  On
    any other name the BMS normalizer returns the name without its last
    extension, stripped, and the DCS normalizer returns the name as it
    is. *)
Theorem key_normalizers :
  (∀ stem ws g nl,
     forallb_str is_dot stem = true → guid_shape ws g nl →
     BmsKey.normalize_key (stem +:+ ws +:+ "{" +:+ g +:+ "}" +:+ ".xml" +:+ nl)
       = strip stem ∧
     DcsKey.normalize_guid_filename
       (stem +:+ ws +:+ "{" +:+ g +:+ "}" +:+ ".diff.lua" +:+ nl) = strip stem)
  ∧ (∀ name, ¬ guid_named ".xml" name →
       BmsKey.normalize_key name = strip (PyPath.stem name))
  ∧ (∀ name, ¬ guid_named ".diff.lua" name →
       DcsKey.normalize_guid_filename name = name).
Proof.
  split; [|split].
  - intros stem ws g nl Hstem Hsh. split.
    + unfold BmsKey.normalize_key, BmsKey.GUID_FILENAME_RE.
      destruct (guid_match_shape ".xml" ".xm" "l" stem ws g nl) as (s & -> & Hs); done.
    + unfold DcsKey.normalize_guid_filename, DcsKey.GUID_DIFF_RE.
      destruct (guid_match_shape ".diff.lua" ".diff.lu" "a" stem ws g nl) as (s & -> & Hs); done.
  - intros name Hn. unfold BmsKey.normalize_key, BmsKey.GUID_FILENAME_RE.
    by rewrite guid_match_None.
  - intros name Hn. unfold DcsKey.normalize_guid_filename, DcsKey.GUID_DIFF_RE.
    by rewrite guid_match_None.
Qed.

Lemma key_normalizers_witness :
  BmsKey.normalize_key "Profile A {11111111-1111-1111-1111-111111111111}.xml"
    = "Profile A"
  ∧ DcsKey.normalize_guid_filename
      "Profile A {11111111-1111-1111-1111-111111111111}.diff.lua" = "Profile A".
Proof.
  apply (proj1 key_normalizers "Profile A" " "
           "11111111-1111-1111-1111-111111111111" "").
  - reflexivity.
  - unfold guid_shape. split; [discriminate|]. split; [reflexivity|].
    split; [reflexivity|]. split; [reflexivity|]. left; reflexivity.
Defined.

Lemma dcs_fallback_keeps_extension :
  DcsKey.GUID_DIFF_RE "Keyboard.diff.lua" = None
  ∧ DcsKey.normalize_guid_filename "Keyboard.diff.lua"
    ≠ strip (PyPath.stem "Keyboard.diff.lua").
Proof. split; [vm_compute; reflexivity|]. vm_compute. discriminate. Qed.

End KeyFacts.

Module OkbFacts.
Import World Okb OkbSpec.

Section Dict.
Context {A : Type}.
Implicit Types (d : list (string * A)) (k : string) (v : A).

Lemma dict_get_set d k v k' :
  dict_get (dict_set d k v) k' = if String.eqb k k' then Some v else dict_get d k'.
Proof.
  induction d as [|[k0 v0] d IH]; simpl.
  - destruct (String.eqb k k'); done.
  - destruct (String.eqb k0 k) eqn:E0; simpl.
    + apply String.eqb_eq in E0 as ->. destruct (String.eqb k k'); done.
    + destruct (String.eqb k0 k') eqn:E1; [|done].
      apply String.eqb_eq in E1 as ->.
      rewrite String.eqb_sym, E0. done.
Qed.

Lemma dict_get_set_eq d k v : dict_get (dict_set d k v) k = Some v.
Proof. by rewrite dict_get_set, String.eqb_refl. Qed.

Lemma dict_get_set_ne d k v k' : k ≠ k' → dict_get (dict_set d k v) k' = dict_get d k'.
Proof. intros Hn. rewrite dict_get_set. by apply String.eqb_neq in Hn as ->. Qed.

Lemma dict_get_Some_keys d k v : dict_get d k = Some v → k ∈ d.*1.
Proof.
  induction d as [|[k0 v0] d IH]; simpl; [done|].
  destruct (String.eqb k0 k) eqn:E.
  - apply String.eqb_eq in E as ->. intros _. apply list_elem_of_here.
  - intros Hg. apply list_elem_of_further. auto.
Qed.

Lemma dict_get_None_keys d k : dict_get d k = None ↔ k ∉ d.*1.
Proof.
  induction d as [|[k0 v0] d IH]; simpl.
  - split; [intros _; apply not_elem_of_nil|done].
  - rewrite not_elem_of_cons. destruct (String.eqb k0 k) eqn:E.
    + apply String.eqb_eq in E as ->. split; [done|]. intros [? _]. done.
    + apply String.eqb_neq in E. rewrite IH. naive_solver.
Qed.

Lemma dict_set_keys_in d k v : k ∈ d.*1 → (dict_set d k v).*1 = d.*1.
Proof.
  induction d as [|[k0 v0] d IH].
  - intros ?%elem_of_nil. done.
  - cbn [dict_set]. destruct (String.eqb k0 k) eqn:E; [done|].
    apply String.eqb_neq in E. rewrite !fmap_cons.
    intros [?|Hin]%elem_of_cons; [simpl in *; congruence|].
    f_equal. by apply IH.
Qed.

Lemma dict_set_keys_notin d k v : k ∉ d.*1 → (dict_set d k v).*1 = d.*1 ++ [k].
Proof.
  induction d as [|[k0 v0] d IH]; [done|].
  cbn [dict_set]. rewrite !fmap_cons. intros [Hne Hni]%not_elem_of_cons.
  destruct (String.eqb k0 k) eqn:E.
  - apply String.eqb_eq in E. simpl in *. congruence.
  - rewrite fmap_cons. simpl. f_equal. by apply IH.
Qed.

Lemma dict_set_keys_elem d k v k' : k' ∈ (dict_set d k v).*1 ↔ k' = k ∨ k' ∈ d.*1.
Proof.
  destruct (decide (k ∈ d.*1)) as [Hin|Hni].
  - rewrite dict_set_keys_in by done. split; [auto|]. intros [->|?]; done.
  - rewrite dict_set_keys_notin by done. rewrite elem_of_app, list_elem_of_singleton. tauto.
Qed.

Lemma dict_set_NoDup d k v : NoDup d.*1 → NoDup (dict_set d k v).*1.
Proof.
  intros Hnd. destruct (decide (k ∈ d.*1)) as [Hin|Hni].
  - by rewrite dict_set_keys_in.
  - rewrite dict_set_keys_notin by done. apply NoDup_app. split; [done|].
    split; [|apply NoDup_singleton]. intros x Hx ->%list_elem_of_singleton. done.
Qed.

Lemma dict_set_length_in d k v : k ∈ d.*1 → length (dict_set d k v) = length d.
Proof. intros Hin. rewrite <-(length_fmap fst), dict_set_keys_in by done. by rewrite length_fmap. Qed.

Lemma dict_set_length_le d k v : (length (dict_set d k v) ≤ S (length d))%nat.
Proof.
  destruct (decide (k ∈ d.*1)) as [Hin|Hni].
  - rewrite dict_set_length_in by done. lia.
  - rewrite <-(length_fmap fst), dict_set_keys_notin by done.
    rewrite length_app, length_fmap. simpl. lia.
Qed.

End Dict.

Section Remap.
Context `{PyText}.
Implicit Types (dm : registry) (nd : list (string * json)).

Lemma remap_entry_Ok dm nd ch item nd' ch' :
  remap_entry dm (nd, ch) item = Ok (nd', ch') →
  nd' = dict_set nd (out_key dm item) (out_val dm item).
Proof.
  destruct item as [k e]. unfold remap_entry, out_key, out_val, live_guid. simpl.
  destruct e as [| | | | |fields]; try (intros [= <- <-]; done).
  destruct (truthy (dict_get fields "Kind")), (truthy (dict_get fields "Name")); simpl;
    try (intros [= <- <-]; done).
  destruct (lookup_device dm _ _) as [[[|g gs]|]|]; try (intros [= <- <-]; done).
Qed.

Lemma remap_devices_Ok dm items : ∀ nd ch nd' ch',
  remap_devices dm (nd, ch) items = Ok (nd', ch') → nd' = rekey dm items nd.
Proof.
  induction items as [|it items IH]; intros nd ch nd' ch'; cbn [remap_devices].
  - intros [= <- <-]. done.
  - destruct (remap_entry dm (nd, ch) it) as [[nd1 ch1]|] eqn:E; [|done].
    apply remap_entry_Ok in E as ->. intros Hr. apply IH in Hr. by subst nd'.
Qed.

Lemma rekey_app dm l1 l2 nd : rekey dm (l1 ++ l2) nd = rekey dm l2 (rekey dm l1 nd).
Proof. unfold rekey. by rewrite fold_left_app. Qed.

Lemma rekey_cons dm it l nd :
  rekey dm (it :: l) nd = rekey dm l (dict_set nd (out_key dm it) (out_val dm it)).
Proof. done. Qed.

Lemma rekey_keys dm items : ∀ nd k,
  k ∈ (rekey dm items nd).*1 ↔ k ∈ nd.*1 ∨ ∃ it, it ∈ items ∧ out_key dm it = k.
Proof.
  induction items as [|it items IH]; intros nd k.
  - simpl. split; [auto|]. intros [?|(it & ?%elem_of_nil & _)]; done.
  - rewrite rekey_cons, IH, dict_set_keys_elem. split.
    + intros [[->|?]|(it' & Hin & <-)]; [right|left|right]; try done.
      * exists it. split; [apply list_elem_of_here|done].
      * exists it'. split; [by apply list_elem_of_further|done].
    + intros [?|(it' & [->|Hin]%elem_of_cons & <-)]; [auto|auto|].
      right. eauto.
Qed.

Lemma rekey_NoDup dm items : ∀ nd, NoDup nd.*1 → NoDup (rekey dm items nd).*1.
Proof.
  induction items as [|it items IH]; intros nd Hnd; [done|].
  rewrite rekey_cons. apply IH. by apply dict_set_NoDup.
Qed.

Lemma rekey_length_le dm items : ∀ nd,
  (length (rekey dm items nd) ≤ length nd + length items)%nat.
Proof.
  induction items as [|it items IH]; intros nd; simpl; [lia|].
  fold (rekey dm items (dict_set nd (out_key dm it) (out_val dm it))).
  specialize (IH (dict_set nd (out_key dm it) (out_val dm it))).
  pose proof (dict_set_length_le nd (out_key dm it) (out_val dm it)). lia.
Qed.

Lemma rekey_get_other dm items g : ∀ nd,
  (∀ it, it ∈ items → out_key dm it ≠ g) →
  dict_get (rekey dm items nd) g = dict_get nd g.
Proof.
  induction items as [|it items IH]; intros nd Hno; [done|].
  rewrite rekey_cons, IH.
  - apply dict_get_set_ne. apply Hno, list_elem_of_here.
  - intros it' Hin. apply Hno. by apply list_elem_of_further.
Qed.

(** Two records that are re-keyed to the same identifier leave one. *)
Lemma rekey_collision dm l1 it1 l2 it2 l3 :
  out_key dm it1 = out_key dm it2 →
  (length (rekey dm (l1 ++ it1 :: l2 ++ it2 :: l3) []) <
   length (l1 ++ it1 :: l2 ++ it2 :: l3))%nat.
Proof.
  intros Hk.
  rewrite rekey_app, rekey_cons, rekey_app, rekey_cons.
  set (d1 := rekey dm l1 []).
  set (d2 := rekey dm l2 (dict_set d1 (out_key dm it1) (out_val dm it1))).
  assert (out_key dm it2 ∈ d2.*1) as Hin.
  { apply rekey_keys. left. apply dict_set_keys_elem. by left. }
  pose proof (rekey_length_le dm l3 (dict_set d2 (out_key dm it2) (out_val dm it2))) as H3.
  rewrite dict_set_length_in in H3 by done.
  pose proof (rekey_length_le dm l2 (dict_set d1 (out_key dm it1) (out_val dm it1))) as H2.
  fold d2 in H2.
  pose proof (dict_set_length_le d1 (out_key dm it1) (out_val dm it1)) as H1'.
  pose proof (rekey_length_le dm l1 []) as H1. fold d1 in H1. simpl in H1.
  rewrite !length_app. simpl. rewrite !length_app. simpl. lia.
Qed.

End Remap.
End OkbFacts.

Module AuditFacts.
Import World Audit.

Lemma same_env_refl w : same_env w w.
Proof. done. Qed.

Lemma same_env_trans w1 w2 w3 : same_env w1 w2 → same_env w2 w3 → same_env w1 w3.
Proof. unfold same_env. intros (?&?&?) (?&?&?). repeat split; congruence. Qed.

Lemma bind_unfold {A B} (m : M A) (f : A → M B) w :
  (m ≫= f) w = match m w with
               | (Ok a, w') => f a w'
               | (Raise e, w') => (Raise e, w')
               end.
Proof. reflexivity. Qed.

Section Effects.
Context {A B : Type}.

Lemma effects_mono (Q Q' : event → Prop) (m : M A) :
  (∀ e, Q e → Q' e) → effects Q m → effects Q' m.
Proof.
  intros HQ Hm w. destruct (Hm w) as (He & evs & Ht & Hq & Hp).
  split; [done|]. exists evs. split; [done|]. split; [|done].
  eapply Forall_impl; eauto.
Qed.

Lemma effects_ret Q (a : A) : effects Q (mret a).
Proof.
  intros w. split; [done|]. exists []. simpl. rewrite app_nil_r. eauto.
Qed.

Lemma effects_raise Q e : effects Q (raise e : M A).
Proof.
  intros w. split; [done|]. exists []. simpl. rewrite app_nil_r. eauto.
Qed.

Lemma effects_gets Q (f : world → A) : effects Q (gets f).
Proof.
  intros w. split; [done|]. exists []. simpl. rewrite app_nil_r. eauto.
Qed.

Lemma effects_bind Q (m : M A) (f : A → M B) :
  effects Q m → (∀ a, effects Q (f a)) → effects Q (m ≫= f).
Proof.
  intros Hm Hf w. rewrite bind_unfold.
  destruct (Hm w) as (He & evs & Ht & Hq & Hp).
  destruct (m w) as [[a|e] w1]; simpl in *.
  - destruct (Hf a w1) as (He2 & evs2 & Ht2 & Hq2 & Hp2).
    split; [by eapply same_env_trans|].
    exists (evs ++ evs2). rewrite Ht2, Ht, app_assoc. split; [done|].
    split; [by apply Forall_app|].
    intros p n Hn Hno. apply Hp2.
    + apply Hp; [done|]. intros e ?. apply Hno, elem_of_app. by left.
    + intros e ?. apply Hno, elem_of_app. by right.
  - split; [done|]. exists evs. eauto.
Qed.

Lemma changes_only_effects Q e (m : M A) :
  Q e → changes_only (touches e) m → effects Q (emit e ;; m).
Proof.
  intros HQ Hm w. rewrite bind_unfold. simpl.
  destruct (Hm (log e w)) as (He & Ht & Hp).
  split; [done|]. exists [e]. rewrite Ht. split; [done|].
  split; [by apply Forall_singleton|].
  intros p n Hn Hno. apply Hp; [done|]. apply Hno, list_elem_of_here.
Qed.

Lemma silent_effects Q (m : M A) : changes_only (λ _, False) m → effects Q m.
Proof.
  intros Hm w. destruct (Hm w) as (He & Ht & Hp).
  split; [done|]. exists []. rewrite Ht, app_nil_r. split; [done|].
  split; [done|]. intros p n Hn _. apply Hp; auto.
Qed.

Lemma changes_only_mono (P P' : path → Prop) (m : M A) :
  (∀ p, P p → P' p) → changes_only P m → changes_only P' m.
Proof.
  intros HP Hm w. destruct (Hm w) as (He & Ht & Hp).
  split; [done|]. split; [done|]. intros p n Hn Hno. apply Hp; auto.
Qed.

Lemma changes_only_ret P (a : A) : changes_only P (mret a).
Proof. intros w. done. Qed.

Lemma changes_only_raise P e : changes_only P (raise e : M A).
Proof. intros w. done. Qed.

Lemma changes_only_gets P (f : world → A) : changes_only P (gets f).
Proof. intros w. done. Qed.

Lemma changes_only_bind P (m : M A) (f : A → M B) :
  changes_only P m → (∀ a, changes_only P (f a)) → changes_only P (m ≫= f).
Proof.
  intros Hm Hf w. rewrite bind_unfold.
  destruct (Hm w) as (He & Ht & Hp).
  destruct (m w) as [[a|e] w1]; simpl in *; [|done].
  destruct (Hf a w1) as (He2 & Ht2 & Hp2).
  split; [by eapply same_env_trans|]. split; [congruence|].
  intros p n Hn Hno. apply Hp2; auto.
Qed.

End Effects.

Lemma effects_emit Q e : Q e → effects Q (emit e).
Proof.
  intros HQ w. split; [done|]. exists [e]. split; [done|].
  split; [by apply Forall_singleton|]. done.
Qed.

Lemma effects_print Q t s : Q (EvPrint t s) → effects Q (print t s).
Proof. apply effects_emit. Qed.

Lemma effects_try_finally {A} Q (body : M A) fin :
  effects Q body → effects Q fin → effects Q (try_finally body fin).
Proof.
  intros Hb Hf w. unfold try_finally.
  destruct (Hb w) as (He & evs & Ht & Hq & Hp).
  destruct (body w) as [r w1]; simpl in *.
  destruct (Hf w1) as (He2 & evs2 & Ht2 & Hq2 & Hp2).
  destruct (fin w1) as [[[]|e] w2]; simpl in *.
  all: (split; [by eapply same_env_trans|]);
    exists (evs ++ evs2); rewrite Ht2, Ht, app_assoc; (split; [done|]);
    (split; [by apply Forall_app|]);
    intros p n Hn Hno; apply Hp2;
    [apply Hp; [done|]; intros e' ?; apply Hno, elem_of_app; by left
    |intros e' ?; apply Hno, elem_of_app; by right].
Qed.

Lemma effects_except_OSError_pass Q body :
  effects Q body → effects Q (except_OSError_pass body).
Proof.
  intros Hb w. unfold except_OSError_pass.
  destruct (Hb w) as (He & evs & Ht & Hq & Hp).
  destruct (body w) as [[[]|e] w1]; simpl in *; [eauto|].
  destruct (is_OSError e); simpl; eauto.
Qed.

Lemma effects_for_each {A S} Q (body : S → A → M S) xs :
  (∀ acc x, x ∈ xs → effects Q (body acc x)) →
  ∀ acc, effects Q (for_each body acc xs).
Proof.
  induction xs as [|x xs IH]; intros Hb acc; simpl.
  - apply effects_ret.
  - apply effects_bind.
    + apply Hb, list_elem_of_here.
    + intros acc'. apply IH. intros ???. apply Hb. by apply list_elem_of_further.
Qed.

(** *** The primitives *)

Lemma changes_only_read_file P p : changes_only P (read_file p).
Proof.
  intros w. unfold read_file.
  destruct (files w !! p) as [[c m|m]|]; [destruct (deny w OpRead p)|..]; done.
Qed.

Lemma changes_only_stat_mtime P p : changes_only P (stat_mtime p).
Proof. intros w. unfold stat_mtime. destruct (files w !! p) as [[c m|m]|]; done. Qed.

Lemma changes_only_iterdir P p : changes_only P (iterdir p).
Proof. intros w. unfold iterdir. destruct (files w !! p) as [[c m|m]|]; done. Qed.

Lemma changes_only_rglob_all P p : changes_only P (rglob_all p).
Proof. intros w. unfold rglob_all. destruct (files w !! p) as [[c m|m]|]; done. Qed.

Lemma changes_only_write_file p c : changes_only (λ q, q = p) (write_file p c).
Proof.
  intros w. unfold write_file.
  destruct (files w !! p) as [[c0 m0|m0]|] eqn:Hp; [|done|].
  all: destruct (files w !! parent p) as [[c1 m1|m1]|]; [done| |done].
  all: destruct (deny w OpWrite p); simpl; (split; [done|]); (split; [done|]);
    intros q n Hq Hne; by rewrite lookup_insert_ne.
Qed.

Lemma changes_only_shutil_copyfile src dst :
  changes_only (λ q, q = dst) (shutil_copyfile src dst).
Proof.
  unfold shutil_copyfile. apply changes_only_bind; [apply changes_only_gets|].
  intros []; [apply changes_only_raise|].
  apply changes_only_bind; [apply changes_only_read_file|].
  intros c. apply changes_only_write_file.
Qed.

Lemma changes_only_set_mtime p m : changes_only (λ q, q = p) (set_mtime p m).
Proof.
  intros w. unfold set_mtime. destruct (files w !! p) as [[c0 m0|m0]|]; [|done..].
  simpl. split; [done|]. split; [done|]. intros q n Hq Hne. by rewrite lookup_insert_ne.
Qed.

Lemma changes_only_os_replace src dst :
  changes_only (λ q, q = src ∨ q = dst) (os_replace src dst).
Proof.
  intros w. unfold os_replace.
  destruct (files w !! src) as [n|]; [|done].
  destruct (deny w OpReplace dst); [done|].
  case_bool_decide; [done|].
  assert (∀ w', w' = set_files (λ fs, delete src (<[dst:=n]> fs)) w →
    same_env w w' ∧ trace w' = trace w ∧
    ∀ q n0, files w !! q = Some n0 → ¬ (q = src ∨ q = dst) → files w' !! q = Some n0) as Hset.
  { intros w' ->. split; [done|]. split; [done|]. intros q n0 Hq Hne. simpl.
    rewrite lookup_delete_ne, lookup_insert_ne by naive_solver. done. }
  destruct n as [c m|m], (files w !! dst) as [[c' m'|m']|]; simpl; try done; by apply Hset.
Qed.

Lemma changes_only_os_unlink p : changes_only (λ q, q = p) (os_unlink p).
Proof.
  intros w. unfold os_unlink. destruct (files w !! p) as [[c0 m0|m0]|]; [|done..].
  destruct (deny w OpUnlink p); [done|]. simpl. split; [done|]. split; [done|].
  intros q n Hq Hne. by rewrite lookup_delete_ne.
Qed.

Lemma changes_only_ensure_dir d b : changes_only (λ _, False) (ensure_dir d b).
Proof.
  intros w. unfold ensure_dir. destruct (files w !! d) as [[c0 m0|m0]|] eqn:Hd; [done..|].
  simpl. split; [done|]. split; [done|]. intros q n Hq _.
  rewrite lookup_insert_ne; [done|]. congruence.
Qed.

Lemma changes_only_mkdir_chain todo : ∀ pre,
  changes_only (λ _, False) (mkdir_chain pre todo).
Proof.
  induction todo as [|a todo IH]; intros pre; simpl.
  - apply changes_only_ret.
  - apply changes_only_bind; [apply changes_only_ensure_dir|]. intros _. apply IH.
Qed.

Section Logged.
Context (Q : event → Prop).

Lemma effects_copyfile src dst : Q (EvCopyfile src dst) → effects Q (copyfile src dst).
Proof. intros. apply changes_only_effects; [done|]. apply changes_only_shutil_copyfile. Qed.

Lemma effects_replace src dst : Q (EvReplace src dst) → effects Q (replace src dst).
Proof. intros. apply changes_only_effects; [done|]. apply changes_only_os_replace. Qed.

Lemma effects_unlink p : Q (EvUnlink p) → effects Q (unlink p).
Proof. intros. apply changes_only_effects; [done|]. apply changes_only_os_unlink. Qed.

Lemma effects_mkdir_parents p : Q (EvMkdir p) → effects Q (mkdir_parents p).
Proof.
  intros. apply changes_only_effects; [done|].
  eapply changes_only_mono; [|apply changes_only_mkdir_chain]. done.
Qed.

Lemma effects_copy2 src dst : Q (EvCopy2 src dst) → effects Q (copy2 src dst).
Proof.
  intros. apply changes_only_effects; [done|].
  apply changes_only_bind; [apply changes_only_gets|]. intros d.
  apply changes_only_bind.
  { eapply changes_only_mono; [|apply changes_only_shutil_copyfile].
    simpl. intros p ->. destruct d; auto. }
  intros _. apply changes_only_bind; [apply changes_only_stat_mtime|]. intros m.
  eapply changes_only_mono; [|apply changes_only_set_mtime].
  simpl. intros p ->. destruct d; auto.
Qed.

Lemma effects_exists_ p : effects Q (exists_ p).
Proof. apply effects_gets. Qed.

Lemma effects_is_file p : effects Q (is_file p).
Proof. apply effects_gets. Qed.

Lemma effects_read_file p : effects Q (read_file p).
Proof. apply silent_effects, changes_only_read_file. Qed.

Lemma effects_stat_mtime p : effects Q (stat_mtime p).
Proof. apply silent_effects, changes_only_stat_mtime. Qed.

Lemma effects_iterdir p : effects Q (iterdir p).
Proof. apply silent_effects, changes_only_iterdir. Qed.

Lemma effects_rglob_all p : effects Q (rglob_all p).
Proof. apply silent_effects, changes_only_rglob_all. Qed.

Lemma effects_sha256_file `{Hashlib} p : effects Q (sha256_file p).
Proof.
  apply effects_bind; [apply effects_read_file|]. intros c. apply effects_ret.
Qed.

Lemma effects_max_mtime_go ps : ∀ best m, effects Q (max_mtime_go best m ps).
Proof.
  induction ps as [|p ps IH]; intros best m; simpl; [apply effects_ret|].
  apply effects_bind; [apply effects_stat_mtime|]. intros m'.
  destruct (m <? m'); apply IH.
Qed.

Lemma effects_choose_target ps : effects Q (choose_target ps).
Proof.
  assert (effects Q (max_mtime ps)) as Hm.
  { destruct ps as [|p ps]; simpl; [apply effects_raise|].
    apply effects_bind; [apply effects_stat_mtime|]. intros m.
    apply effects_max_mtime_go. }
  destruct ps as [|p [|q ps]]; simpl; try done. apply effects_ret.
Qed.

Lemma effects_with_tmp_suffix p : effects Q (with_tmp_suffix p).
Proof.
  unfold with_tmp_suffix. destruct (PyPath.with_suffix _ _);
    [apply effects_ret|apply effects_raise].
Qed.

Lemma effects_cleanup_tmp tmp : Q (EvUnlink tmp) → effects Q (cleanup_tmp tmp).
Proof.
  intros. apply effects_bind; [apply effects_exists_|].
  intros []; [|apply effects_ret].
  by apply effects_except_OSError_pass, effects_unlink.
Qed.

End Logged.
End AuditFacts.

Module OkbRun.
Import World Audit AuditFacts Okb OkbSpec OkbFacts.
Section Run.
Context `{PyText} `{Archiver}.

Lemma build_plan_world p dm w : (build_plan_for_file p dm w).2 = w.
Proof.
  unfold build_plan_for_file, read_file.
  destruct (files w !! p) as [[c m|m]|]; [destruct (deny w OpRead p)|..]; try done.
  destruct (json_loads c); done.
Qed.

Lemma build_plan_file p dm w pl w' :
  build_plan_for_file p dm w = (Ok (Some pl), w') → file pl = p.
Proof.
  unfold build_plan_for_file, read_file.
  destruct (files w !! p) as [[c m|m]|]; [destruct (deny w OpRead p)|..]; try done.
  destruct (json_loads c) as [data|]; [|done].
  unfold plan_of_data. destruct data as [| | | | |top]; try done.
  destruct (default _ _) as [| | | | |devices]; try done.
  destruct (remap_devices _ _ _) as [[nd [|ch chs]]|]; try done.
  by intros [= <- <-].
Qed.

Lemma build_plan_unusable f dm w text m :
  files w !! f = Some (File text m) → unusable text →
  build_plan_for_file f dm w = (Ok None, w).
Proof.
  intros Hf Hu. unfold build_plan_for_file, read_file. rewrite Hf.
  destruct (deny w OpRead f); [done|].
  destruct Hu as [Hl | (top & v & Hl & Hv & Hno)]; rewrite Hl; [done|].
  unfold plan_of_data. rewrite Hv. simpl.
  destruct v; try done. by destruct (Hno members).
Qed.

Lemma collect_plans_spec dm fs : ∀ plans w,
  (collect_plans dm fs plans w).2 = w ∧
  ∀ ps, (collect_plans dm fs plans w).1 = Ok ps →
        ∀ pl, pl ∈ ps → pl ∈ plans ∨
              ∃ p, p ∈ fs ∧ build_plan_for_file p dm w = (Ok (Some pl), w).
Proof.
  induction fs as [|p fs IH]; intros plans w; simpl.
  - split; [done|]. intros ps [= <-] pl ?. by left.
  - rewrite bind_unfold.
    pose proof (build_plan_world p dm w) as Hw.
    destruct (build_plan_for_file p dm w) as [[o|e] w1] eqn:Hb; simpl in Hw; subst w1;
      [|done].
    destruct (IH (match o with Some pl => plans ++ [pl] | None => plans end) w) as [IHw IHp].
    split; [done|]. intros ps Hps pl Hin.
    destruct (IHp ps Hps pl Hin) as [Hold|(q & Hq & Hb')].
    + destruct o as [pl0|]; [|by left].
      apply elem_of_app in Hold as [? | ->%list_elem_of_singleton]; [by left|].
      right. exists p. split; [apply list_elem_of_here|done].
    + right. exists q. split; [by apply list_elem_of_further|done].
Qed.

Lemma effects_zip_entries Q src ps : ∀ acc, effects Q (zip_entries src ps acc).
Proof.
  induction ps as [|p ps IH]; intros acc; simpl; [apply effects_ret|].
  apply effects_bind; [apply effects_read_file|]. intros c. apply IH.
Qed.

Lemma changes_only_zip_entries P src ps : ∀ acc, changes_only P (zip_entries src ps acc).
Proof.
  induction ps as [|p ps IH]; intros acc; simpl; [apply changes_only_ret|].
  apply changes_only_bind; [apply changes_only_read_file|]. intros c. apply IH.
Qed.

(** The archive of a fixed list of sources. *)
Lemma effects_zip_write_list Q z src ps :
  Q (EvZipOpen z) → Q (EvZip z ps) → effects Q (zip_write z src (mret ps)).
Proof.
  intros Hopen Hzip. unfold zip_write.
  apply effects_bind; [apply effects_gets|]. intros []; [apply effects_raise|].
  (* everything after the opening changes the archive alone *)
  intros w. rewrite bind_unfold. simpl.
  set (w0 := log (EvZipOpen z) w).
  assert (changes_only (λ q, q = z) (write_file z "" ;; mret ps ≫= λ ps,
            zip_entries src ps [])) as Hpre.
  { apply changes_only_bind; [apply changes_only_write_file|]. intros _.
    apply changes_only_bind; [apply changes_only_ret|]. intros ps'.
    apply changes_only_zip_entries. }
  rewrite bind_unfold.
  destruct (changes_only_write_file z "" w0) as (He1 & Ht1 & Hp1).
  destruct (write_file z "" w0) as [[[]|e] w1]; simpl in *.
  2:{ split; [done|]. exists [EvZipOpen z]. rewrite Ht1. split; [done|].
      split; [by apply Forall_singleton|]. intros p n Hn Hno. apply Hp1; [done|].
      apply (Hno (EvZipOpen z)), list_elem_of_here. }
  rewrite bind_unfold. simpl. rewrite bind_unfold.
  destruct (changes_only_zip_entries (λ _, False) src ps [] w1) as (He2 & Ht2 & Hp2).
  destruct (zip_entries src ps [] w1) as [[es|e] w2]; simpl in *.
  2:{ split; [by eapply same_env_trans|]. exists [EvZipOpen z]. rewrite Ht2, Ht1.
      split; [done|]. split; [by apply Forall_singleton|].
      intros p n Hn Hno. apply Hp2; [|tauto]. apply Hp1; [done|].
      apply (Hno (EvZipOpen z)), list_elem_of_here. }
  rewrite bind_unfold. simpl.
  destruct (changes_only_write_file z (zip_encode es) (log (EvZip z ps) w2))
    as (He3 & Ht3 & Hp3).
  split; [eapply same_env_trans; [|exact He3]; by eapply same_env_trans|].
  exists [EvZipOpen z; EvZip z ps]. rewrite Ht3. simpl. rewrite Ht2, Ht1. simpl.
  rewrite <-app_assoc. split; [done|].
  split; [by repeat constructor|].
  intros p n Hn Hno. apply Hp3.
  - simpl. apply Hp2; [|tauto]. apply Hp1; [done|].
    apply (Hno (EvZipOpen z)), list_elem_of_here.
  - apply (Hno (EvZipOpen z)), list_elem_of_here.
Qed.

Lemma effects_write_text Q p text : Q (EvWriteText p) → effects Q (write_text p text).
Proof. intros. apply changes_only_effects; [done|]. apply changes_only_write_file. Qed.

Lemma effects_apply_plans Q plans :
  (∀ pl, pl ∈ plans → Q (EvWriteText (file pl))) → effects Q (apply_plans plans).
Proof.
  intros Hq. apply effects_for_each. intros [] pl Hin. by apply effects_write_text, Hq.
Qed.

Lemma effects_print_planned Q plans :
  (∀ p n, Q (EvPlanned p n)) → effects Q (print_planned_changes plans).
Proof. intros Hq. apply effects_for_each. intros [] pl Hin. by apply effects_emit. Qed.

Lemma find_directinput_world root w : (find_directinput root w).2 = w.
Proof.
  unfold find_directinput. rewrite bind_unfold. unfold rglob_all.
  destruct (files w !! root) as [[c m|m]|]; done.
Qed.

Lemma main_unfold okb_root backup_root dry_run dm ts w :
  main okb_root backup_root dry_run dm ts w =
  match find_directinput okb_root w with
  | (Ok [], _) => print TagINFO "No DirectInput.json files found." w
  | (Ok json_files, _) =>
      match collect_plans dm json_files [] w with
      | (Ok plans, _) => after_plans okb_root backup_root dry_run ts plans w
      | (Raise e, _) => (Raise e, w)
      end
  | (Raise e, _) => (Raise e, w)
  end.
Proof.
  unfold main. rewrite bind_unfold.
  pose proof (find_directinput_world okb_root w) as Hw.
  destruct (find_directinput okb_root w) as [[[|f fs]|e] w1]; simpl in Hw; subst w1;
    [done| |done].
  rewrite bind_unfold.
  pose proof (proj1 (collect_plans_spec dm (f :: fs) [] w)) as Hw.
  destruct (collect_plans dm (f :: fs) [] w) as [[plans|e] w1]; simpl in Hw; subst w1;
    done.
Qed.

End Run.
End OkbRun.

(** * What the operations on files do *)

Module PathFacts.
Import World PyStr PyPath StrFacts.

Lemma name_snoc (p : path) x : name (p ++ [x]) = x.
Proof. unfold name. apply last_last. Qed.

Lemma parent_snoc (p : path) x : parent (p ++ [x]) = p.
Proof. unfold parent. apply removelast_last. Qed.

Lemma rfind_Some c s i :
  rfind c s = Some i →
  ∃ rest, str_drop i s = String c rest ∧ s = str_take i s +:+ str_drop i s
          ∧ String.length (str_take i s) = i.
Proof.
  revert i. induction s as [|a s IH]; intros i; simpl; [done|].
  destruct (rfind c s) as [j|] eqn:Hj.
  - intros [= <-]. destruct (IH j eq_refl) as (rest & Hd & Hs & Hl).
    exists rest. simpl. rewrite app_cons, <-Hs, Hl. done.
  - destruct (Ascii.eqb a c) eqn:E; [|done]. intros [= <-].
    apply Ascii.eqb_eq in E as ->. exists s. done.
Qed.

Lemma suffix_split n : ∃ rest,
  (suffix n = "" ∨ suffix n = String dot rest) ∧
  ∃ pre, n = pre +:+ suffix n ∧
         String.length pre = (String.length n - String.length (suffix n))%nat.
Proof.
  unfold suffix. destruct (rfind dot n) as [i|] eqn:Hi.
  - destruct (_ && _).
    + destruct (rfind_Some _ _ _ Hi) as (rest & Hd & Hs & Hl).
      exists rest. split; [by right|]. exists (str_take i n). split; [done|].
      rewrite Hs at 2. rewrite length_app. lia.
    + exists "". split; [by left|]. exists n. rewrite app_nil_r. simpl. split; [done|lia].
  - exists "". split; [by left|]. exists n. rewrite app_nil_r. simpl. split; [done|lia].
Qed.

Lemma str_take_app a b : str_take (String.length a) (a +:+ b) = a.
Proof. induction a; sapp; simpl; [by destruct b|]. by rewrite IHa. Qed.

Lemma with_suffix_tmp n :
  n ≠ "" → with_suffix n (suffix n +:+ ".tmp") = Some (n +:+ ".tmp").
Proof.
  intros Hn. unfold with_suffix.
  destruct (suffix_split n) as (rest & Hsuf & pre & Hpre & Hlen).
  assert (String.eqb (suffix n +:+ ".tmp") "" = false) as ->.
  { destruct Hsuf as [-> | ->]; reflexivity. }
  assert (startswith (suffix n +:+ ".tmp") "." = true) as ->.
  { destruct Hsuf as [-> | ->]; reflexivity. }
  assert (String.eqb (suffix n +:+ ".tmp") "." = false) as ->.
  { destruct Hsuf as [-> | ->]; [reflexivity|]. sapp. by destruct rest. }
  cbn [negb andb orb]. destruct (String.eqb_spec n ""); [done|].
  destruct (suffix n) as [|c s] eqn:Es; [done|].
  rewrite <-Hlen. rewrite Hpre at 1. rewrite str_take_app.
  rewrite <-app_assoc, <-Hpre. done.
Qed.

Lemma with_tmp_suffix_eq (p : path) w :
  name p ≠ "" → with_tmp_suffix p w = (Ok (parent p ++ [name p +:+ ".tmp"]), w).
Proof. intros Hn. unfold with_tmp_suffix. by rewrite with_suffix_tmp. Qed.

Lemma app_tmp_ne n : n +:+ ".tmp" ≠ n.
Proof.
  intros E. apply (f_equal String.length) in E. rewrite length_app in E.
  simpl in E. lia.
Qed.

Lemma tmp_ne (p : path) : parent p ++ [name p +:+ ".tmp"] ≠ p.
Proof.
  intros E. apply (f_equal name) in E. rewrite name_snoc in E.
  by apply app_tmp_ne in E.
Qed.

End PathFacts.

Module WorldFacts.
Import World Audit AuditFacts PathFacts.

Lemma same_env_log e w : same_env w (log e w).
Proof. done. Qed.

Lemma copyfile_spec src dst w :
  let '(r, w') := copyfile src dst w in
  same_env w w' ∧ trace w' = trace w ++ [EvCopyfile src dst] ∧
  (∀ p, p ≠ dst → files w' !! p = files w !! p) ∧
  match r with
  | Ok _ => ∃ cb mb, files w !! src = Some (File cb mb) ∧
                     files w' = <[dst := File cb (now w)]> (files w)
  | Raise _ => files w' = files w ∨
               ∃ c, files w' = <[dst := File c (now w)]> (files w)
                    ∧ fs_is_dir (files w) dst = false
  end.
Proof.
  unfold copyfile, shutil_copyfile. rewrite bind_unfold. simpl.
  rewrite bind_unfold. simpl.
  destruct (bool_decide (src = dst) && fs_exists (files w) src); simpl.
  { split; [done|]. split; [done|]. split; [done|]. by left. }
  rewrite bind_unfold. unfold read_file. simpl.
  destruct (files w !! src) as [[cb mb|mb]|] eqn:Hsrc; simpl.
  2,3: split; [done|]; split; [done|]; split; [done|]; by left.
  destruct (deny w OpRead src); simpl.
  { split; [done|]. split; [done|]. split; [done|]. by left. }
  unfold write_file. simpl.
  destruct (files w !! dst) as [[cd md|md]|] eqn:Hdst; simpl.
  2: split; [done|]; split; [done|]; split; [done|]; by left.
  all: destruct (files w !! parent dst) as [[cp mp|mp]|]; simpl.
  all: try (split; [done|]; split; [done|]; split; [done|]; by left).
  all: destruct (deny w OpWrite dst); simpl.
  all: split; [done|]; split; [done|]; split;
    [intros p ?; by rewrite lookup_insert_ne|].
  all: try (right; eexists; split; [done|]; unfold fs_is_dir; by rewrite Hdst).
  all: eauto.
Qed.

Lemma replace_spec src dst w :
  let '(r, w') := replace src dst w in
  same_env w w' ∧ trace w' = trace w ++ [EvReplace src dst] ∧
  match r with
  | Ok _ => ∃ n, files w !! src = Some n ∧
                 files w' = if bool_decide (src = dst) then files w
                            else delete src (<[dst := n]> (files w))
  | Raise _ => files w' = files w
  end.
Proof.
  unfold replace, os_replace. rewrite bind_unfold. simpl.
  destruct (files w !! src) as [n|] eqn:Hsrc; simpl; [|done].
  destruct (deny w OpReplace dst); simpl; [done|].
  case_bool_decide; simpl; [split; [done|]; split; [done|]; eauto|].
  destruct n as [c m|m], (files w !! dst) as [[c' m'|m']|]; simpl; try done.
  all: split; [done|]; split; [done|]; eexists; split; done.
Qed.

Lemma cleanup_tmp_spec tmp w :
  let '(r, w') := cleanup_tmp tmp w in
  r = Ok () ∧ same_env w w' ∧
  (∃ evs, trace w' = trace w ++ evs ∧ (evs = [] ∨ evs = [EvUnlink tmp])) ∧
  files w' = (if fs_is_file (files w) tmp && negb (deny w OpUnlink tmp)
              then delete tmp (files w) else files w) ∧
  (files w !! tmp = None → w' = w).
Proof.
  unfold cleanup_tmp. rewrite bind_unfold. simpl. unfold fs_exists, fs_is_file.
  destruct (files w !! tmp) as [[c m|m]|] eqn:Htmp; simpl.
  - unfold except_OSError_pass, unlink, os_unlink. rewrite bind_unfold. simpl.
    rewrite Htmp. destruct (deny w OpUnlink tmp); simpl.
    + split; [done|]. split; [done|]. split; [eauto|]. done.
    + split; [done|]. split; [done|]. split; [eauto|]. done.
  - unfold except_OSError_pass, unlink, os_unlink. rewrite bind_unfold. simpl.
    rewrite Htmp. simpl. split; [done|]. split; [done|]. split; [eauto|]. done.
  - split; [done|]. split; [done|]. split; [exists []; rewrite app_nil_r; eauto|].
    done.
Qed.

Lemma cleanup_tmp_other tmp w p :
  p ≠ tmp → files (cleanup_tmp tmp w).2 !! p = files w !! p.
Proof.
  intros Hne. pose proof (cleanup_tmp_spec tmp w) as Hc.
  destruct (cleanup_tmp tmp w) as [r w']. destruct Hc as (_ & _ & _ & Hf & _).
  simpl. rewrite Hf. destruct (_ && _); [by rewrite lookup_delete_ne|done].
Qed.

Lemma cleanup_tmp_no_file tmp w :
  deny w OpUnlink tmp = false → fs_is_file (files (cleanup_tmp tmp w).2) tmp = false.
Proof.
  intros Hd. pose proof (cleanup_tmp_spec tmp w) as Hc.
  destruct (cleanup_tmp tmp w) as [r w']. destruct Hc as (_ & _ & _ & Hf & _).
  simpl. rewrite Hf, Hd. simpl. rewrite andb_true_r.
  destruct (fs_is_file (files w) tmp) eqn:E; [|done].
  unfold fs_is_file. by rewrite lookup_delete_eq.
Qed.

(** The copy to the temporary file followed by the rename. *)
Lemma copy_then_replace bf tmp target w :
  tmp ≠ target →
  let '(r, w') := (copyfile bf tmp;; replace tmp target) w in
  same_env w w' ∧
  (∀ p, p ≠ tmp → p ≠ target → files w' !! p = files w !! p) ∧
  match r with
  | Ok _ =>
      ∃ cb mb, files w !! bf = Some (File cb mb) ∧
               files w' = delete tmp (<[target := File cb (now w)]> (files w)) ∧
               trace w' = trace w ++ [EvCopyfile bf tmp; EvReplace tmp target]
  | Raise e =>
      files w' !! target = files w !! target ∧
      (fs_is_dir (files w) tmp = false → fs_is_dir (files w') tmp = false) ∧
      ∃ evs, trace w' = trace w ++ EvCopyfile bf tmp :: evs ∧
             (evs = [] ∨ evs = [EvReplace tmp target])
  end.
Proof.
  intros Hne. rewrite bind_unfold.
  pose proof (copyfile_spec bf tmp w) as Hc.
  destruct (copyfile bf tmp w) as [[[]|e] w1].
  - destruct Hc as (He1 & Ht1 & Hp1 & cb & mb & Hbf & Hf1).
    pose proof (replace_spec tmp target w1) as Hr.
    destruct (replace tmp target w1) as [[[]|e] w2].
    + destruct Hr as (He2 & Ht2 & n & Hn & Hf2).
      rewrite bool_decide_false in Hf2 by done.
      rewrite Hf1, lookup_insert_eq in Hn. injection Hn as <-.
      split; [by eapply same_env_trans|].
      assert (files w2 = delete tmp (<[target:=File cb (now w)]> (files w))) as Hfw.
      { rewrite Hf2, Hf1.
        apply map_eq. intros p. destruct (decide (p = tmp)) as [->|?].
        - by rewrite !lookup_delete_eq.
        - rewrite !lookup_delete_ne by done. destruct (decide (p = target)) as [->|?].
          + by rewrite !lookup_insert_eq.
          + by rewrite !lookup_insert_ne. }
      split.
      { intros p ? ?. rewrite Hfw, lookup_delete_ne, lookup_insert_ne by done. done. }
      exists cb, mb. split; [done|]. split; [done|].
      rewrite Ht2, Ht1, <-app_assoc. done.
    + destruct Hr as (He2 & Ht2 & Hf2).
      split; [by eapply same_env_trans|]. rewrite Hf2, Hf1.
      split; [intros p ? ?; by rewrite lookup_insert_ne|].
      split; [by rewrite lookup_insert_ne|].
      split; [intros _; unfold fs_is_dir; by rewrite lookup_insert_eq|].
      exists [EvReplace tmp target]. rewrite Ht2, Ht1, <-app_assoc. auto.
  - destruct Hc as (He1 & Ht1 & Hp1 & Hf1).
    split; [done|]. split; [intros p ? ?; by apply Hp1|].
    split; [by apply Hp1|]. split.
    + intros Hd. destruct Hf1 as [-> | (c & -> & _)]; [done|].
      unfold fs_is_dir. by rewrite lookup_insert_eq.
    + exists []. auto.
Qed.

End WorldFacts.

Module OkbClaims.
Import World Audit AuditFacts Okb OkbSpec OkbFacts OkbRun PathFacts.
Section Claims.
Context `{PyText} `{Archiver}.

(** C9 (unusable documents).  For a file named [DirectInput.json] whose
    text is not JSON, or is a JSON object whose ["Devices"] is not an
    object, [build_plan_for_file] returns no plan and leaves the world as it
    is; a run of [main], dry or not, leaves the file as it is, never writes
    it, and puts it into no archive. *)
Theorem unusable_file_left_alone okb_root backup_root dry_run dm ts w f text m :
  files w !! f = Some (File text m) →
  name f = "DirectInput.json" →
  unusable text →
  build_plan_for_file f dm w = (Ok None, w) ∧
  let w' := (main okb_root backup_root dry_run dm ts w).2 in
  files w' !! f = Some (File text m) ∧
  ∃ evs, trace w' = trace w ++ evs ∧
         (EvWriteText f ∉ evs) ∧
         (∀ archive sources, EvZip archive sources ∈ evs → f ∉ sources).
Proof.
  intros Hf Hname Hu.
  pose proof (build_plan_unusable f dm w text m Hf Hu) as Hnone.
  split; [done|]. simpl.
  set (Q := λ e, ¬ touches e f ∧ ∀ a srcs, e = EvZip a srcs → f ∉ srcs).
  assert (∀ m0 : M unit, effects Q m0 →
          files (m0 w).2 !! f = Some (File text m) ∧
          ∃ evs, trace (m0 w).2 = trace w ++ evs ∧ (EvWriteText f ∉ evs) ∧
                 (∀ a srcs, EvZip a srcs ∈ evs → f ∉ srcs)) as Hfrom.
  { intros m0 Hm0. destruct (Hm0 w) as (_ & evs & Ht & Hq & Hp).
    rewrite Forall_forall in Hq. split.
    - apply Hp; [done|]. intros e He. by apply Hq.
    - exists evs. split; [done|]. split.
      + intros Hin. apply Hq in Hin as [Hno _]. by apply Hno.
      + intros a srcs Hin. apply Hq in Hin as [_ Hz]. by apply (Hz a srcs). }
  assert (∀ t s, Q (EvPrint t s)) as Hprint.
  { intros t s. split; [intros []|done]. }
  rewrite main_unfold.
  pose proof (find_directinput_world okb_root w) as Hw1.
  destruct (find_directinput okb_root w) as [[[|j js]|e] w1]; simpl in Hw1; subst w1.
  - apply Hfrom. by apply effects_print.
  - pose proof (collect_plans_spec dm (j :: js) [] w) as [Hw2 Hplans].
    destruct (collect_plans dm (j :: js) [] w) as [[plans|e] w2]; simpl in Hw2; subst w2.
    + assert (∀ pl, pl ∈ plans → file pl ≠ f) as Hne.
      { intros pl Hin. destruct (Hplans plans eq_refl pl Hin) as [?%elem_of_nil|(p & _ & Hb)];
          [done|].
        pose proof (build_plan_file _ _ _ _ _ Hb) as Hfile. intros E.
        assert (p = f) as Hpf by congruence. rewrite Hpf, Hnone in Hb. done. }
      apply Hfrom. unfold after_plans.
      apply effects_bind.
      { apply effects_print_planned. intros p n. split; [intros []|done]. }
      intros _. destruct plans as [|pl0 plans0] eqn:Epl; [by apply effects_print|].
      rewrite <-Epl in *. clear Epl.
      apply effects_bind.
      { apply effects_zip_write_list.
        - split; [|done]. simpl. intros E. apply (f_equal name) in E.
          rewrite name_snoc, Hname in E. done.
        - split; [intros []|]. intros a srcs [= <- <-].
          intros (pl & Hfpl & Hin)%list_elem_of_fmap. by apply (Hne pl). }
      intros _. apply effects_bind; [by apply effects_print|]. intros _.
      destruct dry_run; [by apply effects_print|].
      apply effects_bind; [|intros _; by apply effects_print].
      apply effects_apply_plans. intros pl Hin. split; [|done].
      simpl. intros E. by apply (Hne pl).
    + simpl. split; [done|]. exists []. rewrite app_nil_r. split; [done|].
      split; [apply not_elem_of_nil|]. intros a srcs ?%elem_of_nil. done.
  - simpl. split; [done|]. exists []. rewrite app_nil_r. split; [done|].
    split; [apply not_elem_of_nil|]. intros a srcs ?%elem_of_nil. done.
Qed.

(** C10 (records that collide).  When a document holds two records of the
    same kind whose names normalize to the same name, and the registry
    lists a live identifier for them, the planned document has fewer
    records than the document read, its keys are distinct, and, unless a
    later record takes the same key, the record under the live identifier
    is the later of the two, with its [ID] set to that identifier. *)
Theorem duplicate_devices_merge (p : path) dm top l1 k1 f1 l2 k2 f2 l3
    kind n1 n2 g gs pl :
  dict_get top "Devices" = Some (JObj (l1 ++ (k1, JObj f1) :: l2 ++ (k2, JObj f2) :: l3)) →
  dict_get f1 "Kind" = Some (JStr kind) → dict_get f1 "Name" = Some (JStr n1) →
  dict_get f2 "Kind" = Some (JStr kind) → dict_get f2 "Name" = Some (JStr n2) →
  kind ≠ "" → n1 ≠ "" → n2 ≠ "" →
  normalize_name n1 = normalize_name n2 →
  registry_get dm kind (normalize_name n1) = Some (g :: gs) →
  plan_of_data p dm (JObj top) = Ok (Some pl) →
  ∃ new_devices,
    new_data pl = JObj (dict_set top "Devices" (JObj new_devices)) ∧
    NoDup new_devices.*1 ∧
    (length new_devices < length (l1 ++ (k1, JObj f1) :: l2 ++ (k2, JObj f2) :: l3))%nat ∧
    ((∀ it, it ∈ l3 → out_key dm it ≠ g) →
     dict_get new_devices g = Some (JObj (dict_set f2 "ID" (JStr g)))).
Proof.
  intros Hdev Hk1 Hn1 Hk2 Hn2 Hkind Hne1 Hne2 Hnorm Hreg Hplan.
  assert (∀ n, n ≠ "" → truthy (Some (JStr n)) = true) as Htr.
  { intros n Hn. simpl. apply negb_true_iff, String.eqb_neq. done. }
  assert (live_guid dm (JObj f1) = Some g) as Hg1.
  { unfold live_guid. rewrite Hk1, Hn1, !Htr by done. simpl. by rewrite Hreg. }
  assert (live_guid dm (JObj f2) = Some g) as Hg2.
  { unfold live_guid. rewrite Hk2, Hn2, !Htr by done. simpl. by rewrite <-Hnorm, Hreg. }
  unfold plan_of_data in Hplan. rewrite Hdev in Hplan. simpl in Hplan.
  destruct (remap_devices dm ([], []) _) as [[nd chs]|] eqn:Hr; [|done].
  apply remap_devices_Ok in Hr.
  destruct chs as [|c chs]; [done|]. injection Hplan as <-. simpl.
  exists nd. split; [done|]. subst nd. split; [|split].
  - apply rekey_NoDup. constructor.
  - apply rekey_collision. unfold out_key. cbn [fst snd]. by rewrite Hg1, Hg2.
  - intros Hl3.
    replace (l1 ++ (k1, JObj f1) :: l2 ++ (k2, JObj f2) :: l3)
      with ((l1 ++ (k1, JObj f1) :: l2) ++ (k2, JObj f2) :: l3)
      by (by rewrite <-app_assoc).
    rewrite rekey_app, rekey_cons, rekey_get_other by done.
    unfold out_key, out_val. cbn [fst snd]. rewrite Hg2. simpl. apply dict_get_set_eq.
Qed.

End Claims.
End OkbClaims.

(** * The replacement of a target's content *)

Module ReplaceFacts.
Import World Audit AuditFacts PathFacts WorldFacts.

Lemma bind_assoc {A B C} (m : M A) (f : A → M B) (g : B → M C) w :
  ((m ≫= f) ≫= g) w = (m ≫= λ a, f a ≫= g) w.
Proof.
  rewrite !bind_unfold. destruct (m w) as [[a|e] w1]; [|done].
  by rewrite bind_unfold.
Qed.

Lemma prints_print_ret {S} t x (s : S) : prints (print t x;; mret s) s [EvPrint t x].
Proof. intros w. done. Qed.

Lemma prints_ret {S} (s : S) : prints (mret s) s [].
Proof. intros [f n d c t]. unfold mret, M_ret, ret. simpl. by rewrite app_nil_r. Qed.

Lemma prints_bind {S T} (k1 : M S) (k2 : S → M T) s t evs1 evs2 :
  prints k1 s evs1 → prints (k2 s) t evs2 → prints (k1 ≫= k2) t (evs1 ++ evs2).
Proof.
  intros H1 H2 w. rewrite bind_unfold, H1, H2. simpl. by rewrite app_assoc.
Qed.

Lemma with_tmp_suffix_inv p w tmp w' :
  with_tmp_suffix p w = (Ok tmp, w') →
  w' = w ∧ tmp = parent p ++ [name p +:+ ".tmp"] ∧ name p ≠ "".
Proof.
  destruct (decide (name p = "")) as [E|Hn].
  - unfold with_tmp_suffix, PyPath.with_suffix. rewrite E. simpl. done.
  - rewrite with_tmp_suffix_eq by done. by intros [= <- <-].
Qed.

Lemma with_tmp_suffix_world p w : (with_tmp_suffix p w).2 = w.
Proof. unfold with_tmp_suffix. by destruct (PyPath.with_suffix _ _). Qed.

Lemma atomic_replace_spec {S} bf tmp target (k : M S) s kevs w :
  tmp ≠ target → prints k s kevs →
  let '(r, w') :=
    try_finally (copyfile bf tmp;; replace tmp target;; k) (cleanup_tmp tmp) w in
  same_env w w' ∧
  (∀ p, p ≠ tmp → p ≠ target → files w' !! p = files w !! p) ∧
  (deny w OpUnlink tmp = false → fs_is_file (files w') tmp = false) ∧
  match r with
  | Ok s' =>
      s' = s ∧
      ∃ cb mb, files w !! bf = Some (File cb mb) ∧
               files w' = delete tmp (<[target := File cb (now w)]> (files w)) ∧
               trace w' = trace w ++ [EvCopyfile bf tmp; EvReplace tmp target] ++ kevs
  | Raise e => files w' !! target = files w !! target
  end.
Proof.
  intros Hne Hk. unfold try_finally.
  rewrite <-(bind_assoc (copyfile bf tmp) (λ _, replace tmp target) (λ _, k)).
  rewrite bind_unfold.
  pose proof (copy_then_replace bf tmp target w Hne) as Hcr.
  destruct ((copyfile bf tmp;; replace tmp target) w) as [[[]|e] w1].
  - destruct Hcr as (He1 & Hp1 & cb & mb & Hbf & Hf1 & Ht1).
    rewrite Hk. set (w2 := World _ _ _ _ _).
    pose proof (cleanup_tmp_spec tmp w2) as Hcl.
    assert (files w2 !! tmp = None) as Hnone.
    { simpl. rewrite Hf1. apply lookup_delete_eq. }
    destruct (cleanup_tmp tmp w2) as [rc w3].
    destruct Hcl as (-> & He3 & _ & _ & Hw3). rewrite (Hw3 Hnone).
    split; [done|]. split; [done|].
    split; [intros _; unfold fs_is_file; by rewrite Hnone|].
    split; [done|]. exists cb, mb. simpl. rewrite Ht1, <-app_assoc. done.
  - destruct Hcr as (He1 & Hp1 & Htar & Hdir & evs & Ht1 & Hevs).
    pose proof (cleanup_tmp_other tmp w1) as Hp3.
    pose proof (cleanup_tmp_no_file tmp w1) as Hnf.
    pose proof (cleanup_tmp_spec tmp w1) as Hcl.
    destruct (cleanup_tmp tmp w1) as [rc w3].
    destruct Hcl as (-> & He3 & _ & _ & _). simpl in *.
    split; [by eapply same_env_trans|].
    split; [intros p ? ?; rewrite Hp3 by done; by apply Hp1|].
    split; [|rewrite Hp3 by done; done].
    intros Hdeny. apply Hnf. destruct He1 as (_ & -> & _). done.
Qed.

(** When nothing is in the way, the copy and the rename return. *)
Lemma copy_then_replace_Ok bf tmp target w cb mb md :
  files w !! bf = Some (File cb mb) →
  files w !! parent tmp = Some (Dir md) →
  bf ≠ tmp → tmp ≠ target →
  fs_is_dir (files w) tmp = false → fs_is_dir (files w) target = false →
  deny w OpRead bf = false → deny w OpWrite tmp = false →
  deny w OpReplace target = false →
  ((copyfile bf tmp;; replace tmp target) w).1 = Ok ().
Proof.
  intros Hbf Hpar Hne1 Hne2 Hdt Hdg Hr Hw Hp.
  unfold copyfile, shutil_copyfile, replace.
  rewrite !bind_unfold. simpl. rewrite !bind_unfold. simpl.
  rewrite bool_decide_false by done. simpl.
  rewrite bind_unfold. unfold read_file. simpl. rewrite Hbf, Hr.
  unfold write_file. simpl.
  unfold fs_is_dir in Hdt.
  destruct (files w !! tmp) as [[ct mt|mt]|] eqn:Htmp; [|done|].
  all: rewrite Hpar, Hw; simpl; rewrite bind_unfold; simpl.
  all: unfold os_replace; simpl; rewrite lookup_insert_eq, Hp.
  all: rewrite bool_decide_false by done.
  all: rewrite lookup_insert_ne by done.
  all: unfold fs_is_dir in Hdg.
  all: destruct (files w !! target) as [[cg mg|mg]|]; done.
Qed.

Lemma atomic_replace_returns {S} bf tmp target (k : M S) s kevs w cb mb md :
  files w !! bf = Some (File cb mb) →
  files w !! parent tmp = Some (Dir md) →
  bf ≠ tmp → tmp ≠ target →
  fs_is_dir (files w) tmp = false → fs_is_dir (files w) target = false →
  deny w OpRead bf = false → deny w OpWrite tmp = false →
  deny w OpReplace target = false →
  prints k s kevs →
  let o := try_finally (copyfile bf tmp;; replace tmp target;; k) (cleanup_tmp tmp) w in
  o.1 = Ok s ∧ files o.2 !! target = Some (File cb (now w)) ∧ files o.2 !! tmp = None.
Proof.
  intros Hbf Hpar Hne1 Hne2 Hdt Hdg Hr Hw Hp Hk.
  pose proof (atomic_replace_spec bf tmp target k s kevs w Hne2 Hk) as Hs.
  pose proof (copy_then_replace_Ok bf tmp target w cb mb md
                Hbf Hpar Hne1 Hne2 Hdt Hdg Hr Hw Hp) as Hok.
  assert ((try_finally (copyfile bf tmp;; replace tmp target;; k)
             (cleanup_tmp tmp) w).1 = Ok s) as Hres.
  { unfold try_finally.
    rewrite <-(bind_assoc (copyfile bf tmp) (λ _, replace tmp target) (λ _, k)).
    rewrite bind_unfold.
    destruct ((copyfile bf tmp;; replace tmp target) w) as [[[]|e] w1]; [|done].
    rewrite Hk.
    match goal with |- context [cleanup_tmp tmp ?w0] =>
      pose proof (cleanup_tmp_spec tmp w0) as Hc;
      destruct (cleanup_tmp tmp w0) as [rc w3] end.
    by destruct Hc as (-> & _). }
  simpl. split; [done|].
  destruct (try_finally _ _ w) as [[s'|e] w']; [|done].
  destruct Hs as (_ & _ & _ & _ & cb' & mb' & Hbf' & Hfs & _).
  rewrite Hbf in Hbf'. injection Hbf' as <- <-. simpl. rewrite Hfs.
  split.
  - rewrite lookup_delete_ne by done. apply lookup_insert_eq.
  - apply lookup_delete_eq.
Qed.

Section Replace.
Context `{Hashlib}.

Lemma bms_replace_content_atomic bf target acc w :
  name target ≠ "" →
  atomic_replacement (Bms.replace_content bf target acc) bf target w.
Proof.
  intros Hn. unfold Bms.replace_content, atomic_replacement.
  rewrite bind_unfold, with_tmp_suffix_eq by done.
  pose proof (atomic_replace_spec bf (tmp_of target) target
    (print TagFIX (name target);; mret (add_restored acc)) (add_restored acc)
    [EvPrint TagFIX (name target)] w (tmp_ne target) (prints_print_ret _ _ _)) as Hs.
  fold (tmp_of target).
  destruct (try_finally _ _ w) as [[s|e] w'].
  - destruct Hs as (_ & Hp & Hf & -> & cb & mb & Hbf & Hfs & Ht).
    split; [done|]. split; [done|]. exists cb, mb. eexists.
    split; [done|]. split; [done|]. exact Ht.
  - destruct Hs as (_ & Hp & Hf & Ht). done.
Qed.

Lemma dcs_replace_content_atomic bf target shown extra xevs acc w :
  name target ≠ "" → prints extra () xevs →
  atomic_replacement (Dcs.replace_content false bf target shown extra acc) bf target w.
Proof.
  intros Hn Hx. unfold Dcs.replace_content, atomic_replacement.
  rewrite bind_unfold, with_tmp_suffix_eq by done. fold (tmp_of target).
  set (k := print TagFIX shown;; extra;; mret (add_restored acc)).
  assert (prints k (add_restored acc) ([EvPrint TagFIX shown] ++ xevs ++ [])) as Hk.
  { apply (prints_bind _ _ ()); [intros w0; done|].
    apply (prints_bind _ _ ()); [done|]. apply prints_ret. }
  pose proof (atomic_replace_spec bf (tmp_of target) target k _ _ w
    (tmp_ne target) Hk) as Hs.
  assert (try_finally
            ((copyfile bf (tmp_of target);; replace (tmp_of target) target;;
              print TagFIX shown);; extra;; mret (add_restored acc))
            (cleanup_tmp (tmp_of target)) w =
          try_finally (copyfile bf (tmp_of target);; replace (tmp_of target) target;; k)
            (cleanup_tmp (tmp_of target)) w) as ->.
  { unfold try_finally, k.
    rewrite (bind_assoc (copyfile bf (tmp_of target))).
    rewrite !bind_unfold. destruct (copyfile _ _ w) as [[[]|e] w1]; [|done].
    rewrite (bind_assoc (replace (tmp_of target) target)). done. }
  destruct (try_finally _ _ w) as [[s|e] w'].
  - destruct Hs as (_ & Hp & Hf & -> & cb & mb & Hbf & Hfs & Ht).
    split; [done|]. split; [done|]. exists cb, mb. eexists.
    split; [done|]. split; [done|]. exact Ht.
  - destruct Hs as (_ & Hp & Hf & Ht). done.
Qed.

Lemma bms_replace_content_returns bf target acc w cb mb md :
  name target ≠ "" →
  files w !! bf = Some (File cb mb) →
  files w !! parent target = Some (Dir md) →
  bf ≠ tmp_of target →
  fs_is_dir (files w) (tmp_of target) = false → fs_is_dir (files w) target = false →
  deny w OpRead bf = false → deny w OpWrite (tmp_of target) = false →
  deny w OpReplace target = false →
  replaced (Bms.replace_content bf target acc) (add_restored acc) target cb w.
Proof.
  intros Hn Hbf Hpar Hne Hdt Hdg Hr Hw Hp. unfold replaced, Bms.replace_content.
  rewrite bind_unfold, with_tmp_suffix_eq by done. fold (tmp_of target).
  apply (atomic_replace_returns bf (tmp_of target) target
           (print TagFIX (name target);; mret (add_restored acc)) (add_restored acc)
           [EvPrint TagFIX (name target)] w cb mb md); try done.
  - unfold tmp_of. by rewrite parent_snoc.
  - apply tmp_ne.
Qed.

Lemma dcs_replace_content_returns bf target shown extra xevs acc w cb mb md :
  name target ≠ "" → prints extra () xevs →
  files w !! bf = Some (File cb mb) →
  files w !! parent target = Some (Dir md) →
  bf ≠ tmp_of target →
  fs_is_dir (files w) (tmp_of target) = false → fs_is_dir (files w) target = false →
  deny w OpRead bf = false → deny w OpWrite (tmp_of target) = false →
  deny w OpReplace target = false →
  replaced (Dcs.replace_content false bf target shown extra acc)
    (add_restored acc) target cb w.
Proof.
  intros Hn Hx Hbf Hpar Hne Hdt Hdg Hr Hw Hp. unfold replaced, Dcs.replace_content.
  rewrite bind_unfold, with_tmp_suffix_eq by done. fold (tmp_of target).
  set (k := print TagFIX shown;; extra;; mret (add_restored acc)).
  assert (prints k (add_restored acc) ([EvPrint TagFIX shown] ++ xevs ++ [])) as Hk.
  { apply (prints_bind _ _ ()); [intros w0; done|].
    apply (prints_bind _ _ ()); [done|]. apply prints_ret. }
  assert (try_finally
            ((copyfile bf (tmp_of target);; replace (tmp_of target) target;;
              print TagFIX shown);; extra;; mret (add_restored acc))
            (cleanup_tmp (tmp_of target)) w =
          try_finally (copyfile bf (tmp_of target);; replace (tmp_of target) target;; k)
            (cleanup_tmp (tmp_of target)) w) as ->.
  { unfold try_finally, k.
    rewrite (bind_assoc (copyfile bf (tmp_of target))).
    rewrite !bind_unfold. destruct (copyfile _ _ w) as [[[]|e] w1]; [|done].
    rewrite (bind_assoc (replace (tmp_of target) target)). done. }
  apply (atomic_replace_returns bf (tmp_of target) target k (add_restored acc)
           ([EvPrint TagFIX shown] ++ xevs ++ []) w cb mb md); try done.
  - unfold tmp_of. by rewrite parent_snoc.
  - apply tmp_ne.
Qed.

(** C2 (atomic replacement, as the code has it).  A replacement of a
    target with a name, in the BMS restorer and in the DCS restorer when it
    is not a dry run, copies the backup file to the temporary sibling in the
    folder of the target and renames the sibling over the target; it
    changes no path but these two.  When the backup file can be read, the
    folder of the target exists, neither the target nor the sibling is a
    folder and nothing is refused, the replacement returns, the target
    holds the bytes of the backup file and nothing is left at the sibling.
    When the replacement raises, at the copy, at the rename or later, the
    target is what it was; the sibling is no file afterwards provided that
    its removal is not refused, for the cleanup swallows that refusal and
    then leaves the temporary file behind. *)
Theorem replacement_is_atomic (backup_file target : path) (acc : summary)
    (shown : string) (w : world) :
  name target ≠ "" →
  (atomic_replacement (Bms.replace_content backup_file target acc)
     backup_file target w
   ∧ atomic_replacement
       (Dcs.replace_content false backup_file target shown (mret ()) acc)
       backup_file target w
   ∧ atomic_replacement
       (Dcs.replace_content false backup_file target shown (print TagFIX shown) acc)
       backup_file target w)
  ∧ (∀ cb mb md,
       files w !! backup_file = Some (File cb mb) →
       files w !! parent target = Some (Dir md) →
       backup_file ≠ tmp_of target →
       fs_is_dir (files w) (tmp_of target) = false →
       fs_is_dir (files w) target = false →
       deny w OpRead backup_file = false →
       deny w OpWrite (tmp_of target) = false →
       deny w OpReplace target = false →
       replaced (Bms.replace_content backup_file target acc)
         (add_restored acc) target cb w
       ∧ replaced
           (Dcs.replace_content false backup_file target shown (mret ()) acc)
           (add_restored acc) target cb w
       ∧ replaced
           (Dcs.replace_content false backup_file target shown
              (print TagFIX shown) acc)
           (add_restored acc) target cb w).
Proof.
  intros Hn. split.
  - split; [by apply bms_replace_content_atomic|].
    split.
    + eapply dcs_replace_content_atomic; [done|]. apply prints_ret.
    + eapply dcs_replace_content_atomic; [done|]. intros w0. reflexivity.
  - intros cb mb md Hbf Hpar Hne Hdt Hdg Hr Hw Hp.
    split; [by eapply bms_replace_content_returns|].
    split.
    + eapply dcs_replace_content_returns; [done|apply prints_ret|done..].
    + eapply (dcs_replace_content_returns _ _ _ _ [EvPrint TagFIX shown]);
        [done|intros w0; reflexivity|done..].
Qed.

End Replace.
End ReplaceFacts.

(** * The decision on one key *)

Module StepFacts.
Import World Audit AuditFacts PathFacts WorldFacts ReplaceFacts.

Lemma stat_mtime_spec p w :
  stat_mtime p w = match files w !! p with
                   | Some (File _ m) | Some (Dir m) => (Ok m, w)
                   | None => (Raise FileNotFoundError, w)
                   end.
Proof. reflexivity. Qed.

Lemma max_mtime_go_spec ps : ∀ best m w,
  (max_mtime_go best m ps w).2 = w ∧
  ∀ p, (max_mtime_go best m ps w).1 = Ok p → p = best ∨ p ∈ ps.
Proof.
  induction ps as [|q ps IH]; intros best m w; simpl.
  - split; [done|]. intros p [= <-]. by left.
  - rewrite bind_unfold, stat_mtime_spec.
    destruct (files w !! q) as [[c mq|mq]|]; simpl; [| |done].
    all: destruct (m <? mq);
      [destruct (IH q mq w) as [Hw Hp]|destruct (IH best m w) as [Hw Hp]];
      (split; [done|]); intros p Hr; destruct (Hp p Hr) as [->|?];
      auto using list_elem_of_here, list_elem_of_further.
Qed.

Lemma choose_target_spec ps w :
  (choose_target ps w).2 = w ∧ ∀ p, (choose_target ps w).1 = Ok p → p ∈ ps.
Proof.
  assert ((max_mtime ps w).2 = w ∧ ∀ p, (max_mtime ps w).1 = Ok p → p ∈ ps) as Hm.
  { destruct ps as [|q ps]; simpl; [done|].
    rewrite bind_unfold, stat_mtime_spec.
    destruct (files w !! q) as [[c mq|mq]|]; simpl; [| |done].
    all: destruct (max_mtime_go_spec ps q mq w) as [Hw Hp]; (split; [done|]);
      intros p Hr; destruct (Hp p Hr) as [->|?];
      auto using list_elem_of_here, list_elem_of_further. }
  destruct ps as [|q [|q' ps]]; try done.
  simpl. split; [done|]. intros p [= <-]. apply list_elem_of_here.
Qed.

Lemma choose_target_inv ps w r w' :
  choose_target ps w = (r, w') → w' = w ∧ ∀ p, r = Ok p → p ∈ ps.
Proof.
  intros E. destruct (choose_target_spec ps w) as [Hw Hp]. rewrite E in Hw, Hp.
  simpl in *. split; [done|]. done.
Qed.

Lemma sha256_file_spec `{Hashlib} p w :
  sha256_file p w =
  match files w !! p with
  | Some (File c _) =>
      if deny w OpRead p then (Raise PermissionError, w) else (Ok (sha256 c), w)
  | Some (Dir _) => (Raise IsADirectoryError, w)
  | None => (Raise FileNotFoundError, w)
  end.
Proof.
  unfold sha256_file. rewrite bind_unfold. unfold read_file.
  destruct (files w !! p) as [[c m|m]|]; [destruct (deny w OpRead p)|..]; done.
Qed.

Lemma sha256_file_inv `{Hashlib} p w h w' :
  sha256_file p w = (Ok h, w') →
  w' = w ∧ ∃ c m, files w !! p = Some (File c m) ∧ h = sha256 c.
Proof.
  rewrite sha256_file_spec.
  destruct (files w !! p) as [[c m|m]|]; [destruct (deny w OpRead p)|..]; try done.
  intros [= <- <-]. eauto.
Qed.

Lemma bms_replace_content_named `{Hashlib} bf target acc w s w' :
  Bms.replace_content bf target acc w = (Ok s, w') → name target ≠ "".
Proof.
  unfold Bms.replace_content. rewrite bind_unfold.
  destruct (with_tmp_suffix target w) as [[tmp|e] w1] eqn:E; [|done].
  apply with_tmp_suffix_inv in E as (_ & _ & Hn). done.
Qed.

Section Bms.
Context `{Hashlib} `{Archiver}.


End Bms.
End StepFacts.

(** * Identity preservation *)

Module IdentityClaims.
Import World Audit Okb OkbSpec OkbFacts StepFacts.
Section Claims.
Context `{Hashlib} `{Archiver} `{PyText}.



End Claims.
End IdentityClaims.

(** * A pass as a whole: failures and missing folders *)

Module PassFacts.
Import World Audit AuditFacts PathFacts WorldFacts StepFacts.

Lemma for_each_app {A S} (body : S → A → M S) xs ys : ∀ acc w,
  for_each body acc (xs ++ ys) w =
  match for_each body acc xs w with
  | (Ok acc', w') => for_each body acc' ys w'
  | (Raise e, w') => (Raise e, w')
  end.
Proof.
  induction xs as [|x xs IH]; intros acc w; simpl; [done|].
  rewrite !bind_unfold. destruct (body acc x w) as [[acc'|e] w1]; [|done].
  apply IH.
Qed.

Lemma for_each_raise {A S} (body : S → A → M S) pre x post acc w acc1 w1 e w2 :
  for_each body acc pre w = (Ok acc1, w1) →
  body acc1 x w1 = (Raise e, w2) →
  for_each body acc (pre ++ x :: post) w = (Raise e, w2).
Proof.
  intros Hpre Hx. rewrite for_each_app, Hpre. simpl. by rewrite bind_unfold, Hx.
Qed.

Lemma iterdir_spec d w :
  iterdir d w = match files w !! d with
                | Some (Dir _) => (Ok (fs_children (files w) d), w)
                | Some (File _ _) => (Raise NotADirectoryError, w)
                | None => (Raise FileNotFoundError, w)
                end.
Proof. reflexivity. Qed.

Lemma list_xml_files_world d w : (Bms.list_xml_files d w).2 = w.
Proof.
  unfold Bms.list_xml_files. rewrite bind_unfold. simpl.
  destruct (fs_exists (files w) d); [|done].
  rewrite bind_unfold, iterdir_spec. destruct (files w !! d) as [[c m|m]|]; done.
Qed.

Lemma build_index_world d w : (Bms.build_index d w).2 = w.
Proof.
  unfold Bms.build_index. rewrite bind_unfold.
  pose proof (list_xml_files_world d w) as Hw.
  destruct (Bms.list_xml_files d w) as [[ps|e] w1]; simpl in *; done.
Qed.

Lemma build_index_missing d w :
  fs_exists (files w) d = false → Bms.build_index d w = (Ok [], w).
Proof.
  intros He. unfold Bms.build_index, Bms.list_xml_files.
  rewrite !bind_unfold. simpl. by rewrite He.
Qed.

Lemma rglob_all_world d w : (rglob_all d w).2 = w.
Proof. unfold rglob_all. destruct (files w !! d) as [[c m|m]|]; done. Qed.

Section Pass.
Context `{Hashlib} `{Archiver}.

Lemma bms_restore_unfold st w :
  fs_exists (files w) (Bms.backup_dir st) = true →
  fs_exists (files w) (Bms.bms_config_dir st) = true →
  Bms.restore_from_backups st w =
  match (Bms.build_index (Bms.backup_dir st) w).1 with
  | Raise e => (Raise e, w)
  | Ok backup_index =>
      match (Bms.build_index (Bms.bms_config_dir st) w).1 with
      | Raise e => (Raise e, w)
      | Ok bms_index =>
          match for_each (Bms.restore_key st bms_index) summary0 backup_index w with
          | (Raise e, w') => (Raise e, w')
          | (Ok s, w') =>
              (Ok (Some s), log (EvSummary (restored s) (identical s) (missing s)) w')
          end
      end
  end.
Proof.
  intros Hb Hl. unfold Bms.restore_from_backups.
  rewrite bind_unfold. simpl. rewrite Hb. simpl.
  rewrite bind_unfold. simpl. rewrite Hl. simpl.
  rewrite bind_unfold.
  pose proof (build_index_world (Bms.backup_dir st) w) as Hw1.
  destruct (Bms.build_index (Bms.backup_dir st) w) as [[bi|e] w1]; simpl in *; subst w1;
    [|done].
  rewrite bind_unfold.
  pose proof (build_index_world (Bms.bms_config_dir st) w) as Hw2.
  destruct (Bms.build_index (Bms.bms_config_dir st) w) as [[li|e] w1]; simpl in *; subst w1;
    [|done].
  rewrite bind_unfold.
  destruct (for_each _ _ bi w) as [[s|e] w1]; done.
Qed.

Lemma dcs_restore_unfold st dry w :
  fs_exists (files w) (Dcs.backup_dir st) = true →
  fs_exists (files w) (Dcs.dcs_input_dir st) = true →
  Dcs.restore_dcs st dry w =
  match (rglob_all (Dcs.backup_dir st) w).1 with
  | Raise e => (Raise e, w)
  | Ok backup_files =>
      match for_each (Dcs.restore_file st dry) summary0 (sorted backup_files) w with
      | (Raise e, w') => (Raise e, w')
      | (Ok s, w') =>
          (Ok s, log (EvSummary (restored s) (identical s) (missing s)) w')
      end
  end.
Proof.
  intros Hb Hl. unfold Dcs.restore_dcs.
  rewrite bind_unfold. simpl. rewrite Hb. simpl.
  rewrite bind_unfold. simpl. rewrite Hl. simpl.
  rewrite bind_unfold.
  pose proof (rglob_all_world (Dcs.backup_dir st) w) as Hw1.
  destruct (rglob_all (Dcs.backup_dir st) w) as [[fs|e] w1]; simpl in *; subst w1;
    [|done].
  rewrite bind_unfold.
  destruct (for_each _ _ _ w) as [[s|e] w1]; done.
Qed.

(** C3 (a failing step, as the code has it).  Neither loop catches
    anything: when the step of one key (BMS) or of one backup file (DCS)
    raises after the steps before it have returned, the whole pass raises
    that exception in the world that the failing step left; the keys and
    files after it are not visited and no summary is printed. *)
Theorem failure_aborts_pass :
  (∀ st w pre item post li acc1 w1 e w2,
     fs_exists (files w) (Bms.backup_dir st) = true →
     fs_exists (files w) (Bms.bms_config_dir st) = true →
     (Bms.build_index (Bms.backup_dir st) w).1 = Ok (pre ++ item :: post) →
     (Bms.build_index (Bms.bms_config_dir st) w).1 = Ok li →
     for_each (Bms.restore_key st li) summary0 pre w = (Ok acc1, w1) →
     Bms.restore_key st li acc1 item w1 = (Raise e, w2) →
     Bms.restore_from_backups st w = (Raise e, w2))
  ∧ (∀ st dry_run w backup_files pre backup_file post acc1 w1 e w2,
       fs_exists (files w) (Dcs.backup_dir st) = true →
       fs_exists (files w) (Dcs.dcs_input_dir st) = true →
       (rglob_all (Dcs.backup_dir st) w).1 = Ok backup_files →
       sorted backup_files = pre ++ backup_file :: post →
       for_each (Dcs.restore_file st dry_run) summary0 pre w = (Ok acc1, w1) →
       Dcs.restore_file st dry_run acc1 backup_file w1 = (Raise e, w2) →
       Dcs.restore_dcs st dry_run w = (Raise e, w2)).
Proof.
  split.
  - intros st w pre item post li acc1 w1 e w2 Hb Hl Hbi Hli Hpre Hitem.
    rewrite bms_restore_unfold, Hbi, Hli by done.
    by rewrite (for_each_raise _ _ _ _ _ _ _ _ _ _ Hpre Hitem).
  - intros st dry w fs pre bf post acc1 w1 e w2 Hb Hl Hfs Hs Hpre Hitem.
    rewrite dcs_restore_unfold, Hfs, Hs by done.
    by rewrite (for_each_raise _ _ _ _ _ _ _ _ _ _ Hpre Hitem).
Qed.

(** C8 (missing folders, as the code has it).  [build_index] of a folder
    that does not exist is the empty index, and does not raise.  A BMS pass
    without its backup folder prints a warning and returns without a
    summary; without its live folder it raises [FileNotFoundError].  A DCS
    pass without its backup tree or without its live tree raises
    [FileNotFoundError]. *)
Theorem missing_directories :
  (∀ folder w,
     fs_exists (files w) folder = false → Bms.build_index folder w = (Ok [], w))
  ∧ (∀ st w,
       fs_exists (files w) (Bms.backup_dir st) = false →
       Bms.restore_from_backups st w
       = (Ok None, log (EvPrint TagWARN "Backup dir does not exist") w))
  ∧ (∀ st w,
       fs_exists (files w) (Bms.backup_dir st) = true →
       fs_exists (files w) (Bms.bms_config_dir st) = false →
       Bms.restore_from_backups st w = (Raise FileNotFoundError, w))
  ∧ (∀ st dry_run w,
       fs_exists (files w) (Dcs.backup_dir st) = false ∨
       fs_exists (files w) (Dcs.dcs_input_dir st) = false →
       Dcs.restore_dcs st dry_run w = (Raise FileNotFoundError, w)).
Proof.
  split; [apply build_index_missing|]. split; [|split].
  - intros st w Hb. unfold Bms.restore_from_backups.
    rewrite bind_unfold. simpl. rewrite Hb. done.
  - intros st w Hb Hl. unfold Bms.restore_from_backups.
    rewrite bind_unfold. simpl. rewrite Hb. simpl.
    rewrite bind_unfold. simpl. rewrite Hl. done.
  - intros st dry w Hm. unfold Dcs.restore_dcs. rewrite bind_unfold. simpl.
    destruct (fs_exists (files w) (Dcs.backup_dir st)) eqn:Hb; [|done]. simpl.
    rewrite bind_unfold. simpl. destruct Hm as [?|Hl]; [done|]. by rewrite Hl.
Qed.

End Pass.
End PassFacts.

(** * Dry runs *)

Module DryFacts.
Import World Audit AuditFacts PathFacts WorldFacts ReplaceFacts StepFacts PassFacts.

Lemma effects_bind_res {A B} Q (P : A → Prop) (m : M A) (f : A → M B) :
  (∀ w a w', m w = (Ok a, w') → P a) →
  effects Q m → (∀ a, P a → effects Q (f a)) → effects Q (m ≫= f).
Proof.
  intros HP Hm Hf w. rewrite bind_unfold.
  destruct (Hm w) as (He & evs & Ht & Hq & Hp).
  destruct (m w) as [[a|e] w1] eqn:Em; simpl in *.
  - destruct (Hf a (HP _ _ _ Em) w1) as (He2 & evs2 & Ht2 & Hq2 & Hp2).
    split; [by eapply same_env_trans|].
    exists (evs ++ evs2). rewrite Ht2, Ht, app_assoc. split; [done|].
    split; [by apply Forall_app|].
    intros p n Hn Hno. apply Hp2.
    + apply Hp; [done|]. intros e ?. apply Hno, elem_of_app. by left.
    + intros e ?. apply Hno, elem_of_app. by right.
  - split; [done|]. exists evs. eauto.
Qed.

Section Dcs.
Context `{Hashlib} `{Archiver}.




Lemma try_finally_Ok {A} (body : M A) fin w a w1 :
  try_finally body fin w = (Ok a, w1) → ∃ w0, body w = (Ok a, w0).
Proof.
  unfold try_finally. destruct (body w) as [[a0|e] w0]; destruct (fin w0) as [[[]|?] ?];
    try done. intros [= <- <-]. eauto.
Qed.




End Dcs.

Section Okb.
Import Okb OkbSpec OkbFacts OkbRun.
Context `{PyText} `{Archiver}.


End Okb.
End DryFacts.

Module DryClaims.
Import World Audit AuditFacts PathFacts WorldFacts ReplaceFacts StepFacts PassFacts DryFacts.
Section Claims.
Context `{Hashlib} `{Archiver} `{Okb.PyText}.





End Claims.
End DryClaims.

(** * Listings: the order of [sorted] and what a folder holds *)

Module OrderFacts.
Import World PathFacts.

Lemma compare_refl s : String.compare s s = Eq.
Proof.
  pose proof (String.compare_antisym s s) as Ha.
  destruct (String.compare s s); done.
Qed.

Lemma compare_Lt_trans a b c :
  String.compare a b = Lt → String.compare b c = Lt → String.compare a c = Lt.
Proof.
  intros Hab Hbc.
  assert (String.le a c) as Hac.
  { transitivity b; unfold String.le, String.leb; [by rewrite Hab|by rewrite Hbc]. }
  unfold String.le, String.leb in Hac.
  destruct (String.compare a c) eqn:E; [|done|done].
  apply String.compare_eq_iff in E as ->.
  rewrite String.compare_antisym, Hab in Hbc. done.
Qed.

Lemma path_leb_refl p : path_leb p p = true.
Proof. induction p as [|a p IH]; simpl; [done|]. by rewrite compare_refl. Qed.

Lemma path_leb_trans p : ∀ q r,
  path_leb p q = true → path_leb q r = true → path_leb p r = true.
Proof.
  induction p as [|a p IH]; intros [|b q] [|c r]; simpl; try done.
  destruct (String.compare a b) eqn:Eab; [| |done].
  - apply String.compare_eq_iff in Eab as ->.
    destruct (String.compare b c); [apply IH|done|done].
  - intros _. destruct (String.compare b c) eqn:Ebc; [| |done].
    + apply String.compare_eq_iff in Ebc as <-. by rewrite Eab.
    + by rewrite (compare_Lt_trans _ _ _ Eab Ebc).
Qed.

Lemma path_leb_antisym p : ∀ q, path_leb p q = true → path_leb q p = true → p = q.
Proof.
  induction p as [|a p IH]; intros [|b q]; simpl; try done.
  rewrite (String.compare_antisym b a).
  destruct (String.compare a b) eqn:Eab; simpl; [|done|done].
  apply String.compare_eq_iff in Eab as ->. intros ? ?. f_equal. by apply IH.
Qed.

Lemma path_leb_total p : ∀ q, path_leb p q = true ∨ path_leb q p = true.
Proof.
  induction p as [|a p IH]; intros [|b q]; simpl; auto.
  rewrite (String.compare_antisym b a).
  destruct (String.compare a b); simpl; auto.
Qed.

#[local] Instance path_le_trans : Transitive path_le.
Proof.
  intros p q r Hpq Hqr. apply Is_true_true.
  eapply path_leb_trans; by apply Is_true_true.
Qed.

#[local] Instance path_le_antisym : AntiSymm (=) path_le.
Proof. intros p q Hpq Hqp. apply path_leb_antisym; by apply Is_true_true. Qed.

#[local] Instance path_le_total : Total path_le.
Proof.
  intros p q. destruct (path_leb_total p q); [left|right]; by apply Is_true_true.
Qed.

Lemma sorted_Permutation ps : sorted ps ≡ₚ ps.
Proof. apply merge_sort_Permutation. Qed.

Lemma sorted_elem_of ps p : p ∈ sorted ps ↔ p ∈ ps.
Proof. by rewrite sorted_Permutation. Qed.

Lemma sorted_NoDup ps : NoDup ps → NoDup (sorted ps).
Proof. by rewrite sorted_Permutation. Qed.

Lemma sorted_StronglySorted ps : StronglySorted path_le (sorted ps).
Proof. apply StronglySorted_merge_sort; apply _. Qed.

(** Two sorted listings of the same paths are the same list. *)
Lemma listing_unique l1 l2 :
  NoDup l1 → NoDup l2 → StronglySorted path_le l1 → StronglySorted path_le l2 →
  (∀ p, p ∈ l1 ↔ p ∈ l2) → l1 = l2.
Proof.
  intros N1 N2 S1 S2 Hel. apply (StronglySorted_unique path_le); try done.
  by apply NoDup_Permutation.
Qed.

Section Filter.
Context {A : Type} (f : A → bool).

Lemma elem_of_List_filter l x : x ∈ List.filter f l ↔ x ∈ l ∧ f x = true.
Proof. rewrite !list_elem_of_In. apply filter_In. Qed.

Lemma NoDup_List_filter l : NoDup l → NoDup (List.filter f l).
Proof. rewrite !NoDup_ListNoDup. apply List.NoDup_filter. Qed.

Lemma StronglySorted_List_filter (R : relation A) l :
  StronglySorted R l → StronglySorted R (List.filter f l).
Proof.
  induction 1 as [|x l Hs IH Hx]; simpl; [constructor|].
  destruct (f x); [|done]. constructor; [done|].
  rewrite Forall_forall in Hx |- *.
  intros y [Hy _]%elem_of_List_filter. by apply Hx.
Qed.

Lemma List_filter_ext_in (g : A → bool) l :
  (∀ x, x ∈ l → f x = g x) → List.filter f l = List.filter g l.
Proof. intros Hfg. apply filter_ext_in. intros x ?%list_elem_of_In. by apply Hfg. Qed.

End Filter.

Lemma List_filter_filter {A} (f g : A → bool) l :
  List.filter f (List.filter g l) = List.filter (λ x, g x && f x) l.
Proof.
  induction l as [|x l IH]; simpl; [done|].
  destruct (g x); simpl; [|done]. destruct (f x); by rewrite IH.
Qed.

End OrderFacts.

Module ListingFacts.
Import World PathFacts OrderFacts.

Lemma relative_to_app d rel : relative_to d (d ++ rel) = Some rel.
Proof. induction d as [|a d IH]; simpl; [done|]. by rewrite String.eqb_refl. Qed.

Lemma relative_to_Some d : ∀ k rel, relative_to d k = Some rel → k = d ++ rel.
Proof.
  induction d as [|a d IH]; intros [|b k] rel; simpl; try done.
  - by intros [= <-].
  - by intros [= <-].
  - destruct (String.eqb_spec a b) as [->|]; [|done]. intros ?%IH. by subst.
Qed.

Lemma is_child_iff d k : is_child d k = true ↔ ∃ x, k = d ++ [x].
Proof.
  unfold is_child. split.
  - destruct (relative_to d k) as [[|x [|y rel]]|] eqn:E; try done.
    apply relative_to_Some in E. eauto.
  - intros [x ->]. by rewrite relative_to_app.
Qed.

Lemma fs_children_elem fs d p :
  p ∈ fs_children fs d ↔ is_Some (fs !! p) ∧ ∃ x, p = d ++ [x].
Proof.
  unfold fs_children. rewrite elem_of_List_filter, is_child_iff.
  rewrite list_elem_of_fmap. split.
  - intros [([k n] & -> & Hin%elem_of_map_to_list) Hx]. eauto.
  - intros [[n Hn] Hx]. split; [|done]. exists (p, n). split; [done|].
    by apply elem_of_map_to_list.
Qed.

Lemma fs_children_NoDup fs d : NoDup (fs_children fs d).
Proof. apply NoDup_List_filter, NoDup_fst_map_to_list. Qed.

End ListingFacts.

(** * The index of a folder *)

Module IndexFacts.
Import World AuditFacts PathFacts OrderFacts ListingFacts PassFacts IndexSpec.

Lemma list_xml_files_spec d w :
  Bms.list_xml_files d w =
  match files w !! d with
  | Some (Dir _) => (Ok (xml_files (files w) d), w)
  | Some (File _ _) => (Raise NotADirectoryError, w)
  | None => (Ok [], w)
  end.
Proof.
  unfold Bms.list_xml_files. rewrite bind_unfold. simpl. unfold fs_exists.
  destruct (files w !! d) as [[c m|m]|] eqn:Hd; [| |done].
  - by rewrite bind_unfold, iterdir_spec, Hd.
  - by rewrite bind_unfold, iterdir_spec, Hd.
Qed.

Lemma build_index_spec d w :
  Bms.build_index d w =
  match files w !! d with
  | Some (Dir _) => (Ok (Bms.index_of (xml_files (files w) d)), w)
  | Some (File _ _) => (Raise NotADirectoryError, w)
  | None => (Ok [], w)
  end.
Proof.
  unfold Bms.build_index. rewrite bind_unfold, list_xml_files_spec.
  destruct (files w !! d) as [[c m|m]|]; done.
Qed.

Lemma xml_files_elem fs d p :
  p ∈ xml_files fs d ↔
  (∃ x, p = d ++ [x]) ∧ fs_is_file fs p = true ∧ Bms.is_xml p = true.
Proof.
  unfold xml_files. rewrite sorted_elem_of, elem_of_List_filter, fs_children_elem.
  rewrite andb_true_iff. split.
  - intros [[_ Hx] [Hf Hxml]]. done.
  - intros (Hx & Hf & Hxml). repeat split; try done.
    unfold fs_is_file in Hf. by destruct (fs !! p).
Qed.

Lemma xml_files_NoDup fs d : NoDup (xml_files fs d).
Proof. apply sorted_NoDup, NoDup_List_filter, fs_children_NoDup. Qed.

Lemma xml_files_sorted fs d : StronglySorted path_le (xml_files fs d).
Proof. apply sorted_StronglySorted. Qed.

Lemma keyed_elem fs d k p :
  p ∈ keyed fs d k ↔
  (∃ x, p = d ++ [x]) ∧ fs_is_file fs p = true ∧ Bms.is_xml p = true ∧ key_of p = k.
Proof.
  unfold keyed. rewrite elem_of_List_filter, xml_files_elem, String.eqb_eq. tauto.
Qed.

(** The candidates of a key depend on the files of that key alone. *)
Lemma keyed_local fs fs' d k :
  (∀ x, Bms.is_xml (d ++ [x]) = true → key_of (d ++ [x]) = k →
        fs_is_file fs' (d ++ [x]) = fs_is_file fs (d ++ [x])) →
  keyed fs' d k = keyed fs d k.
Proof.
  intros Hloc. apply listing_unique.
  - apply NoDup_List_filter, xml_files_NoDup.
  - apply NoDup_List_filter, xml_files_NoDup.
  - apply StronglySorted_List_filter, xml_files_sorted.
  - apply StronglySorted_List_filter, xml_files_sorted.
  - intros p. rewrite !keyed_elem. split.
    + intros ([x ->] & Hf & Hxml & Hk). rewrite Hloc in Hf by done. eauto.
    + intros ([x ->] & Hf & Hxml & Hk). rewrite <-Hloc in Hf by done. eauto.
Qed.

Lemma xml_files_local fs fs' d :
  (∀ x, Bms.is_xml (d ++ [x]) = true →
        fs_is_file fs' (d ++ [x]) = fs_is_file fs (d ++ [x])) →
  xml_files fs' d = xml_files fs d.
Proof.
  intros Hloc. apply listing_unique.
  - apply xml_files_NoDup.
  - apply xml_files_NoDup.
  - apply xml_files_sorted.
  - apply xml_files_sorted.
  - intros p. rewrite !xml_files_elem. split.
    + intros ([x ->] & Hf & Hxml). rewrite Hloc in Hf by done. eauto.
    + intros ([x ->] & Hf & Hxml). rewrite <-Hloc in Hf by done. eauto.
Qed.

(** *** The dictionary that [build_index] fills *)

Lemma index_get_setdefault idx k' p k :
  Bms.index_get (Bms.setdefault_append idx k' p) k =
  if String.eqb k' k then Bms.index_get idx k ++ [p] else Bms.index_get idx k.
Proof.
  induction idx as [|[k0 l0] idx IH]; simpl.
  - destruct (String.eqb k' k); done.
  - destruct (String.eqb_spec k0 k') as [->|Hne]; simpl.
    + destruct (String.eqb k' k); done.
    + rewrite IH. destruct (String.eqb_spec k0 k) as [->|]; [|done].
      destruct (String.eqb_spec k' k) as [->|]; done.
Qed.

Lemma index_get_fold ps k : ∀ idx,
  Bms.index_get
    (fold_left (λ idx p, Bms.setdefault_append idx (key_of p) p) ps idx) k =
  Bms.index_get idx k ++ List.filter (λ p, String.eqb (key_of p) k) ps.
Proof.
  induction ps as [|p ps IH]; intros idx; simpl; [by rewrite app_nil_r|].
  rewrite IH, index_get_setdefault.
  destruct (String.eqb (key_of p) k); [by rewrite <-app_assoc|done].
Qed.

Lemma index_get_index_of ps k :
  Bms.index_get (Bms.index_of ps) k = List.filter (λ p, String.eqb (key_of p) k) ps.
Proof. unfold Bms.index_of. apply (index_get_fold ps k []). Qed.

Lemma setdefault_keys idx k p k0 :
  k0 ∈ (Bms.setdefault_append idx k p).*1 ↔ k0 = k ∨ k0 ∈ idx.*1.
Proof.
  induction idx as [|[k1 l1] idx IH]; simpl.
  - rewrite list_elem_of_singleton. split; [auto|]. intros [?|?%elem_of_nil]; done.
  - destruct (String.eqb_spec k1 k) as [->|Hne]; simpl.
    + rewrite !elem_of_cons. tauto.
    + rewrite !elem_of_cons, IH. tauto.
Qed.

Lemma setdefault_NoDup idx k p :
  NoDup idx.*1 → NoDup (Bms.setdefault_append idx k p).*1.
Proof.
  induction idx as [|[k1 l1] idx IH]; simpl; intros Hnd.
  - apply NoDup_singleton.
  - destruct (String.eqb_spec k1 k) as [->|Hne]; [done|].
    apply NoDup_cons in Hnd as [Hni Hnd].
    rewrite fmap_cons. apply NoDup_cons. split; [|by apply IH].
    simpl. intros [Hk|Hk]%setdefault_keys; done.
Qed.

Lemma setdefault_nonempty idx k p :
  (∀ k0 l, (k0, l) ∈ idx → l ≠ []) →
  ∀ k0 l, (k0, l) ∈ Bms.setdefault_append idx k p → l ≠ [].
Proof.
  induction idx as [|[k1 l1] idx IH]; simpl; intros Hne k0 l.
  - by intros [= -> ->]%list_elem_of_singleton.
  - destruct (String.eqb_spec k1 k) as [->|Hk].
    + intros [[= -> ->]|Hin]%elem_of_cons.
      * by destruct l1.
      * eapply Hne. by apply list_elem_of_further.
    + intros [[= -> ->]|Hin]%elem_of_cons.
      * eapply Hne. apply list_elem_of_here.
      * eapply IH; [|done]. intros ?? ?. eapply Hne. by apply list_elem_of_further.
Qed.

Lemma index_get_item (idx : Bms.index) k l :
  NoDup idx.*1 → (k, l) ∈ idx → Bms.index_get idx k = l.
Proof.
  induction idx as [|[k1 l1] idx IH]; simpl; intros Hnd Hin.
  - by apply elem_of_nil in Hin.
  - apply NoDup_cons in Hnd as [Hni Hnd].
    apply elem_of_cons in Hin as [[= -> ->]|Hin].
    + by rewrite String.eqb_refl.
    + destruct (String.eqb_spec k1 k) as [->|]; [|by apply IH].
      destruct Hni. apply list_elem_of_fmap. by exists (k, l).
Qed.

Lemma index_of_wf ps :
  NoDup (Bms.index_of ps).*1 ∧ ∀ k l, (k, l) ∈ Bms.index_of ps → l ≠ [].
Proof.
  unfold Bms.index_of.
  assert (∀ idx, NoDup idx.*1 → (∀ k l, (k, l) ∈ idx → l ≠ []) →
    let idx' := fold_left (λ idx p,
      Bms.setdefault_append idx (BmsKey.normalize_key (name p)) p) ps idx in
    NoDup idx'.*1 ∧ ∀ k l, (k, l) ∈ idx' → l ≠ []) as Hgen.
  { induction ps as [|p ps IH]; intros idx Hnd Hne; simpl; [done|].
    apply IH; [by apply setdefault_NoDup|by apply setdefault_nonempty]. }
  apply Hgen; [constructor|]. intros k l ?%elem_of_nil. done.
Qed.

(** The items of the dictionary: every key once, with its candidates. *)
Lemma index_of_item ps k l :
  (k, l) ∈ Bms.index_of ps →
  l = List.filter (λ p, String.eqb (key_of p) k) ps ∧ l ≠ [].
Proof.
  intros Hin. destruct (index_of_wf ps) as [Hnd Hne]. split; [|by eapply Hne].
  rewrite <-index_get_index_of. symmetry. by apply index_get_item.
Qed.

End IndexFacts.

(** * The newest candidate *)

Module NewestFacts.
Import World AuditFacts PathFacts StepFacts IndexSpec.

Lemma stat_mtime_of p w :
  stat_mtime p w = match mtime_of (files w) p with
                   | Some m => (Ok m, w)
                   | None => (Raise FileNotFoundError, w)
                   end.
Proof.
  unfold stat_mtime, mtime_of. destruct (files w !! p) as [[c m|m]|]; done.
Qed.

Lemma max_mtime_go_elem ps best m w t :
  (max_mtime_go best m ps w).1 = Ok t → t = best ∨ t ∈ ps.
Proof. apply max_mtime_go_spec. Qed.

(** Raising the time of the winner, or of nobody, keeps the winner. *)
Lemma max_mtime_go_stable ps : ∀ best bm bm' w w' t,
  NoDup (best :: ps) →
  (max_mtime_go best bm ps w).1 = Ok t →
  (∀ p, p ∈ ps → p ≠ t → mtime_of (files w') p = mtime_of (files w) p) →
  (t = best → bm ≤ bm') →
  (t ≠ best → bm' = bm ∧ ∃ m m', mtime_of (files w) t = Some m ∧
                                mtime_of (files w') t = Some m' ∧ m ≤ m') →
  (max_mtime_go best bm' ps w').1 = Ok t.
Proof.
  induction ps as [|q ps IH]; intros best bm bm' w w' t Hnd Hgo Hoth Hbest Hnb.
  - simpl in *. done.
  - apply NoDup_cons in Hnd as [Hbq Hnd].
    apply NoDup_cons in Hnd as [Hqps Hnd].
    rewrite not_elem_of_cons in Hbq. destruct Hbq as [Hbq Hbps].
    revert Hgo. cbn [max_mtime_go]. rewrite !bind_unfold, !stat_mtime_of.
    destruct (mtime_of (files w) q) as [mq|] eqn:Emq; [|done].
    destruct (Z.ltb_spec bm mq) as [Hlt|Hge]; intros Hgo.
    + (* [q] takes the lead *)
      assert (t ≠ best) as Htb.
      { destruct (max_mtime_go_elem _ _ _ _ _ Hgo) as [->|Hin]; [done|].
        intros ->. done. }
      destruct (Hnb Htb) as (-> & m & m' & Hm & Hm' & Hle).
      destruct (decide (t = q)) as [->|Htq].
      * rewrite Hm'. assert (m = mq) as -> by congruence.
        destruct (Z.ltb_spec bm m') as [_|?]; [|lia].
        eapply (IH q mq m' w w' q); try done.
        -- by apply NoDup_cons.
        -- intros p Hp Hpq. apply Hoth; [by apply list_elem_of_further|done].
      * rewrite (Hoth q) by (done || apply list_elem_of_here). rewrite Emq.
        destruct (Z.ltb_spec bm mq) as [_|?]; [|lia].
        eapply (IH q mq mq w w' t); try done.
        -- by apply NoDup_cons.
        -- intros p Hp Hpq. apply Hoth; [by apply list_elem_of_further|done].
        -- intros _. split; [done|]. eauto.
    + (* [best] keeps the lead *)
      assert (t ≠ q) as Htq.
      { destruct (max_mtime_go_elem _ _ _ _ _ Hgo) as [->|Hin]; [done|].
        intros ->. done. }
      rewrite (Hoth q) by (done || apply list_elem_of_here). rewrite Emq.
      destruct (decide (t = best)) as [->|Htb].
      * specialize (Hbest eq_refl).
        destruct (Z.ltb_spec bm' mq) as [?|_]; [lia|].
        eapply (IH best bm bm' w w' best); try done.
        -- by apply NoDup_cons.
        -- intros p Hp Hpq. apply Hoth; [by apply list_elem_of_further|done].
      * destruct (Hnb Htb) as (-> & Hm).
        destruct (Z.ltb_spec bm mq) as [?|_]; [lia|].
        eapply (IH best bm bm w w' t); try done.
        -- by apply NoDup_cons.
        -- intros p Hp Hpq. apply Hoth; [by apply list_elem_of_further|done].
Qed.

Lemma choose_target_stable T w w' t :
  NoDup T →
  (choose_target T w).1 = Ok t →
  (∀ p, p ∈ T → p ≠ t → mtime_of (files w') p = mtime_of (files w) p) →
  (∃ m m', mtime_of (files w) t = Some m ∧ mtime_of (files w') t = Some m' ∧ m ≤ m') →
  (choose_target T w').1 = Ok t.
Proof.
  intros Hnd Hc Hoth (m & m' & Hm & Hm' & Hle).
  destruct T as [|p [|q T]]; [done|done|].
  revert Hc. cbn [choose_target max_mtime]. rewrite !bind_unfold, !stat_mtime_of.
  destruct (mtime_of (files w) p) as [mp|] eqn:Emp; [|done]. intros Hgo.
  destruct (decide (t = p)) as [->|Htp].
  - rewrite Hm'. assert (m = mp) as -> by congruence.
    eapply (max_mtime_go_stable _ p mp m' w w' p); try done.
    intros r Hr Hrp. apply Hoth; [by apply list_elem_of_further|done].
  - rewrite (Hoth p) by (done || apply list_elem_of_here). rewrite Emp.
    eapply (max_mtime_go_stable _ p mp mp w w' t); try done.
    + intros r Hr Hrp. apply Hoth; [by apply list_elem_of_further|done].
    + intros _. split; [done|]. eauto.
Qed.

(** The choice looks at the times of the candidates alone. *)
Lemma choose_target_local T w w' :
  (∀ p, p ∈ T → mtime_of (files w') p = mtime_of (files w) p) →
  (choose_target T w').1 = (choose_target T w).1.
Proof.
  intros Hloc.
  assert (∀ ps best bm, (∀ p, p ∈ ps → mtime_of (files w') p = mtime_of (files w) p) →
    (max_mtime_go best bm ps w').1 = (max_mtime_go best bm ps w).1) as Hgo.
  { induction ps as [|q ps IH]; intros best bm Hps; [done|].
    cbn [max_mtime_go]. rewrite !bind_unfold, !stat_mtime_of.
    rewrite (Hps q) by apply list_elem_of_here.
    destruct (mtime_of (files w) q) as [mq|]; [|done].
    destruct (bm <? mq); apply IH; intros p Hp; apply Hps;
      by apply list_elem_of_further. }
  destruct T as [|p [|q T]]; [done|done|].
  cbn [choose_target max_mtime]. rewrite !bind_unfold, !stat_mtime_of.
  rewrite (Hloc p) by apply list_elem_of_here.
  destruct (mtime_of (files w) p) as [mp|]; [|done].
  apply Hgo. intros r Hr. apply Hloc. by apply list_elem_of_further.
Qed.

Lemma choose_target_run T w : choose_target T w = ((choose_target T w).1, w).
Proof.
  destruct (choose_target_spec T w) as [Hw _].
  destruct (choose_target T w) as [r w1]. simpl in *. by subst.
Qed.

End NewestFacts.

(** * One key of [restore_from_backups], step by step *)

Module BmsStep.
Import World Audit AuditFacts PathFacts WorldFacts ReplaceFacts StepFacts PassFacts.
Import OrderFacts ListingFacts IndexSpec IndexFacts NewestFacts.

Lemma mtime_of_eq fs fs' p : fs' !! p = fs !! p → mtime_of fs' p = mtime_of fs p.
Proof. unfold mtime_of. by intros ->. Qed.

Lemma choose_target_files T w w' :
  files w' = files w → (choose_target T w').1 = (choose_target T w).1.
Proof. intros E. apply choose_target_local. intros p _. by rewrite E. Qed.

(** [shutil.copy2] in full. *)
Lemma copy2_spec src dst w :
  let dst' := if fs_is_dir (files w) dst then dst ++ [name src] else dst in
  let '(r, w') := copy2 src dst w in
  same_env w w' ∧ trace w' = trace w ++ [EvCopy2 src dst] ∧
  (∀ p, p ≠ dst' → files w' !! p = files w !! p) ∧
  match r with
  | Ok _ => ∃ cb mb, files w !! src = Some (File cb mb) ∧ src ≠ dst' ∧
                     fs_is_dir (files w) dst' = false ∧
                     files w' = <[dst' := File cb mb]> (files w)
  | Raise _ => True
  end.
Proof.
  unfold copy2. rewrite bind_unfold. simpl. rewrite bind_unfold. simpl.
  set (dst' := if fs_is_dir (files w) dst then dst ++ [name src] else dst).
  rewrite bind_unfold. unfold shutil_copyfile. rewrite bind_unfold. simpl.
  destruct (decide (src = dst')) as [Heq|Hne].
  { rewrite bool_decide_true by done. simpl. unfold fs_exists, read_file.
    destruct (files w !! src) as [[c m|m]|] eqn:Hs; simpl; [done..|].
    rewrite bind_unfold. simpl. rewrite Hs. done. }
  rewrite bool_decide_false by done. simpl.
  rewrite bind_unfold. unfold read_file. simpl.
  destruct (files w !! src) as [[cb mb|mb]|] eqn:Hs; simpl; [|done..].
  destruct (deny w OpRead src); simpl; [done|].
  unfold write_file. simpl. unfold fs_is_dir.
  destruct (files w !! dst') as [[cd md|md]|] eqn:Hd; simpl; [|done|].
  all: destruct (files w !! parent dst') as [[cp mp|mp]|]; simpl; [done| |done].
  all: destruct (deny w OpWrite dst'); simpl;
    [split; [done|]; split; [done|]; split; [|done];
     intros p ?; by rewrite lookup_insert_ne|].
  all: rewrite bind_unfold; unfold stat_mtime; simpl;
    rewrite lookup_insert_ne, Hs by done; unfold set_mtime; simpl;
    rewrite lookup_insert_eq; simpl; split; [done|]; split; [done|]; split;
    [intros p ?; by rewrite !lookup_insert_ne|];
    exists cb, mb; repeat split; try done; by rewrite insert_insert_eq.
Qed.

(** When the copy succeeds. *)
Lemma copy2_Ok src dst w cb mb md :
  let dst' := if fs_is_dir (files w) dst then dst ++ [name src] else dst in
  files w !! src = Some (File cb mb) → src ≠ dst' →
  deny w OpRead src = false → deny w OpWrite dst' = false →
  fs_is_dir (files w) dst' = false →
  files w !! parent dst' = Some (Dir md) →
  ∃ w', copy2 src dst w = (Ok (), w') ∧ same_env w w' ∧
        files w' = <[dst' := File cb mb]> (files w).
Proof.
  intros dst' Hs Hne Hr Hw Hd Hp.
  unfold copy2. rewrite bind_unfold. simpl. rewrite bind_unfold. simpl.
  fold dst'. rewrite bind_unfold. unfold shutil_copyfile. rewrite bind_unfold. simpl.
  rewrite bool_decide_false by done. simpl.
  rewrite bind_unfold. unfold read_file. simpl. rewrite Hs, Hr. simpl.
  unfold write_file. simpl. unfold fs_is_dir in Hd.
  destruct (files w !! dst') as [[cd m0|m0]|] eqn:Hd'; try done.
  all: rewrite Hp, Hw; simpl; rewrite bind_unfold; unfold stat_mtime; simpl;
    rewrite lookup_insert_ne, Hs by done; unfold set_mtime; simpl;
    rewrite lookup_insert_eq; simpl; eexists; split; [done|]; split; [done|];
    simpl; by rewrite insert_insert_eq.
Qed.

Section Step.
Context `{Hashlib} `{Archiver}.
Variable st : Bms.Settings.
Abbreviation L := (Bms.bms_config_dir st).

(** What a step can change: its candidates, their temporary siblings, and
    where a missing backup file is copied to. *)
Lemma restore_key_frame li acc k bfs w :
  let '(r, w') := Bms.restore_key st li acc (k, bfs) w in
  same_env w w' ∧
  ∀ p, (∀ t, t ∈ Bms.index_get li k → p ≠ t ∧ p ≠ tmp_of t) →
       (∀ b, b ∈ bfs → p ≠ L ++ [name b] ∧ p ≠ L ++ [name b; name b]) →
       files w' !! p = files w !! p.
Proof.
  unfold Bms.restore_key. rewrite bind_unfold, choose_target_run.
  destruct (choose_target_spec bfs w) as [_ Hbf].
  destruct ((choose_target bfs w).1) as [bf|e]; [|done].
  specialize (Hbf bf eq_refl).
  destruct (Bms.index_get li k) as [|t0 ts] eqn:Eli.
  { destruct (Bms.copy_if_missing st).
    - rewrite bind_unfold.
      pose proof (copy2_spec bf (L ++ [name bf]) w) as Hc.
      destruct (copy2 bf _ w) as [[[]|e] w1]; destruct Hc as (He & _ & Hp & _).
      + simpl. split; [done|]. intros p _ Hb. apply Hp.
        destruct (Hb bf Hbf) as [? ?]. destruct (fs_is_dir _ _);
          rewrite <-?app_assoc; done.
      + split; [done|]. intros p _ Hb. apply Hp.
        destruct (Hb bf Hbf) as [? ?]. destruct (fs_is_dir _ _);
          rewrite <-?app_assoc; done.
    - simpl. done. }
  rewrite bind_unfold, choose_target_run.
  destruct (choose_target_spec (t0 :: ts) w) as [_ Ht].
  destruct ((choose_target (t0 :: ts) w).1) as [target|e]; [|done].
  specialize (Ht target eq_refl).
  rewrite bind_unfold, sha256_file_spec.
  destruct (files w !! bf) as [[cb mb|mb]|]; [|done..].
  destruct (deny w OpRead bf); [done|].
  rewrite bind_unfold, sha256_file_spec.
  destruct (files w !! target) as [[ct mt|mt]|]; [|done..].
  destruct (deny w OpRead target); [done|].
  destruct (String.eqb _ _); [done|].
  destruct (decide (name target = "")) as [En|Hn].
  - unfold Bms.replace_content. rewrite bind_unfold.
    unfold with_tmp_suffix, PyPath.with_suffix. rewrite En. simpl. done.
  - pose proof (bms_replace_content_atomic bf target acc w Hn) as Ha.
    unfold atomic_replacement in Ha.
    assert (same_env w (Bms.replace_content bf target acc w).2) as He.
    { unfold Bms.replace_content. rewrite bind_unfold, with_tmp_suffix_eq by done.
      pose proof (atomic_replace_spec bf (tmp_of target) target
        (print TagFIX (name target);; mret (add_restored acc)) (add_restored acc)
        [EvPrint TagFIX (name target)] w (tmp_ne target) (prints_print_ret _ _ _)) as Hs.
      fold (tmp_of target). destruct (try_finally _ _ w) as [r w']. tauto. }
    destruct (Bms.replace_content bf target acc w) as [r w'].
    split; [done|]. intros p Hp _. destruct Ha as (Hfr & _).
    destruct (Hp target Ht) as [? ?]. by apply Hfr.
Qed.

End Step.
End BmsStep.

Module TmpFacts.
Import World PyStr PyPath StrFacts PathFacts Audit.

Lemma rfind_app c a b :
  rfind c (a +:+ b) = match rfind c b with
                      | Some i => Some (String.length a + i)%nat
                      | None => rfind c a
                      end.
Proof.
  induction a as [|x a IH]; sapp; simpl.
  - by destruct (rfind c b).
  - rewrite IH. by destruct (rfind c b).
Qed.

Lemma str_drop_app a b : str_drop (String.length a) (a +:+ b) = b.
Proof. induction a; sapp; simpl; [by destruct b|done]. Qed.

Lemma suffix_tmp x : suffix (x +:+ ".tmp") = "" ∨ suffix (x +:+ ".tmp") = ".tmp".
Proof.
  unfold suffix. rewrite rfind_app. simpl. rewrite Nat.add_0_r.
  destruct (_ && _); [right|by left]. apply str_drop_app.
Qed.

Lemma is_xml_tmp t : Bms.is_xml (tmp_of t) = false.
Proof.
  unfold Bms.is_xml, tmp_of. rewrite name_snoc.
  destruct (suffix_tmp (name t)) as [-> | ->]; done.
Qed.

Lemma tmp_of_child (d : path) x : tmp_of (d ++ [x]) = d ++ [x +:+ ".tmp"].
Proof. unfold tmp_of. by rewrite parent_snoc, name_snoc. Qed.

End TmpFacts.

Module BmsSettle.
Import World Audit AuditFacts PathFacts WorldFacts ReplaceFacts StepFacts PassFacts.
Import OrderFacts ListingFacts IndexSpec IndexFacts NewestFacts BmsStep TmpFacts.

Section Settle.
Context `{Hashlib} `{Archiver}.
Variable st : Bms.Settings.
Abbreviation L := (Bms.bms_config_dir st).

Lemma fs_is_file_eq fs fs' p : fs' !! p = fs !! p → fs_is_file fs' p = fs_is_file fs p.
Proof. unfold fs_is_file. by intros ->. Qed.

(** A settled key costs a second pass nothing. *)
Lemma settled_step li acc k bfs v :
  settled st k bfs (files v) → no_faults v →
  Bms.index_get li k = keyed (files v) L k →
  ∃ acc' v', Bms.restore_key st li acc (k, bfs) v = (Ok acc', v') ∧
             files v' = files v ∧ same_env v v' ∧ restored acc' = restored acc.
Proof.
  intros (b & cb & mb & Hb & Hcb & Hcase) Hnf Hli.
  unfold Bms.restore_key. rewrite bind_unfold, choose_target_run.
  rewrite (choose_target_files bfs (world_of_files (files v)) v), Hb by done.
  rewrite Hli. destruct (keyed (files v) L k) as [|t0 ts] eqn:Ek.
  - destruct Hcase as [-> | (md & Hdest & Hdst & Hne)].
    { rewrite !bind_unfold. simpl. eexists _, _. split; [done|]. done. }
    destruct (Bms.copy_if_missing st);
      [|rewrite !bind_unfold; simpl; eexists _, _; split; [done|]; done].
    rewrite bind_unfold.
    assert (fs_is_dir (files v) (L ++ [name b]) = true) as Hd.
    { unfold fs_is_dir. by rewrite Hdest. }
    destruct (copy2_Ok b (L ++ [name b]) v cb mb md) as (v' & -> & He & Hf).
    + done.
    + rewrite Hd, <-app_assoc. done.
    + apply Hnf.
    + apply Hnf.
    + rewrite Hd, <-app_assoc. unfold fs_is_dir. simpl. by rewrite Hdst.
    + rewrite Hd, parent_snoc. done.
    + rewrite !bind_unfold. simpl. eexists _, _. split; [done|].
      simpl. rewrite Hf, Hd, <-app_assoc. simpl.
      split; [by apply insert_id|]. done.
  - destruct Hcase as (t & ct & mt & Ht & Hct & Hsha).
    rewrite bind_unfold, choose_target_run.
    rewrite (choose_target_files (t0 :: ts) (world_of_files (files v)) v), Ht by done.
    rewrite bind_unfold, sha256_file_spec, Hcb, (Hnf OpRead b).
    rewrite bind_unfold, sha256_file_spec, Hct, (Hnf OpRead t).
    rewrite Hsha, String.eqb_refl. rewrite !bind_unfold. simpl.
    eexists _, _. split; [done|]. done.
Qed.

(** Being settled is a matter of the files of the key. *)
Lemma settled_stable k bfs fs fs' :
  settled st k bfs fs →
  (∀ b, b ∈ bfs → fs' !! b = fs !! b ∧
                  fs' !! (L ++ [name b]) = fs !! (L ++ [name b]) ∧
                  fs' !! (L ++ [name b; name b]) = fs !! (L ++ [name b; name b])) →
  (∀ x, Bms.is_xml (L ++ [x]) = true → key_of (L ++ [x]) = k →
        fs' !! (L ++ [x]) = fs !! (L ++ [x])) →
  settled st k bfs fs'.
Proof.
  intros (b & cb & mb & Hb & Hcb & Hcase) Hbfs Hxml.
  pose proof (proj2 (choose_target_spec bfs (world_of_files fs)) b Hb) as Hbin.
  exists b, cb, mb. split; [|split].
  - rewrite <-Hb. apply choose_target_local. intros p Hp. apply mtime_of_eq.
    simpl. by apply Hbfs.
  - by rewrite (proj1 (Hbfs b Hbin)).
  - assert (keyed fs' L k = keyed fs L k) as ->.
    { apply keyed_local. intros x Hx Hk. apply fs_is_file_eq. by apply Hxml. }
    destruct (keyed fs L k) as [|t0 ts] eqn:Ek.
    + destruct Hcase as [?|(md & Hdest & Hdst & Hne)]; [by left|]. right.
      destruct (Hbfs b Hbin) as (_ & E1 & E2). exists md. by rewrite E1, E2.
    + destruct Hcase as (t & ct & mt & Ht & Hct & Hsha).
      assert (∀ p, p ∈ t0 :: ts → fs' !! p = fs !! p) as HT.
      { intros p Hp. rewrite <-Ek in Hp.
        apply keyed_elem in Hp as ([x ->] & _ & Hx & Hk). by apply Hxml. }
      exists t, ct, mt. split; [|split; [|done]].
      * rewrite <-Ht. apply choose_target_local. intros p Hp. apply mtime_of_eq.
        simpl. by apply HT.
      * rewrite HT; [done|]. apply (proj2 (choose_target_spec _ _) t Ht).
Qed.

Lemma keyed_singleton fs k dest cb mb :
  keyed fs L k = [] → Bms.is_xml dest = true → key_of dest = k →
  (∃ x, dest = L ++ [x]) →
  keyed (<[dest := File cb mb]> fs) L k = [dest].
Proof.
  intros Ek Hx Hk Hc. apply listing_unique.
  - apply NoDup_List_filter, xml_files_NoDup.
  - apply NoDup_singleton.
  - apply StronglySorted_List_filter, xml_files_sorted.
  - repeat constructor.
  - intros p. rewrite keyed_elem, list_elem_of_singleton. split.
    + intros (Hpx & Hf & Hpxml & Hpk). destruct (decide (p = dest)) as [|Hne]; [done|].
      assert (p ∈ keyed fs L k) as Hin.
      { apply keyed_elem. repeat split; try done.
        unfold fs_is_file in *. by rewrite lookup_insert_ne in Hf. }
      rewrite Ek in Hin. by apply elem_of_nil in Hin.
    + intros ->. repeat split; try done. unfold fs_is_file. by rewrite lookup_insert_eq.
Qed.

(** A step that succeeds settles its key. *)
Lemma step_settles li acc k bfs w acc' w' :
  Bms.restore_key st li acc (k, bfs) w = (Ok acc', w') →
  Bms.index_get li k = keyed (files w) L k →
  (∀ b, b ∈ bfs → fs_is_file (files w) b = true ∧ ¬ L `prefix_of` b ∧
                  key_of b = k ∧ Bms.is_xml b = true) →
  (∀ t c m, t ∈ keyed (files w) L k → files w !! t = Some (File c m) → m ≤ now w) →
  settled st k bfs (files w').
Proof.
  intros Hstep Hli Hbfs Hclock. revert Hstep.
  unfold Bms.restore_key. rewrite bind_unfold, choose_target_run.
  destruct ((choose_target bfs w).1) as [b|e] eqn:Eb; [|done].
  pose proof (proj2 (choose_target_spec bfs w) b Eb) as Hbin.
  destruct (Hbfs b Hbin) as (Hbf & HbL & Hbk & Hbx).
  assert (∃ cb mb, files w !! b = Some (File cb mb)) as (cb & mb & Hcb).
  { unfold fs_is_file in Hbf. destruct (files w !! b) as [[c m|m]|]; eauto; done. }
  assert (∀ p b', b' ∈ bfs → L `prefix_of` p → b' ≠ p) as Hout.
  { intros p b' Hb' Hp ->. by destruct (Hbfs p Hb') as (_ & ? & _). }
  (* the choice among the backup files is not disturbed by changes below [L] *)
  assert (∀ fs', (∀ p, ¬ L `prefix_of` p → fs' !! p = files w !! p) →
          (choose_target bfs (world_of_files fs')).1 = Ok b ∧
          fs' !! b = Some (File cb mb)) as Hkeep.
  { intros fs' Hfs'. split; [|by rewrite Hfs'].
    rewrite <-Eb. apply choose_target_local. intros p Hp. apply mtime_of_eq.
    simpl. apply Hfs'. by destruct (Hbfs p Hp) as (_ & ? & _). }
  rewrite Hli. destruct (keyed (files w) L k) as [|t0 ts] eqn:Ek.
  - destruct (Bms.copy_if_missing st) eqn:Ecopy.
    + rewrite bind_unfold.
      pose proof (copy2_spec b (L ++ [name b]) w) as Hc.
      destruct (copy2 b _ w) as [[[]|e] w1]; [|done].
      destruct Hc as (_ & _ & Hp & cb' & mb' & Hcb' & Hne & Hnd & Hf).
      assert (cb' = cb ∧ mb' = mb) as [-> ->] by (split; congruence).
      rewrite !bind_unfold. simpl. intros [= _ <-]. simpl.
      destruct (fs_is_dir (files w) (L ++ [name b])) eqn:Hd.
      * (* into a directory that stands in the way *)
        rewrite <-app_assoc in *. simpl in *.
        destruct (Hkeep (files w1)) as [Hb1 Hcb1].
        { intros p HpL. apply Hp. intros ->. destruct HpL. by exists [name b; name b]. }
        exists b, cb, mb. split; [done|]. split; [done|].
        assert (keyed (files w1) L k = keyed (files w) L k) as ->.
        { apply keyed_local. intros x _ _. apply fs_is_file_eq, Hp.
          intros E. apply (f_equal length) in E. rewrite !length_app in E.
          simpl in E. lia. }
        rewrite Ek. right. unfold fs_is_dir in Hd.
        destruct (files w !! (L ++ [name b])) as [[c m|m]|] eqn:Hdest; try done.
        exists m. split; [|split; [|done]].
        -- rewrite Hp; [done|]. intros E. apply (f_equal length) in E.
           rewrite !length_app in E. simpl in E. lia.
        -- rewrite Hf. apply lookup_insert_eq.
      * (* as a new candidate *)
        destruct (Hkeep (files w1)) as [Hb1 Hcb1].
        { intros p HpL. apply Hp. intros ->. destruct HpL. by exists [name b]. }
        exists b, cb, mb. split; [done|]. split; [done|].
        rewrite Hf, (keyed_singleton _ _ _ _ _ Ek); eauto.
        -- exists (L ++ [name b]), cb, mb. split; [done|].
           split; [apply lookup_insert_eq|done].
        -- unfold Bms.is_xml in *. by rewrite name_snoc.
        -- unfold key_of in *. by rewrite name_snoc.
    + rewrite !bind_unfold. simpl. intros [= _ <-]. simpl.
      destruct (Hkeep (files w)) as [Hb1 Hcb1]; [done|].
      exists b, cb, mb. split; [done|]. split; [done|]. rewrite Ek. by left.
  - rewrite bind_unfold, choose_target_run.
    destruct ((choose_target (t0 :: ts) w).1) as [t|e] eqn:Et; [|done].
    pose proof (proj2 (choose_target_spec _ w) t Et) as Htin.
    rewrite <-Ek in Htin. pose proof Htin as Htk.
    apply keyed_elem in Htk as ([x ->] & Htf & Htx & Htkey).
    rewrite bind_unfold, sha256_file_spec, Hcb.
    destruct (deny w OpRead b); [done|].
    rewrite bind_unfold, sha256_file_spec.
    destruct (files w !! (L ++ [x])) as [[ct mt|mt]|] eqn:Hct; [|done..].
    destruct (deny w OpRead (L ++ [x])); [done|].
    destruct (String.eqb_spec (sha256 cb) (sha256 ct)) as [Hsha|Hsha].
    + rewrite !bind_unfold. simpl. intros [= _ <-]. simpl.
      destruct (Hkeep (files w)) as [Hb1 Hcb1]; [done|].
      exists b, cb, mb. split; [done|]. split; [done|]. rewrite Ek.
      exists (L ++ [x]), ct, mt. split; [|done].
      rewrite <-Et. by apply choose_target_files.
    + intros Hr.
      pose proof (bms_replace_content_named _ _ _ _ _ _ Hr) as Hn.
      pose proof (bms_replace_content_atomic b (L ++ [x]) acc w Hn) as Ha.
      unfold atomic_replacement in Ha. rewrite Hr in Ha.
      destruct Ha as (Hfr & _ & cb' & mb' & evs & Hcb' & Hf & _).
      assert (cb' = cb) as -> by congruence.
      rewrite tmp_of_child in *.
      assert (∀ p, ¬ L `prefix_of` p → files w' !! p = files w !! p) as Hother.
      { intros p HpL. apply Hfr; intros ->; destruct HpL; by eexists. }
      destruct (Hkeep (files w') Hother) as [Hb1 Hcb1].
      exists b, cb, mb. split; [done|]. split; [done|].
      assert (∀ p, p ∈ keyed (files w) L k → p ≠ L ++ [x +:+ ".tmp"]) as Hnt.
      { intros p (_ & _ & Hpx & _)%keyed_elem ->.
        rewrite <-tmp_of_child, is_xml_tmp in Hpx. done. }
      assert (keyed (files w') L k = keyed (files w) L k) as ->.
      { apply keyed_local. intros y Hy Hk.
        destruct (decide (L ++ [y] = L ++ [x])) as [->|Hne].
        - unfold fs_is_file at 1. rewrite Hf, lookup_delete_ne, lookup_insert_eq, Htf.
          + done.
          + rewrite <-tmp_of_child. apply tmp_ne.
        - apply fs_is_file_eq, Hfr; [|done].
          intros E. rewrite E, <-tmp_of_child, is_xml_tmp in Hy. done. }
      rewrite Ek. exists (L ++ [x]), cb, (now w).
      split; [|split; [|done]].
      * apply (choose_target_stable (t0 :: ts) w); try done.
        -- rewrite <-Ek. apply NoDup_List_filter, xml_files_NoDup.
        -- intros p Hp Hpt. apply mtime_of_eq. simpl. apply Hfr; [|done].
           apply Hnt. by rewrite Ek.
        -- exists mt, (now w). unfold mtime_of. simpl.
           rewrite Hct, Hf, lookup_delete_ne, lookup_insert_eq.
           ++ split; [done|]. split; [done|]. eapply Hclock; [|exact Hct]. first [exact Htin | by rewrite Ek in Htin | by rewrite <-Ek].
           ++ rewrite <-tmp_of_child. apply tmp_ne.
      * rewrite Hf, lookup_delete_ne, lookup_insert_eq; [done|].
        rewrite <-tmp_of_child. apply tmp_ne.
Qed.

End Settle.
End BmsSettle.

(** * Two passes in a row (BMS) *)

Module BmsTwice.
Import World Audit AuditFacts PathFacts WorldFacts ReplaceFacts StepFacts PassFacts.
Import OrderFacts ListingFacts IndexSpec IndexFacts NewestFacts BmsStep TmpFacts BmsSettle.

Lemma key_of_snoc (d : path) x : key_of (d ++ [x]) = BmsKey.normalize_key x.
Proof. unfold key_of. by rewrite name_snoc. Qed.

Lemma is_xml_snoc (d b : path) : Bms.is_xml (d ++ [name b]) = Bms.is_xml b.
Proof. unfold Bms.is_xml. by rewrite name_snoc. Qed.

(** The files of an item of an index are the xml files of its key. *)
Lemma item_files fs d k bfs b :
  (k, bfs) ∈ Bms.index_of (xml_files fs d) → b ∈ bfs →
  (∃ x, b = d ++ [x]) ∧ fs_is_file fs b = true ∧ Bms.is_xml b = true ∧ key_of b = k.
Proof.
  intros [-> _]%index_of_item Hb. by apply keyed_elem in Hb.
Qed.

Lemma child_not_below (L B : path) x :
  ¬ L `prefix_of` B → ∀ y r, B ++ [x] ≠ L ++ y :: r.
Proof.
  intros HLB y r E. apply HLB.
  destruct (decide (r = [])) as [->|Hr].
  - apply app_inj_tail in E as [-> _]. done.
  - destruct (exists_last Hr) as (r' & z & ->).
    change (L ++ y :: r' ++ [z]) with (L ++ (y :: r') ++ [z]) in E.
    rewrite app_assoc in E. apply app_inj_tail in E as [-> _].
    by exists (y :: r').
Qed.

Section Twice.
Context `{Hashlib} `{Archiver}.
Variable st : Bms.Settings.
Abbreviation L := (Bms.bms_config_dir st).
Abbreviation B := (Bms.backup_dir st).

Lemma footprint_outside (T bfs : list path) p :
  (∀ t, t ∈ T → ∃ x, t = L ++ [x]) →
  (∀ x r, p ≠ L ++ x :: r) →
  (∀ t, t ∈ T → p ≠ t ∧ p ≠ tmp_of t) ∧
  (∀ b, b ∈ bfs → p ≠ L ++ [name b] ∧ p ≠ L ++ [name b; name b]).
Proof.
  intros HT Hp. split.
  - intros t [x ->]%HT. rewrite tmp_of_child. split; apply Hp.
  - intros b _. split; apply Hp.
Qed.

Lemma footprint_other_key (T bfs : list path) k x :
  (∀ t, t ∈ T → (∃ y, t = L ++ [y]) ∧ key_of t = k) →
  (∀ b, b ∈ bfs → key_of b = k) →
  Bms.is_xml (L ++ [x]) = true → key_of (L ++ [x]) ≠ k →
  (∀ t, t ∈ T → L ++ [x] ≠ t ∧ L ++ [x] ≠ tmp_of t) ∧
  (∀ b, b ∈ bfs → L ++ [x] ≠ L ++ [name b] ∧ L ++ [x] ≠ L ++ [name b; name b]).
Proof.
  intros HT Hb Hx Hk. split.
  - intros t Ht. destruct (HT t Ht) as [[y ->] Hty]. split.
    + intros E. by rewrite E in Hk.
    + intros E. by rewrite E, is_xml_tmp in Hx.
  - intros b Hbin. split.
    + intros E. apply Hk. rewrite E, key_of_snoc. apply (Hb b Hbin).
    + intros E%app_inv_head. done.
Qed.

Lemma footprint_nested (T bfs : list path) k (b' : path) :
  (∀ t, t ∈ T → ∃ y, t = L ++ [y]) →
  (∀ b, b ∈ bfs → key_of b = k) →
  key_of b' ≠ k →
  (∀ t, t ∈ T → L ++ [name b'; name b'] ≠ t ∧ L ++ [name b'; name b'] ≠ tmp_of t) ∧
  (∀ b, b ∈ bfs → L ++ [name b'; name b'] ≠ L ++ [name b] ∧
                  L ++ [name b'; name b'] ≠ L ++ [name b; name b]).
Proof.
  intros HT Hb Hk. split.
  - intros t [y ->]%HT. rewrite tmp_of_child. split; intros E%app_inv_head; done.
  - intros b Hbin. split; intros E%app_inv_head; [done|].
    apply Hk. rewrite <-(Hb b Hbin). unfold key_of. by injection E as ->.
Qed.

(** The first pass, item by item: what lies outside the live folder stays,
    the candidates of the keys to come stay, and the keys that were handled
    are settled. *)
Lemma first_pass w0 :
  ¬ L `prefix_of` B →
  fs_is_dir (files w0) L = true →
  (∀ p c m, files w0 !! p = Some (File c m) → m ≤ now w0) →
  ∀ todo done acc w acc' w',
    done ++ todo = Bms.index_of (xml_files (files w0) B) →
    same_env w0 w →
    (∀ p, (∀ x r, p ≠ L ++ x :: r) → files w !! p = files w0 !! p) →
    (∀ x, Bms.is_xml (L ++ [x]) = true → key_of (L ++ [x]) ∉ done.*1 →
          files w !! (L ++ [x]) = files w0 !! (L ++ [x])) →
    (∀ k bfs, (k, bfs) ∈ done → settled st k bfs (files w)) →
    for_each (Bms.restore_key st (Bms.index_of (xml_files (files w0) L))) acc todo w
      = (Ok acc', w') →
    same_env w0 w' ∧
    (∀ p, (∀ x r, p ≠ L ++ x :: r) → files w' !! p = files w0 !! p) ∧
    (∀ k bfs, (k, bfs) ∈ done ++ todo → settled st k bfs (files w')).
Proof.
  intros HLB HL Hclock.
  induction todo as [|[k bfs] todo IH]; intros done acc w acc' w' Hsplit Henv Hout Hkeys Hset.
  { simpl. intros [= <- <-]. by rewrite app_nil_r. }
  cbn [for_each]. rewrite bind_unfold.
  destruct (Bms.restore_key st (Bms.index_of (xml_files (files w0) L)) acc (k, bfs) w)
    as [[acc1|e] w1] eqn:Hstep; [|done].
  intros Hrest.
  destruct (index_of_wf (xml_files (files w0) B)) as [Hnd _].
  rewrite <-Hsplit, fmap_app in Hnd. simpl in Hnd.
  apply NoDup_app in Hnd as (_ & Hdis & Hnd2).
  apply NoDup_cons in Hnd2 as [Hktodo _].
  assert (k ∉ done.*1) as Hkdone.
  { intros Hin. apply (Hdis k Hin). left. }
  assert (∀ k' bfs' b, (k', bfs') ∈ done ++ (k, bfs) :: todo → b ∈ bfs' →
    (∀ x r, b ≠ L ++ x :: r) ∧ fs_is_file (files w0) b = true ∧
    Bms.is_xml b = true ∧ key_of b = k') as Hitems.
  { intros k' bfs' b Hin Hb. rewrite Hsplit in Hin.
    destruct (item_files _ _ _ _ _ Hin Hb) as ([x ->] & ? & ? & ?).
    split; [by apply child_not_below|done]. }
  assert ((k, bfs) ∈ done ++ (k, bfs) :: todo) as Hkin.
  { apply elem_of_app. right. left. }
  assert (Bms.index_get (Bms.index_of (xml_files (files w0) L)) k = keyed (files w0) L k)
    as Hli0 by apply index_get_index_of.
  assert (keyed (files w) L k = keyed (files w0) L k) as Hkw.
  { apply keyed_local. intros x Hx Hk. apply fs_is_file_eq, Hkeys; [done|].
    by rewrite Hk. }
  assert (∀ t, t ∈ keyed (files w0) L k → (∃ y, t = L ++ [y]) ∧ key_of t = k) as HT.
  { intros t (? & _ & _ & ?)%keyed_elem. done. }
  assert (∀ b, b ∈ bfs → key_of b = k) as Hbk.
  { intros b Hb. by destruct (Hitems k bfs b Hkin Hb) as (_ & _ & _ & ?). }
  (* the step settles its key *)
  assert (settled st k bfs (files w1)) as Hsk.
  { eapply step_settles; [exact Hstep|by rewrite Hkw|..].
    - intros b Hb. destruct (Hitems k bfs b Hkin Hb) as (Hnb & Hf & Hx & Hk).
      split; [|split; [|done]].
      + unfold fs_is_file. rewrite Hout; done.
      + intros [r ->]. destruct r as [|x r]; [|by eapply Hnb].
        rewrite app_nil_r in Hf. unfold fs_is_dir, fs_is_file in *.
        destruct (files w0 !! L) as [[]|]; done.
    - intros t c m Ht Hc. destruct Henv as (-> & _). rewrite Hkw in Ht.
      destruct (HT t Ht) as [[y ->] Hty]. pose proof Ht as Ht'.
      apply keyed_elem in Ht' as (_ & _ & Hx & _).
      rewrite Hkeys in Hc; [by eapply Hclock|done|by rewrite Hty]. }
  pose proof (restore_key_frame st (Bms.index_of (xml_files (files w0) L)) acc k bfs w) as Hfr.
  rewrite Hstep, Hli0 in Hfr. destruct Hfr as [Henv1 Hfr].
  eapply (IH (done ++ [(k, bfs)])) in Hrest.
  - by rewrite <-app_assoc in Hrest.
  - by rewrite <-app_assoc.
  - by eapply same_env_trans.
  - intros p Hp. rewrite <-Hout by done.
    destruct (footprint_outside (keyed (files w0) L k) bfs p) as [? ?]; [naive_solver|done|].
    by apply Hfr.
  - intros x Hx Hni. rewrite fmap_app, not_elem_of_app in Hni. destruct Hni as [Hnd Hnk].
    simpl in Hnk. rewrite list_elem_of_singleton in Hnk.
    rewrite <-Hkeys by done.
    destruct (footprint_other_key (keyed (files w0) L k) bfs k x) as [? ?]; try done.
    by apply Hfr.
  - intros k' bfs' [Hin|[= -> ->]%list_elem_of_singleton]%elem_of_app; [|done].
    assert (k' ≠ k) as Hne.
    { intros ->. apply Hkdone. apply list_elem_of_fmap. by exists (k, bfs'). }
    assert ((k', bfs') ∈ done ++ (k, bfs) :: todo) as Hin' by (apply elem_of_app; by left).
    eapply settled_stable; [by apply Hset|..].
    + intros b Hb. destruct (Hitems k' bfs' b Hin' Hb) as (Hnb & Hf & Hx & Hk).
      split; [|split].
      * destruct (footprint_outside (keyed (files w0) L k) bfs b) as [? ?];
          [naive_solver|done|]. by apply Hfr.
      * destruct (footprint_other_key (keyed (files w0) L k) bfs k (name b)) as [? ?];
          try done; [by rewrite is_xml_snoc|by rewrite key_of_snoc; fold (key_of b); rewrite Hk|].
        by apply Hfr.
      * destruct (footprint_nested (keyed (files w0) L k) bfs k b) as [? ?];
          [naive_solver|done|by rewrite Hk|]. by apply Hfr.
    + intros x Hx Hk.
      destruct (footprint_other_key (keyed (files w0) L k) bfs k x) as [? ?];
        try done; [by rewrite Hk|]. by apply Hfr.
Qed.

(** The second pass over settled keys. *)
Lemma second_pass li (items : Bms.index) : ∀ acc v,
  no_faults v →
  (∀ k bfs, (k, bfs) ∈ items →
     settled st k bfs (files v) ∧ Bms.index_get li k = keyed (files v) L k) →
  ∃ acc' v', for_each (Bms.restore_key st li) acc items v = (Ok acc', v') ∧
             files v' = files v ∧ same_env v v' ∧ restored acc' = restored acc.
Proof.
  induction items as [|[k bfs] items IH]; intros acc v Hnf Hit.
  { exists acc, v. done. }
  destruct (Hit k bfs) as [Hs Hli]; [left|].
  destruct (settled_step st li acc k bfs v Hs Hnf Hli) as (acc1 & v1 & Hstep & Hf & Henv & Hr).
  destruct (IH acc1 v1) as (acc' & v' & Hrest & Hf' & Henv' & Hr').
  { intros op p. destruct Henv as (_ & -> & _). apply Hnf. }
  { intros k' bfs' Hin. rewrite Hf. apply Hit. by right. }
  exists acc', v'. cbn [for_each]. rewrite bind_unfold, Hstep.
  split; [done|]. split; [congruence|]. split; [by eapply same_env_trans|congruence].
Qed.

Lemma first_run_folders w s1 w1 :
  Bms.restore_from_backups st w = (Ok (Some s1), w1) →
  fs_exists (files w) B = true ∧ fs_exists (files w) L = true.
Proof.
  unfold Bms.restore_from_backups. rewrite bind_unfold. simpl.
  destruct (fs_exists (files w) B); simpl; [|by rewrite !bind_unfold].
  rewrite bind_unfold. simpl.
  destruct (fs_exists (files w) L); simpl; done.
Qed.

(** C7 (idempotence, as the BMS restorer has it).  When a pass of
    [restore_from_backups] has come to its end, the backup folder does not
    lie in the live folder, and no file is dated after the clock of the
    pass, then a second pass over the files that the first one left, with
    no failing operation, comes to its end as well, restores nothing (its
    restored count is 0) and leaves every file as it was. *)
Theorem second_run_restores_nothing w s1 w1 w2 :
  Bms.restore_from_backups st w = (Ok (Some s1), w1) →
  ¬ L `prefix_of` B →
  (∀ p c m, files w !! p = Some (File c m) → m ≤ now w) →
  files w2 = files w1 → no_faults w2 →
  ∃ s2 w3, Bms.restore_from_backups st w2 = (Ok (Some s2), w3) ∧
           restored s2 = 0 ∧ files w3 = files w2.
Proof.
  intros Hrun HLB Hclock Hfiles Hnf.
  destruct (first_run_folders _ _ _ Hrun) as [HeB HeL].
  rewrite bms_restore_unfold, !build_index_spec in Hrun by done.
  unfold fs_exists in HeB, HeL.
  destruct (files w !! B) as [[cB mB|mB]|] eqn:EB; [done| |done].
  destruct (files w !! L) as [[cL mL|mL]|] eqn:EL; [done| |done].
  cbn [fst] in Hrun.
  destruct (for_each _ summary0 _ w) as [[s|e] w1'] eqn:Hloop; [|done].
  injection Hrun as <- <-.
  destruct (first_pass w) with (done := @nil (string * list path))
    (todo := Bms.index_of (xml_files (files w) B))
    (acc := summary0) (w := w) (acc' := s) (w' := w1')
    as (Henv & Hout & Hset); try done.
  { unfold fs_is_dir. by rewrite EL. }
  { intros k bfs Hin. by apply elem_of_nil in Hin. }
  simpl in Hfiles, Hset.
  assert (files w2 !! B = Some (Dir mB)) as EB2.
  { rewrite Hfiles, Hout; [done|]. intros x r E. apply HLB. rewrite E. by eexists. }
  assert (files w2 !! L = Some (Dir mL)) as EL2.
  { rewrite Hfiles, Hout; [done|]. intros x r E.
    apply (f_equal length) in E. rewrite length_app in E. simpl in E. lia. }
  assert (xml_files (files w2) B = xml_files (files w) B) as HB2.
  { apply xml_files_local. intros x _. apply fs_is_file_eq.
    rewrite Hfiles. apply Hout. by apply child_not_below. }
  destruct (second_pass (Bms.index_of (xml_files (files w2) L))
              (Bms.index_of (xml_files (files w) B)) summary0 w2 Hnf)
    as (s2 & w3 & Hloop2 & Hf3 & _ & Hr).
  { intros k bfs Hin. split; [rewrite Hfiles; by apply Hset|].
    apply index_get_index_of. }
  exists s2, (log (EvSummary (restored s2) (identical s2) (missing s2)) w3).
  rewrite bms_restore_unfold, !build_index_spec.
  - rewrite EB2, EL2, HB2. cbn [fst]. rewrite Hloop2. done.
  - unfold fs_exists. by rewrite EB2.
  - unfold fs_exists. by rewrite EL2.
Qed.

End Twice.
End BmsTwice.

(** * The programs on the sample worlds *)

Module Runs.
Import World Audit IndexSpec Okb OkbSpec Samples.

#[local] Existing Instance hash_id.
#[local] Existing Instance zip_stub.
#[local] Existing Instance text_toy.

(** An equation between closed terms, by evaluation of both sides. *)
Ltac by_run :=
  lazymatch goal with
  | |- @eq ?T ?a ?b => vm_cast_no_check (@eq_refl T a)
  end.

(** A run is its result and the world it leaves. *)
Lemma run_result {A} (o : res A * world) (r : res A) : o.1 = r → o = (r, o.2).
Proof. destruct o as [r' w']. simpl. by intros ->. Qed.


Lemma stick_named : name bms_stick ≠ "".
Proof. intros E. discriminate E. Qed.

Lemma bak_stick_no_sibling : bak_stick ≠ tmp_of bms_stick.
Proof. intros E. vm_compute in E. discriminate E. Qed.

(** The replacement of the live file of the stick: refused at the rename,
    and on a system that refuses nothing. *)
Lemma replacement_is_atomic_witness :
  name bms_stick ≠ "" ∧
  (atomic_replacement (Bms.replace_content bak_stick bms_stick summary0)
     bak_stick bms_stick bms_refused
   ∧ atomic_replacement
       (Dcs.replace_content false bak_stick bms_stick "Stick" (mret ()) summary0)
       bak_stick bms_stick bms_refused
   ∧ atomic_replacement
       (Dcs.replace_content false bak_stick bms_stick "Stick" (print TagFIX "Stick")
          summary0)
       bak_stick bms_stick bms_refused)
  ∧ (replaced (Bms.replace_content bak_stick bms_stick summary0)
       (add_restored summary0) bms_stick "X" bms_world
     ∧ replaced
         (Dcs.replace_content false bak_stick bms_stick "Stick" (mret ()) summary0)
         (add_restored summary0) bms_stick "X" bms_world
     ∧ replaced
         (Dcs.replace_content false bak_stick bms_stick "Stick" (print TagFIX "Stick")
            summary0)
         (add_restored summary0) bms_stick "X" bms_world).
Proof.
  split; [exact stick_named|]. split.
  - exact (proj1 (ReplaceFacts.replacement_is_atomic bak_stick bms_stick summary0
                    "Stick" bms_refused stick_named)).
  - apply (proj2 (ReplaceFacts.replacement_is_atomic bak_stick bms_stick summary0
                    "Stick" bms_world stick_named) "X" 1 0).
    + by_run.
    + by_run.
    + exact bak_stick_no_sibling.
    + by_run.
    + by_run.
    + reflexivity.
    + reflexivity.
    + reflexivity.
Defined.

(** The rename onto the live file of the stick and the removal of the
    temporary file are both refused: the replacement raises, the live file
    is what it was, and the temporary file, which was not there before,
    stays with the bytes of the backup. *)
Lemma refused_cleanup_leaves_tmp :
  (Bms.replace_content bak_stick bms_stick summary0 bms_stuck).1
    = Raise PermissionError
  ∧ files (Bms.replace_content bak_stick bms_stick summary0 bms_stuck).2 !! bms_stick
    = Some (File "Y" 2)
  ∧ files bms_stuck !! tmp_of bms_stick = None
  ∧ files (Bms.replace_content bak_stick bms_stick summary0 bms_stuck).2
      !! tmp_of bms_stick
    = Some (File "X" 10)
  ∧ trace (Bms.replace_content bak_stick bms_stick summary0 bms_stuck).2
    = [ EvCopyfile bak_stick (tmp_of bms_stick);
        EvReplace (tmp_of bms_stick) bms_stick;
        EvUnlink (tmp_of bms_stick) ]
  ∧ (Dcs.replace_content false bak_stick bms_stick "Stick" (mret ()) summary0
       bms_stuck).1
    = Raise PermissionError
  ∧ files (Dcs.replace_content false bak_stick bms_stick "Stick" (mret ()) summary0
             bms_stuck).2 !! tmp_of bms_stick
    = Some (File "X" 10).
Proof. repeat split; by_run. Qed.

(** The rename onto the live file of the stick is refused: the pass ends
    there, with the exception of the step. *)
Lemma failure_aborts_pass_witness :
  Bms.restore_from_backups bms_settings bms_refused
  = (Raise PermissionError,
     (Bms.restore_key bms_settings bms_live_index summary0
        ("Stick", [bak_stick]) bms_refused).2).
Proof.
  apply (proj1 PassFacts.failure_aborts_pass bms_settings bms_refused []
           ("Stick", [bak_stick]) [("Throttle", [bak_throttle])]
           bms_live_index summary0 bms_refused).
  - by_run.
  - by_run.
  - by_run.
  - by_run.
  - reflexivity.
  - apply run_result. by_run.
Defined.

(** The pass does not go on to the next key: the throttle, whose step
    would have succeeded, is never looked at, and no summary is printed. *)
Lemma pass_stops_at_first_failure :
  (Bms.restore_from_backups bms_settings bms_refused).1 = Raise PermissionError
  ∧ (Bms.restore_key bms_settings bms_live_index summary0
       ("Throttle", [bak_throttle]) bms_refused).1 = Ok (add_restored summary0)
  ∧ files (Bms.restore_from_backups bms_settings bms_refused).2 !! bms_throttle
    = Some (File "U" 2)
  ∧ trace (Bms.restore_from_backups bms_settings bms_refused).2
    = [ EvCopyfile bak_stick (tmp_of bms_stick);
        EvReplace (tmp_of bms_stick) bms_stick;
        EvUnlink (tmp_of bms_stick) ].
Proof. repeat split; by_run. Qed.





(** C6 (the DCS restorer in a dry run).  With [copy_if_missing] set, a dry
    run of [main] writes no archive and yet copies the backup file of a
    device that has no live file into the live tree. *)
Lemma dcs_dry_run_copies_without_snapshot :
  (Dcs.main (dcs_settings true) true "T" dcs_missing).1 = Ok 0
  ∧ files dcs_missing !! dcs_live_stick g1 = None
  ∧ files (Dcs.main (dcs_settings true) true "T" dcs_missing).2 !! dcs_live_stick g1
    = Some (File "X" 1)
  ∧ trace (Dcs.main (dcs_settings true) true "T" dcs_missing).2
    = [ EvCopy2 (dcs_bak_stick g1) (dcs_live_stick g1);
        EvPrint TagCOPY ("Joystick/Stick " +:+ g1 +:+ ".diff.lua");
        EvSummary 0 0 1 ].
Proof. repeat split; by_run. Qed.

(** The sample world of the BMS restorer meets what two passes in a row
    ask for. *)
Lemma bms_first_run :
  Bms.restore_from_backups bms_settings bms_world
  = (Ok (Some (Summary 2 0 0 0)), bms_after).
Proof. unfold bms_after. apply run_result. by_run. Qed.

Lemma bms_backup_outside :
  ¬ Bms.bms_config_dir bms_settings `prefix_of` Bms.backup_dir bms_settings.
Proof. intros [r E]. discriminate E. Qed.

Lemma bms_clock p c m : files bms_world !! p = Some (File c m) → m ≤ now bms_world.
Proof.
  intros Hp. apply elem_of_list_to_map_2 in Hp. unfold bms_files in Hp.
  change (now bms_world) with 10.
  repeat (apply elem_of_cons in Hp as [Hp|Hp];
    [first [discriminate Hp | injection Hp as _ _ ->; lia]|]).
  apply elem_of_nil in Hp. destruct Hp.
Qed.

Lemma bms_after_no_faults : no_faults bms_after.
Proof. intros op p. by_run. Qed.

Lemma second_run_restores_nothing_witness :
  Bms.restore_from_backups bms_settings bms_world
    = (Ok (Some (Summary 2 0 0 0)), bms_after)
  ∧ ∃ s2 w3, Bms.restore_from_backups bms_settings bms_after = (Ok (Some s2), w3) ∧
             restored s2 = 0 ∧ files w3 = files bms_after.
Proof.
  split; [exact bms_first_run|].
  exact (BmsTwice.second_run_restores_nothing bms_settings bms_world
           (Summary 2 0 0 0) bms_after bms_after
           bms_first_run bms_backup_outside bms_clock eq_refl bms_after_no_faults).
Defined.

(** Two backup files of one device: each pass restores both, one over the
    other, so the second pass restores as many as the first. *)
Lemma dcs_second_run_restores_again :
  (Dcs.restore_dcs (dcs_settings false) false dcs_twice).1 = Ok (Summary 2 0 0 0)
  ∧ (Dcs.restore_dcs (dcs_settings false) false dcs_after).1 = Ok (Summary 2 0 0 0).
Proof. split; by_run. Qed.

Lemma missing_directories_witness :
  Bms.build_index ["bak"] bms_no_backup = (Ok [], bms_no_backup).
Proof.
  apply (proj1 PassFacts.missing_directories ["bak"] bms_no_backup).
  by_run.
Defined.

(** A pass of the DCS restorer over a missing backup tree raises. *)
Lemma dcs_missing_backup_raises :
  fs_exists (files dcs_no_backup) (Dcs.backup_dir (dcs_settings false)) = false
  ∧ Dcs.restore_dcs (dcs_settings false) false dcs_no_backup
    = (Raise FileNotFoundError, dcs_no_backup).
Proof. split; by_run. Qed.

Lemma unusable_file_left_alone_witness :
  build_plan_for_file okb_broken okb_registry okb_world = (Ok None, okb_world) ∧
  let w' := (main ["okb"] ["zips"] false okb_registry "T" okb_world).2 in
  files w' !! okb_broken = Some (File "{oops" 1) ∧
  ∃ evs, trace w' = trace okb_world ++ evs ∧
         (EvWriteText okb_broken ∉ evs) ∧
         (∀ archive sources, EvZip archive sources ∈ evs → okb_broken ∉ sources).
Proof.
  apply (OkbClaims.unusable_file_left_alone ["okb"] ["zips"] false okb_registry "T"
           okb_world okb_broken "{oops" 1).
  - reflexivity.
  - reflexivity.
  - left. reflexivity.
Defined.

Lemma duplicate_devices_merge_witness :
  ∃ pl, plan_of_data okb_good okb_registry (JObj okb_doc) = Ok (Some pl) ∧
  ∃ new_devices,
    new_data pl = JObj (dict_set okb_doc "Devices" (JObj new_devices)) ∧
    NoDup new_devices.*1 ∧
    (length new_devices < length [(g1, JObj stick_a); (g2, JObj stick_b)])%nat ∧
    dict_get new_devices g3 = Some (JObj (dict_set stick_b "ID" (JStr g3))).
Proof.
  exists okb_plan. split; [by_run|].
  edestruct (OkbClaims.duplicate_devices_merge okb_good okb_registry okb_doc
               [] g1 stick_a [] g2 stick_b [] "GameController" "Stick" "Stick" g3 [] okb_plan)
    as (nd & Hnew & Hnd & Hlen & Hget);
    [reflexivity|reflexivity|reflexivity|reflexivity|reflexivity|
     discriminate|discriminate|discriminate|reflexivity|
     by_run|by_run|].
  exists nd. split; [exact Hnew|]. split; [exact Hnd|]. split; [exact Hlen|].
  apply Hget. intros it Hit. by apply elem_of_nil in Hit.
Defined.

End Runs.

(** * Further properties of the restorers *)

(** ** [choose_target] *)

Module ChooseClaims.
Import World IndexSpec StepFacts NewestFacts AuditFacts.

Lemma max_mtime_go_newest ps : ∀ best bm w,
  (∀ p, p ∈ ps → is_Some (mtime_of (files w) p)) →
  (max_mtime_go best bm ps w = (Ok best, w) ∧
   ∀ p m, p ∈ ps → mtime_of (files w) p = Some m → m ≤ bm)
  ∨ ∃ pre t post mt,
      ps = pre ++ t :: post ∧ max_mtime_go best bm ps w = (Ok t, w) ∧
      mtime_of (files w) t = Some mt ∧ bm < mt ∧
      (∀ p m, p ∈ pre → mtime_of (files w) p = Some m → m < mt) ∧
      (∀ p m, p ∈ post → mtime_of (files w) p = Some m → m ≤ mt).
Proof.
  induction ps as [|p ps IH]; intros best bm w Hall.
  { left. split; [done|]. intros p m Hp. by apply elem_of_nil in Hp. }
  destruct (Hall p) as [mp Hmp]; [left|].
  assert (∀ q, q ∈ ps → is_Some (mtime_of (files w) q)) as Hall'.
  { intros q Hq. apply Hall. by right. }
  cbn [max_mtime_go]. rewrite bind_unfold, stat_mtime_of, Hmp.
  destruct (Z.ltb_spec bm mp) as [Hlt|Hge].
  - right. destruct (IH p mp w Hall') as [[Hrun Hle]|(pre & t & post & mt & -> & Hrun & Ht & Hlt' & Hpre & Hpost)].
    + exists [], p, ps, mp. repeat split; try done.
      intros q m Hq. by apply elem_of_nil in Hq.
    + exists (p :: pre), t, post, mt. repeat split; try done; [lia|].
      intros q m [->|Hq]%elem_of_cons Hm; [|by eapply Hpre].
      assert (m = mp) as -> by congruence. done.
  - destruct (IH best bm w Hall') as [[Hrun Hle]|(pre & t & post & mt & -> & Hrun & Ht & Hlt' & Hpre & Hpost)].
    + left. split; [done|]. intros q m [->|Hq]%elem_of_cons Hm; [|by eapply Hle].
      assert (m = mp) as -> by congruence. done.
    + right. exists (p :: pre), t, post, mt. repeat split; try done.
      intros q m [->|Hq]%elem_of_cons Hm; [|by eapply Hpre].
      assert (m = mp) as -> by congruence. lia.
Qed.

Lemma max_mtime_go_missing ps : ∀ best bm w q,
  q ∈ ps → mtime_of (files w) q = None →
  max_mtime_go best bm ps w = (Raise FileNotFoundError, w).
Proof.
  induction ps as [|p ps IH]; intros best bm w q Hq Hnone.
  { by apply elem_of_nil in Hq. }
  cbn [max_mtime_go]. rewrite bind_unfold, stat_mtime_of.
  destruct (mtime_of (files w) p) as [mp|] eqn:Hmp; [|done].
  apply elem_of_cons in Hq as [->|Hq]; [congruence|].
  destruct (bm <? mp); by eapply IH.
Qed.

(** X1: [choose_target].  When every candidate can be examined, the choice
    is the first of the newest: a candidate of the list such that those
    before it are strictly older and those after it are not newer; nothing
    is changed.  A single candidate is returned unexamined, even when no
    such file exists.  Of two or more candidates one that does not exist
    makes the choice raise [FileNotFoundError], and an empty list raises
    [ValueError]. *)
Theorem choose_target_newest :
  (∀ T w, T ≠ [] → (∀ p, p ∈ T → is_Some (mtime_of (files w) p)) →
     ∃ pre t post mt,
       T = pre ++ t :: post ∧ choose_target T w = (Ok t, w) ∧
       mtime_of (files w) t = Some mt ∧
       (∀ p m, p ∈ pre → mtime_of (files w) p = Some m → m < mt) ∧
       (∀ p m, p ∈ post → mtime_of (files w) p = Some m → m ≤ mt))
  ∧ (∀ p w, choose_target [p] w = (Ok p, w))
  ∧ (∀ T w q, (2 ≤ length T)%nat → q ∈ T → mtime_of (files w) q = None →
       choose_target T w = (Raise FileNotFoundError, w))
  ∧ (∀ w, choose_target [] w = (Raise ValueError, w)).
Proof.
  split; [|split; [done|split; [|done]]].
  - intros T w Hne Hall. destruct T as [|p ps]; [done|].
    destruct (Hall p) as [mp Hmp]; [left|].
    assert (∀ q, q ∈ ps → is_Some (mtime_of (files w) q)) as Hall'.
    { intros q Hq. apply Hall. by right. }
    destruct ps as [|p2 ps].
    { exists [], p, [], mp.
      split; [done|]. split; [done|]. split; [done|].
      split; intros q m Hq; by apply elem_of_nil in Hq. }
    cbn [choose_target max_mtime]. rewrite bind_unfold, stat_mtime_of, Hmp.
    destruct (max_mtime_go_newest (p2 :: ps) p mp w Hall')
      as [[Hrun Hle]|(pre & t & post & mt & Hsplit & Hrun & Ht & Hlt & Hpre & Hpost)].
    + exists [], p, (p2 :: ps), mp. repeat split; try done.
      intros q m Hq. by apply elem_of_nil in Hq.
    + exists (p :: pre), t, post, mt.
      split; [simpl; by rewrite Hsplit|]. split; [done|]. split; [done|].
      split; [|done].
      intros q m [->|Hq]%elem_of_cons Hm; [|by eapply Hpre].
      assert (m = mp) as -> by congruence. done.
  - intros T w q Hlen Hq Hnone. destruct T as [|p [|p2 ps]]; simpl in Hlen; [lia|lia|].
    cbn [choose_target max_mtime]. rewrite bind_unfold, stat_mtime_of.
    destruct (mtime_of (files w) p) as [mp|] eqn:Hmp; [|done].
    apply elem_of_cons in Hq as [->|Hq]; [congruence|].
    by eapply max_mtime_go_missing.
Qed.

End ChooseClaims.

(** ** [list_xml_files] and [build_index] *)

Module ListingClaims.
Import World PyStr PyPath IndexSpec OrderFacts ListingFacts IndexFacts.

Lemma index_get_in (idx : Bms.index) k :
  Bms.index_get idx k ≠ [] → (k, Bms.index_get idx k) ∈ idx.
Proof.
  induction idx as [|[k' l] idx IH]; simpl; [done|].
  destruct (String.eqb_spec k' k) as [->|Hne]; [left|right; auto].
Qed.

(** X2: [list_xml_files].  On a folder the listing holds, once each and in
    the order of [sorted], exactly the entries of the folder that are files
    and whose suffix is [.xml] in any mix of cases; nothing is changed.  On
    a path that is a file it raises [NotADirectoryError]. *)
Theorem xml_listing :
  (∀ d w md, files w !! d = Some (Dir md) →
     ∃ l, Bms.list_xml_files d w = (Ok l, w) ∧
          StronglySorted path_le l ∧ NoDup l ∧
          ∀ p, p ∈ l ↔ (∃ x, p = d ++ [x]) ∧ fs_is_file (files w) p = true ∧
                       lower (suffix (name p)) = ".xml")
  ∧ (∀ d w c m, files w !! d = Some (File c m) →
       Bms.list_xml_files d w = (Raise NotADirectoryError, w)).
Proof.
  split.
  - intros d w md Hd. exists (xml_files (files w) d).
    rewrite list_xml_files_spec, Hd. split; [done|].
    split; [apply xml_files_sorted|]. split; [apply xml_files_NoDup|].
    intros p. rewrite xml_files_elem. unfold Bms.is_xml.
    by rewrite String.eqb_eq.
  - intros d w c m Hd. by rewrite list_xml_files_spec, Hd.
Qed.

(** X3: [build_index].  The index of a folder has one entry for each key
    that a listed file has: its keys are distinct, no entry is empty, the
    entry of a key holds the listed files of that key in the order of the
    listing, and every listed file is in the entry of its own key. *)
Theorem index_groups d w md :
  files w !! d = Some (Dir md) →
  ∃ idx l,
    Bms.build_index d w = (Ok idx, w) ∧ Bms.list_xml_files d w = (Ok l, w) ∧
    NoDup idx.*1 ∧
    (∀ k ps, (k, ps) ∈ idx →
       ps ≠ [] ∧ ps = List.filter (λ p, String.eqb (BmsKey.normalize_key (name p)) k) l) ∧
    (∀ p, p ∈ l → ∃ ps, (BmsKey.normalize_key (name p), ps) ∈ idx ∧ p ∈ ps) ∧
    (∀ k, Bms.index_get idx k
          = List.filter (λ p, String.eqb (BmsKey.normalize_key (name p)) k) l).
Proof.
  intros Hd. exists (Bms.index_of (xml_files (files w) d)), (xml_files (files w) d).
  rewrite build_index_spec, list_xml_files_spec, Hd.
  split; [done|]. split; [done|].
  destruct (index_of_wf (xml_files (files w) d)) as [Hnd Hne].
  split; [done|]. split; [|split].
  - intros k ps Hin. destruct (index_of_item _ _ _ Hin) as [-> ?]. done.
  - intros p Hp.
    exists (Bms.index_get (Bms.index_of (xml_files (files w) d)) (key_of p)).
    assert (p ∈ Bms.index_get (Bms.index_of (xml_files (files w) d)) (key_of p)) as Hin.
    { rewrite index_get_index_of. apply elem_of_List_filter. split; [done|].
      by apply String.eqb_eq. }
    split; [|done]. apply index_get_in. intros E. rewrite E in Hin.
    by apply elem_of_nil in Hin.
  - intros k. apply index_get_index_of.
Qed.

End ListingClaims.

(** ** A pass of the BMS restorer *)

Module BmsPass.
Import World Audit AuditFacts PathFacts WorldFacts ReplaceFacts StepFacts PassFacts.
Import OrderFacts ListingFacts IndexSpec IndexFacts NewestFacts BmsStep TmpFacts BmsTwice.

Section Pass.
Context `{Hashlib} `{Archiver}.
Variable st : Bms.Settings.
Abbreviation L := (Bms.bms_config_dir st).
Abbreviation B := (Bms.backup_dir st).

Lemma replace_content_counts bf target acc w s w' :
  Bms.replace_content bf target acc w = (Ok s, w') → s = add_restored acc.
Proof.
  intros Hr. pose proof (bms_replace_content_named _ _ _ _ _ _ Hr) as Hn.
  revert Hr. unfold Bms.replace_content. rewrite bind_unfold, with_tmp_suffix_eq by done.
  unfold try_finally.
  destruct ((copyfile bf _;; replace _ target;; print TagFIX (name target);;
             mret (add_restored acc)) w) as [[s0|e] w2] eqn:Eb.
  - assert (s0 = add_restored acc) as ->.
    { revert Eb. rewrite !bind_unfold.
      destruct (copyfile bf _ w) as [[[]|?] ?]; [|done].
      rewrite !bind_unfold. destruct (replace _ target _) as [[[]|?] ?]; [|done].
      simpl. by intros [= <- _]. }
    destruct (cleanup_tmp _ w2) as [[[]|?] ?]; [|done]. by intros [= <- _].
  - destruct (cleanup_tmp _ w2) as [[[]|?] ?]; done.
Qed.

(** What a step that returns has done, by the counter that it moved. *)
Lemma restore_key_cases li acc key bfs w acc' w' :
  Bms.restore_key st li acc (key, bfs) w = (Ok acc', w') →
  (acc' = add_missing acc ∧ Bms.index_get li key = [] ∧
   (Bms.copy_if_missing st = false → w' = log (EvPrint TagMISS key) w))
  ∨ (acc' = add_identical acc ∧
     ∃ bf target cb mb ct mt,
       bf ∈ bfs ∧ target ∈ Bms.index_get li key ∧
       files w !! bf = Some (File cb mb) ∧ files w !! target = Some (File ct mt) ∧
       sha256 cb = sha256 ct ∧ w' = log (EvPrint TagOK (name target)) w)
  ∨ (acc' = add_restored acc ∧ Bms.index_get li key ≠ []).
Proof.
  unfold Bms.restore_key. rewrite bind_unfold.
  destruct (choose_target bfs w) as [[bf|e] w1] eqn:Ebf; [|done].
  apply choose_target_inv in Ebf as [-> Hbf]. specialize (Hbf bf eq_refl).
  destruct (Bms.index_get li key) as [|t ts] eqn:Eli.
  { intros Hr. left. revert Hr. destruct (Bms.copy_if_missing st).
    - rewrite !bind_unfold. destruct (copy2 _ _ w) as [[[]|e] w1]; [|done].
      simpl. intros [= <- <-]. done.
    - rewrite !bind_unfold. simpl. intros [= <- <-]. done. }
  rewrite bind_unfold.
  destruct (choose_target (t :: ts) w) as [[target|e] w1] eqn:Et; [|done].
  apply choose_target_inv in Et as [-> Ht]. specialize (Ht target eq_refl).
  rewrite bind_unfold.
  destruct (sha256_file bf w) as [[hb|e] w1] eqn:Ehb; [|done].
  apply sha256_file_inv in Ehb as (-> & cb & mb & Hcb & ->).
  rewrite bind_unfold.
  destruct (sha256_file target w) as [[ht|e] w1] eqn:Eht; [|done].
  apply sha256_file_inv in Eht as (-> & ct & mt & Hct & ->).
  destruct (String.eqb_spec (sha256 cb) (sha256 ct)) as [Heq|Hne].
  { rewrite !bind_unfold. simpl. intros [= <- <-]. right. left. split; [done|].
    exists bf, target, cb, mb, ct, mt. done. }
  intros Hr. right. right. split; [|done]. by eapply replace_content_counts.
Qed.

Lemma for_each_counts li items : ∀ acc w acc' w',
  for_each (Bms.restore_key st li) acc items w = (Ok acc', w') →
  restored acc' + identical acc' + missing acc'
    = restored acc + identical acc + missing acc + Z.of_nat (length items) ∧
  restored acc ≤ restored acc' ∧ identical acc ≤ identical acc' ∧
  missing acc ≤ missing acc' ∧ copied_missing acc' = copied_missing acc.
Proof.
  induction items as [|[k bfs] items IH]; intros acc w acc' w'.
  { simpl. intros [= <- <-]. lia. }
  cbn [for_each]. rewrite bind_unfold.
  destruct (Bms.restore_key st li acc (k, bfs) w) as [[acc1|e] w1] eqn:Hstep; [|done].
  intros Hrest. apply IH in Hrest.
  apply restore_key_cases in Hstep as [(-> & _)|[(-> & _)|(-> & _)]];
    simpl in *; rewrite Nat2Z.inj_succ; lia.
Qed.

Lemma for_each_keeps_outside li items : ∀ acc w p,
  (∀ k t, t ∈ Bms.index_get li k → ∃ x, t = L ++ [x]) →
  (∀ x r, p ≠ L ++ x :: r) →
  files (for_each (Bms.restore_key st li) acc items w).2 !! p = files w !! p.
Proof.
  induction items as [|[k bfs] items IH]; intros acc w p Hli Hp; [done|].
  cbn [for_each]. rewrite bind_unfold.
  pose proof (restore_key_frame st li acc k bfs w) as Hfr.
  destruct (Bms.restore_key st li acc (k, bfs) w) as [[acc1|e] w1].
  - destruct Hfr as [_ Hfr]. rewrite IH by done.
    destruct (footprint_outside st (Bms.index_get li k) bfs p) as [? ?]; [by eauto|done|].
    by apply Hfr.
  - destruct Hfr as [_ Hfr]. simpl.
    destruct (footprint_outside st (Bms.index_get li k) bfs p) as [? ?]; [by eauto|done|].
    by apply Hfr.
Qed.

(** X4: what a pass leaves alone.  Whatever a pass of
    [restore_from_backups] does and however it ends, by returning or by
    raising, a path that does not lie in the live folder is afterwards what
    it was before: the pass writes into the live folder only, and so never
    into the backup files unless they are kept there. *)
Theorem pass_keeps_outside w p :
  (∀ x r, p ≠ L ++ x :: r) →
  files (Bms.restore_from_backups st w).2 !! p = files w !! p.
Proof.
  intros Hp.
  destruct (fs_exists (files w) B) eqn:HeB; cycle 1.
  { unfold Bms.restore_from_backups. rewrite bind_unfold. simpl. rewrite HeB. simpl.
    rewrite ?bind_unfold. done. }
  destruct (fs_exists (files w) L) eqn:HeL; cycle 1.
  { unfold Bms.restore_from_backups. rewrite bind_unfold. simpl. rewrite HeB. simpl.
    rewrite bind_unfold. simpl. by rewrite HeL. }
  rewrite bms_restore_unfold, !build_index_spec by done.
  unfold fs_exists in HeB, HeL.
  destruct (files w !! B) as [[cB mB|mB]|] eqn:EB; [done| |done].
  destruct (files w !! L) as [[cL mL|mL]|] eqn:EL; [done| |done].
  cbn [fst].
  pose proof (for_each_keeps_outside (Bms.index_of (xml_files (files w) L))
                (Bms.index_of (xml_files (files w) B)) summary0 w p) as Hfr.
  destruct (for_each _ summary0 _ w) as [[s|e] w1]; simpl in *; apply Hfr; try done.
  all: intros k t Ht; rewrite index_get_index_of in Ht;
    apply elem_of_List_filter in Ht as [Ht _]; by apply xml_files_elem in Ht as (? & _).
Qed.

(** X5: the counters of a pass.  When a pass returns its summary, every
    key of the backup index was counted once, as restored, as identical or
    as missing: the three counters add up to the number of keys of the
    index of the backup folder.  None is negative, and this restorer never
    counts a copy. *)
Theorem pass_counts w s w' :
  Bms.restore_from_backups st w = (Ok (Some s), w') →
  ∃ backup_index,
    Bms.build_index B w = (Ok backup_index, w) ∧
    restored s + identical s + missing s = Z.of_nat (length backup_index) ∧
    0 ≤ restored s ∧ 0 ≤ identical s ∧ 0 ≤ missing s ∧ copied_missing s = 0.
Proof.
  intros Hrun. destruct (first_run_folders st _ _ _ Hrun) as [HeB HeL].
  rewrite bms_restore_unfold in Hrun by done.
  pose proof (build_index_world B w) as HwB.
  destruct (Bms.build_index B w) as [[bi|e] wB] eqn:EbB; simpl in *; [|done]. subst wB.
  destruct ((Bms.build_index L w).1) as [li|e]; [|done].
  destruct (for_each _ summary0 bi w) as [[s0|e] w1] eqn:Hloop; [|done].
  injection Hrun as <- <-. exists bi. split; [done|].
  apply for_each_counts in Hloop. simpl in Hloop. lia.
Qed.

(** X6: a key whose live file already matches.  A step that counts its key
    as identical has found the chosen backup file and the chosen live file
    with the same digest, and has done nothing but print its line: every
    file, with its modification time, is what it was. *)
Theorem identical_step_writes_nothing li acc key bfs w acc' w' :
  Bms.restore_key st li acc (key, bfs) w = (Ok acc', w') →
  identical acc' ≠ identical acc →
  ∃ bf target cb mb ct mt,
    bf ∈ bfs ∧ target ∈ Bms.index_get li key ∧
    files w !! bf = Some (File cb mb) ∧ files w !! target = Some (File ct mt) ∧
    sha256 cb = sha256 ct ∧
    acc' = add_identical acc ∧ w' = log (EvPrint TagOK (name target)) w.
Proof.
  intros Hstep Hid.
  apply restore_key_cases in Hstep as [(-> & _)|[(-> & Hc)|(-> & _)]]; [done| |done].
  destruct Hc as (bf & target & cb & mb & ct & mt & ? & ? & ? & ? & ? & ?).
  exists bf, target, cb, mb, ct, mt. done.
Qed.

End Pass.
End BmsPass.

(** ** The archive comes first *)

Module ArchiveFacts.
Import World Audit AuditFacts Order OkbSpec OkbRun.

Ltac eff_step :=
  first
    [ apply effects_ret | apply effects_raise | apply effects_gets
    | apply effects_exists_ | apply effects_is_file | apply effects_iterdir
    | apply effects_rglob_all | apply effects_sha256_file
    | apply effects_choose_target | apply effects_with_tmp_suffix
    | apply effects_stat_mtime | apply effects_read_file
    | apply effects_print; exact I | apply effects_emit; exact I
    | apply effects_copy2; exact I | apply effects_copyfile; exact I
    | apply effects_replace; exact I | apply effects_unlink; exact I
    | apply effects_mkdir_parents; exact I | apply effects_cleanup_tmp; exact I
    | apply effects_try_finally
    | apply effects_bind; [|intros ?]
    | match goal with |- effects _ (if ?b then _ else _) => destruct b end
    | match goal with |- effects _ (match ?x with _ => _ end) => destruct x end ].

Ltac eff := repeat eff_step.

Section Any.
Context `{Hashlib} `{Archiver} `{Okb.PyText}.

Lemma any_bms_restore st : effects (λ _, True) (Bms.restore_from_backups st).
Proof.
  unfold Bms.restore_from_backups, Bms.build_index, Bms.list_xml_files. eff.
  apply effects_for_each. intros acc [k bfs] _.
  unfold Bms.restore_key, Bms.replace_content. eff.
Qed.

Lemma any_dcs_restore st dry : effects (λ _, True) (Dcs.restore_dcs st dry).
Proof.
  unfold Dcs.restore_dcs. eff.
  apply effects_for_each. intros acc bf _.
  unfold Dcs.restore_file, Dcs.replace_content. eff.
Qed.

End Any.

Lemma emits_of_effects {A} Q (m : M A) : effects Q m → emits Q m.
Proof. intros Hm w. destruct (Hm w) as (_ & evs & Ht & HQ & _). eauto. Qed.

Lemma emits_mono {A} (Q Q' : event → Prop) (m : M A) :
  (∀ e, Q e → Q' e) → emits Q m → emits Q' m.
Proof.
  intros HQ Hm w. destruct (Hm w) as (evs & Ht & Hall). exists evs. split; [done|].
  eapply Forall_impl; eauto.
Qed.

Lemma emits_bind {A B} Q (m : M A) (f : A → M B) :
  emits Q m → (∀ a, emits Q (f a)) → emits Q (m ≫= f).
Proof.
  intros Hm Hf w. rewrite bind_unfold. destruct (Hm w) as (evs & Ht & Hall).
  destruct (m w) as [[a|e] w1]; simpl in *; [|eauto].
  destruct (Hf a w1) as (evs' & Ht' & Hall'). exists (evs ++ evs').
  rewrite Ht', Ht, app_assoc. split; [done|]. by apply Forall_app.
Qed.

Lemma emits_silent {A} Q (m : M A) : (∀ w, trace (m w).2 = trace w) → emits Q m.
Proof. intros Hm w. exists []. by rewrite Hm, app_nil_r. Qed.

Lemma emits_emit Q e : Q e → emits Q (emit e).
Proof. intros He w. exists [e]. split; [done|]. by apply Forall_singleton. Qed.

Lemma write_file_trace p c w : trace (write_file p c w).2 = trace w.
Proof. by destruct (changes_only_write_file p c w) as (_ & ? & _). Qed.

Lemma zip_entries_trace src ps acc w : trace (zip_entries src ps acc w).2 = trace w.
Proof. by destruct (changes_only_zip_entries (λ _, False) src ps acc w) as (_ & ? & _). Qed.

Lemma emits_zip_write `{Archiver} Q z src lister :
  Q (EvZipOpen z) → (∀ ps, Q (EvZip z ps)) → emits Q lister →
  emits Q (zip_write z src lister).
Proof.
  intros Hopen Hzip Hl. unfold zip_write.
  apply emits_bind; [by apply emits_silent|]. intros [].
  { by apply emits_silent. }
  apply emits_bind; [by apply emits_emit|]. intros _.
  apply emits_bind; [apply emits_silent, write_file_trace|]. intros _.
  apply emits_bind; [done|]. intros ps.
  apply emits_bind; [apply emits_silent, zip_entries_trace|]. intros es.
  apply emits_bind; [by apply emits_emit|]. intros _.
  apply emits_silent, write_file_trace.
Qed.

Lemma bind_Ok {A B} (m : M A) (f : A → M B) w b w' :
  (m ≫= f) w = (Ok b, w') → ∃ a w1, m w = (Ok a, w1) ∧ f a w1 = (Ok b, w').
Proof.
  rewrite bind_unfold. destruct (m w) as [[a|e] w1]; [|done]. eauto.
Qed.

Lemma zips_zip_write `{Archiver} Q z src lister :
  emits Q lister → zips (zip_write z src lister).
Proof.
  intros Hl w a w' Hrun. unfold zip_write in Hrun.
  apply bind_Ok in Hrun as (d & w1 & Hd & Hrun). injection Hd as <- <-.
  destruct (deny w OpZip z); [done|].
  apply bind_Ok in Hrun as ([] & w1 & Hopen & Hrun). injection Hopen as <-.
  apply bind_Ok in Hrun as ([] & w2 & Hw & Hrun).
  apply bind_Ok in Hrun as (ps & w3 & Hps & Hrun).
  apply bind_Ok in Hrun as (es & w4 & Hes & Hrun).
  apply bind_Ok in Hrun as ([] & w5 & Hz & Hrun). injection Hz as <-.
  pose proof (write_file_trace z "" (log (EvZipOpen z) w)) as T1. rewrite Hw in T1.
  destruct (Hl w2) as (evs & T2 & _). rewrite Hps in T2.
  pose proof (zip_entries_trace src ps [] w3) as T3. rewrite Hes in T3.
  pose proof (write_file_trace z (zip_encode es) (log (EvZip z ps) w4)) as T4.
  rewrite Hrun in T4. simpl in *.
  exists ([EvZipOpen z] ++ evs ++ [EvZip z ps]), z, ps.
  rewrite T4, T3, T2, T1, <-!app_assoc. split; [done|].
  rewrite !elem_of_app. right. right. apply list_elem_of_here.
Qed.

Lemma zips_then {A B} Q (m : M A) (f : A → M B) :
  zips m → (∀ a, emits Q (f a)) → zips (m ≫= f).
Proof.
  intros Hm Hf w b w' Hrun. apply bind_Ok in Hrun as (a & w1 & Ha & Hb).
  destruct (Hm _ _ _ Ha) as (evs & z & srcs & Ht & Hin).
  destruct (Hf a w1) as (evs' & Ht' & _). rewrite Hb in Ht'. simpl in Ht'.
  exists (evs ++ evs'), z, srcs. rewrite Ht', Ht, app_assoc. split; [done|].
  apply elem_of_app. by left.
Qed.

Lemma zips_after {A B} Q (m : M A) (f : A → M B) :
  emits Q m → (∀ a, zips (f a)) → zips (m ≫= f).
Proof.
  intros Hm Hf w b w' Hrun. apply bind_Ok in Hrun as (a & w1 & Ha & Hb).
  destruct (Hf _ _ _ _ Hb) as (evs' & z & srcs & Ht' & Hin).
  destruct (Hm w) as (evs & Ht & _). rewrite Ha in Ht. simpl in Ht.
  exists (evs ++ evs'), z, srcs. rewrite Ht', Ht, app_assoc. split; [done|].
  apply elem_of_app. by right.
Qed.

Lemma app_split_at {A} (xs ys pre post : list A) e :
  xs ++ ys = pre ++ e :: post →
  (∃ mid, xs = pre ++ e :: mid ∧ post = mid ++ ys)
  ∨ (∃ mid, pre = xs ++ mid ∧ ys = mid ++ e :: post).
Proof.
  revert pre. induction xs as [|x xs IH]; intros pre Heq; simpl in *.
  { right. by exists pre. }
  destruct pre as [|p pre]; simpl in *.
  - injection Heq as -> <-. left. by exists xs.
  - injection Heq as -> Heq.
    destruct (IH _ Heq) as [(mid & -> & ->)|(mid & -> & ->)]; [left|right]; by exists mid.
Qed.

Lemma quiet_archive_first evs : Forall (λ e, ¬ mutation e) evs → archive_first evs.
Proof.
  intros Hall pre e post -> Hm. apply Forall_app in Hall as [_ Hall].
  apply Forall_cons in Hall as [Hne _]. done.
Qed.

Lemma archived_quiet {A} (m : M A) : emits (λ e, ¬ mutation e) m → archived_run m.
Proof.
  intros Hm w. destruct (Hm w) as (evs & Ht & Hall). exists evs.
  split; [done|]. by apply quiet_archive_first.
Qed.

(** After a quiet start the rest decides. *)
Lemma archived_bind {A B} (m : M A) (f : A → M B) :
  emits (λ e, ¬ mutation e) m → (∀ a, archived_run (f a)) → archived_run (m ≫= f).
Proof.
  intros Hm Hf w. rewrite bind_unfold. destruct (Hm w) as (evs & Ht & Hall).
  destruct (m w) as [[a|e] w1]; simpl in *.
  2:{ exists evs. split; [done|]. by apply quiet_archive_first. }
  destruct (Hf a w1) as (evs' & Ht' & Hfirst). exists (evs ++ evs').
  rewrite Ht', Ht, app_assoc. split; [done|].
  intros pre e post Hsplit Hmut.
  apply app_split_at in Hsplit as [(mid & -> & ->)|(mid & -> & Hmid)];
    [|].
  - apply Forall_app in Hall as [_ Hall]. apply Forall_cons in Hall as [Hne _]. done.
  - destruct (Hfirst _ _ _ Hmid Hmut) as (z & srcs & Hin). exists z, srcs.
    apply elem_of_app. by right.
Qed.

(** Once an archive is filled anything may follow. *)
Lemma archived_zip {A B} (m : M A) (f : A → M B) :
  emits (λ e, ¬ mutation e) m → zips m → (∀ a, emits (λ _, True) (f a)) →
  archived_run (m ≫= f).
Proof.
  intros Hm Hz Hf w. rewrite bind_unfold. destruct (Hm w) as (evs & Ht & Hall).
  destruct (m w) as [[a|e] w1] eqn:Hrun; simpl in *.
  2:{ exists evs. split; [done|]. by apply quiet_archive_first. }
  destruct (Hz _ _ _ Hrun) as (evs0 & z & srcs & Ht0 & Hin).
  assert (evs0 = evs) as -> by (rewrite Ht in Ht0; by apply app_inv_head in Ht0).
  destruct (Hf a w1) as (evs' & Ht' & _). exists (evs ++ evs').
  rewrite Ht', Ht, app_assoc. split; [done|].
  intros pre e post Hsplit Hmut.
  apply app_split_at in Hsplit as [(mid & -> & ->)|(mid & -> & Hmid)].
  - apply Forall_app in Hall as [_ Hall]. apply Forall_cons in Hall as [Hne _]. done.
  - exists z, srcs. apply elem_of_app. by left.
Qed.

End ArchiveFacts.

Module ArchiveClaims.
Import World Audit AuditFacts Order OkbSpec OkbRun ArchiveFacts.

Section Mains.
Context `{Hashlib} `{Archiver} `{Okb.PyText}.

Lemma quiet_print t s : emits (λ e, ¬ mutation e) (print t s).
Proof. apply emits_of_effects, effects_print. by intros []. Qed.

Lemma quiet_mkdir p : emits (λ e, ¬ mutation e) (mkdir_parents p).
Proof. apply emits_of_effects, effects_mkdir_parents. by intros []. Qed.

Lemma quiet_zip_write z src lister :
  emits (λ e, ¬ mutation e) lister → emits (λ e, ¬ mutation e) (zip_write z src lister).
Proof. intros Hl. apply emits_zip_write; [by intros []| |done]. intros ps. by intros []. Qed.

Lemma quiet_walk src : emits (λ e, ¬ mutation e) (walk_files src).
Proof. by apply emits_silent. Qed.

Lemma bms_main_archived st ts : archived_run (Bms.main st ts).
Proof.
  unfold Bms.main.
  apply archived_bind; [by apply emits_silent|]. intros el.
  destruct (negb el); [apply archived_quiet; by apply emits_silent|].
  apply archived_bind; [by apply emits_silent|]. intros eb.
  apply archived_bind.
  { destruct (negb eb); [apply quiet_print|by apply emits_silent]. }
  intros _. unfold Bms.make_zip_of_bms_config.
  apply archived_zip.
  - apply emits_bind; [apply quiet_mkdir|]. intros _.
    apply emits_bind; [apply quiet_zip_write, quiet_walk|]. intros _.
    apply emits_bind; [apply quiet_print|]. intros _. by apply emits_silent.
  - eapply zips_after; [apply quiet_mkdir|]. intros _.
    eapply zips_then; [eapply zips_zip_write, quiet_walk|]. intros _.
    apply emits_bind; [apply quiet_print|]. intros _. by apply emits_silent.
  - intros _. apply emits_bind; [apply emits_of_effects, any_bms_restore|].
    intros _. by apply emits_silent.
Qed.

Lemma dcs_main_archived st ts : archived_run (Dcs.main st false ts).
Proof.
  unfold Dcs.main. cbn [negb]. unfold Dcs.zip_entire_folder.
  apply archived_zip.
  - apply emits_bind; [apply quiet_mkdir|]. intros _.
    apply emits_bind; [|intros _; by apply emits_silent].
    apply emits_bind; [apply quiet_mkdir|]. intros _.
    apply emits_bind; [apply quiet_zip_write, quiet_walk|]. intros _.
    apply emits_bind; [apply quiet_print|]. intros _. by apply emits_silent.
  - eapply zips_after; [apply quiet_mkdir|]. intros _.
    eapply zips_then; [|intros _; by apply (emits_silent (λ _, True))].
    eapply zips_after; [apply quiet_mkdir|]. intros _.
    eapply zips_then; [eapply zips_zip_write, quiet_walk|]. intros _.
    apply emits_bind; [apply quiet_print|]. intros _. by apply emits_silent.
  - intros _. apply emits_bind; [apply emits_of_effects, any_dcs_restore|].
    intros _. by apply emits_silent.
Qed.

Lemma okb_main_archived okb_root backup_root dry_run dm ts :
  archived_run (Okb.main okb_root backup_root dry_run dm ts).
Proof.
  intros w. rewrite main_unfold.
  destruct (Okb.find_directinput okb_root w) as [[[|j js]|e] w1].
  - apply (archived_quiet (print TagINFO "No DirectInput.json files found.")), quiet_print.
  - destruct (Okb.collect_plans dm (j :: js) [] w) as [[plans|e] w2].
    + revert w. change (archived_run (after_plans okb_root backup_root dry_run ts plans)).
      unfold after_plans. apply archived_bind.
      { apply emits_of_effects, effects_print_planned. intros p n. by intros []. }
      intros _. destruct plans as [|pl plans]; [apply archived_quiet, quiet_print|].
      apply archived_zip.
      * apply quiet_zip_write. by apply emits_silent.
      * eapply zips_zip_write. by apply (emits_silent (λ _, True)).
      * intros _. apply emits_of_effects.
        apply effects_bind; [by apply effects_print|]. intros _.
        destruct dry_run; [by apply effects_print|].
        apply effects_bind; [by apply effects_apply_plans|]. intros _.
        by apply effects_print.
    + exists []. simpl. rewrite app_nil_r. split; [done|]. by apply quiet_archive_first.
  - exists []. simpl. rewrite app_nil_r. split; [done|]. by apply quiet_archive_first.
Qed.

(** X7: the archive comes first.  In a run of the BMS [main], of the DCS
    [main] when it is not a dry run, and of the OpenKneeboard [main], dry
    or not, every step that copies, renames, removes or rewrites a file
    comes after the step that fills an archive, however the run ends: a
    run in which no archive is filled, be it that nothing was to be done
    or that the archive could not be opened, takes no such step. *)
Theorem archive_before_change :
  (∀ st ts, archived_run (Bms.main st ts))
  ∧ (∀ st ts, archived_run (Dcs.main st false ts))
  ∧ (∀ okb_root backup_root dry_run dm ts,
       archived_run (Okb.main okb_root backup_root dry_run dm ts)).
Proof.
  split; [exact bms_main_archived|]. split; [exact dcs_main_archived|].
  exact okb_main_archived.
Qed.

End Mains.
End ArchiveClaims.

(** ** A pass of the DCS restorer *)

Module DcsPass.
Import World Audit AuditFacts PathFacts ReplaceFacts StepFacts PassFacts DryFacts.
Import OrderFacts ListingFacts TmpFacts Order ArchiveFacts.

Lemma within_touches root e p : within root e → touches e p → root `prefix_of` p.
Proof.
  destruct e; simpl; try done.
  - by intros ? ->.
  - intros ? [->| ->]; [done|]. by apply prefix_app_r.
  - by intros [? ?] [->| ->].
  - by intros ? ->.
Qed.

Section Pass.
Context `{Hashlib} `{Archiver}.
Variable st : Dcs.Settings.
Abbreviation root := (Dcs.dcs_input_dir st).

Lemma prefix_root_app (rel : path) : root `prefix_of` root ++ rel.
Proof. by exists rel. Qed.

Lemma within_replace_content dry bf (d : path) x shown extra acc :
  root `prefix_of` d → effects (within root) extra →
  effects (within root) (Dcs.replace_content dry bf (d ++ [x]) shown extra acc).
Proof.
  intros Hd Hx. unfold Dcs.replace_content.
  assert (root `prefix_of` d ++ [x]) as Ht by by apply prefix_app_r.
  assert (root `prefix_of` tmp_of (d ++ [x])) as Htmp.
  { rewrite tmp_of_child. by apply prefix_app_r. }
  eapply (effects_bind_res _ (λ tmp, tmp = tmp_of (d ++ [x]))).
  { intros w a w' E. by apply with_tmp_suffix_inv in E as (_ & -> & _). }
  { apply effects_with_tmp_suffix. }
  intros tmp ->. apply effects_try_finally.
  - apply effects_bind.
    { destruct dry; [by apply effects_print|].
      apply effects_bind; [by apply effects_copyfile|]. intros _.
      apply effects_bind; [by apply effects_replace|]. intros _.
      by apply effects_print. }
    intros _. apply effects_bind; [done|]. intros _. apply effects_ret.
  - by apply effects_cleanup_tmp.
Qed.

Lemma within_restore_file dry acc bf :
  effects (within root) (Dcs.restore_file st dry acc bf).
Proof.
  set (Q := within root).
  assert (∀ t s, Q (EvPrint t s)) as Hprint by done.
  unfold Dcs.restore_file.
  apply effects_bind; [apply effects_is_file|]. intros f.
  destruct (negb f); [apply effects_ret|].
  destruct (String.eqb _ ".zip"); [apply effects_ret|].
  destruct (Dcs.is_diff_lua bf) eqn:Ediff; [|apply effects_ret]. cbn [negb].
  destruct (bool_decide _) eqn:Eguid; [|apply effects_ret]. cbn [negb andb].
  destruct (negb (String.eqb _ "joystick")); [apply effects_ret|].
  destruct (relative_to _ bf) as [rel|]; [|apply effects_raise].
  apply effects_bind; [apply effects_exists_|]. intros e.
  destruct (negb e).
  { destruct (Dcs.copy_if_missing st) eqn:Ec.
    - apply effects_bind; [apply effects_mkdir_parents; done|].
      intros _. apply effects_bind; [apply effects_copy2, prefix_root_app|].
      intros _. apply effects_bind; [by apply effects_print|]. intros _. apply effects_ret.
    - apply effects_bind; [by apply effects_print|]. intros _. apply effects_ret. }
  eapply (effects_bind_res _ (λ ps, ∀ p, p ∈ ps → ∃ x, p = (root ++ parent rel) ++ [x])).
  { intros w ps w'. rewrite iterdir_spec.
    destruct (files w !! (root ++ parent rel)) as [[c m|m]|]; try done.
    intros [= <- <-] p Hp. by apply fs_children_elem in Hp as [_ ?]. }
  { apply effects_iterdir. }
  intros ps Hps.
  eapply (effects_bind_res _ (λ cands, ∀ p, p ∈ cands → p ∈ ps)).
  { intros w cands w' [= <- <-] p Hp. by apply elem_of_List_filter in Hp as [? _]. }
  { apply effects_gets. }
  intros cands Hcands.
  destruct cands as [|c cs].
  { destruct (Dcs.copy_if_missing st) eqn:Ec.
    - apply effects_bind; [apply effects_copy2; simpl; rewrite <-app_assoc;
                           apply prefix_root_app|].
      intros _. apply effects_bind; [by apply effects_print|]. intros _. apply effects_ret.
    - apply effects_bind; [by apply effects_print|]. intros _. apply effects_ret. }
  eapply (effects_bind_res _ (λ target, target ∈ c :: cs)).
  { intros w t w' E. apply choose_target_inv in E as [_ Ht]. by apply Ht. }
  { apply effects_choose_target. }
  intros target Ht. destruct (Hps target (Hcands target Ht)) as [x ->].
  apply effects_bind; [apply effects_sha256_file|]. intros hb.
  apply effects_bind; [apply effects_sha256_file|]. intros ht.
  destruct (String.eqb hb ht).
  + apply effects_bind; [by apply effects_print|]. intros _. apply effects_ret.
  + apply within_replace_content; [apply prefix_root_app|apply effects_ret].
Qed.

Lemma within_restore_dcs dry : effects (within root) (Dcs.restore_dcs st dry).
Proof.
  unfold Dcs.restore_dcs.
  apply effects_bind; [apply effects_exists_|]. intros eb.
  destruct (negb eb); [apply effects_raise|].
  apply effects_bind; [apply effects_exists_|]. intros el.
  destruct (negb el); [apply effects_raise|].
  apply effects_bind; [apply effects_rglob_all|]. intros fs.
  apply effects_bind.
  { apply effects_for_each. intros acc bf _. apply within_restore_file. }
  intros s. apply effects_bind; [by apply effects_emit|]. intros _. apply effects_ret.
Qed.

(** X8: what a pass of the DCS restorer leaves alone.  Dry or not, and
    whether it returns or raises, a pass of [restore_dcs] leaves every file
    and folder that exists outside the DCS input folder as it was; every
    copy, rename and removal of the pass is at or below that folder. *)
Theorem dcs_pass_keeps_outside dry w p n :
  files w !! p = Some n → ¬ root `prefix_of` p →
  files (Dcs.restore_dcs st dry w).2 !! p = Some n ∧
  ∃ evs, trace (Dcs.restore_dcs st dry w).2 = trace w ++ evs ∧
         Forall (within root) evs.
Proof.
  intros Hp Hout. destruct (within_restore_dcs dry w) as (_ & evs & Ht & Hall & Hfr).
  split; [|by eauto]. apply Hfr; [done|]. intros e He Htouch.
  apply Hout. eapply within_touches; [|done].
  by apply (proj1 (Forall_forall _ _) Hall).
Qed.

Lemma bindings_replace_content dry bf target shown extra acc :
  binding_file bf → effects (copies_from binding_file) extra →
  effects (copies_from binding_file)
    (Dcs.replace_content dry bf target shown extra acc).
Proof.
  intros Hbf Hx. unfold Dcs.replace_content.
  apply effects_bind; [apply effects_with_tmp_suffix|]. intros tmp.
  apply effects_try_finally.
  - apply effects_bind.
    { destruct dry; [by apply effects_print|].
      apply effects_bind; [by apply effects_copyfile|]. intros _.
      apply effects_bind; [by apply effects_replace|]. intros _.
      by apply effects_print. }
    intros _. apply effects_bind; [done|]. intros _. apply effects_ret.
  - by apply effects_cleanup_tmp.
Qed.

Lemma bindings_restore_file dry acc bf :
  effects (copies_from binding_file) (Dcs.restore_file st dry acc bf).
Proof.
  set (Q := copies_from binding_file).
  assert (∀ t s, Q (EvPrint t s)) as Hprint by done.
  unfold Dcs.restore_file.
  apply effects_bind; [apply effects_is_file|]. intros f.
  destruct (negb f); [apply effects_ret|].
  destruct (String.eqb _ ".zip"); [apply effects_ret|].
  destruct (Dcs.is_diff_lua bf) eqn:Ediff; [|apply effects_ret]. cbn [negb].
  destruct (bool_decide _) eqn:Eguid; [|apply effects_ret]. cbn [negb andb].
  destruct (String.eqb_spec (PyStr.lower (name (parent bf))) "joystick") as [Ejoy|];
    [|apply effects_ret]. cbn [negb].
  assert (binding_file bf) as Hbf.
  { split; [done|]. split; [by apply bool_decide_eq_true in Eguid|done]. }
  destruct (relative_to _ bf) as [rel|]; [|apply effects_raise].
  apply effects_bind; [apply effects_exists_|]. intros e.
  destruct (negb e).
  { destruct (Dcs.copy_if_missing st) eqn:Ec.
    - apply effects_bind; [apply effects_mkdir_parents; done|].
      intros _. apply effects_bind; [by apply effects_copy2|].
      intros _. apply effects_bind; [by apply effects_print|]. intros _. apply effects_ret.
    - apply effects_bind; [by apply effects_print|]. intros _. apply effects_ret. }
  apply effects_bind; [apply effects_iterdir|]. intros ps.
  apply effects_bind; [apply effects_gets|]. intros cands.
  destruct cands as [|c cs].
  { destruct (Dcs.copy_if_missing st) eqn:Ec.
    - apply effects_bind; [by apply effects_copy2|].
      intros _. apply effects_bind; [by apply effects_print|]. intros _. apply effects_ret.
    - apply effects_bind; [by apply effects_print|]. intros _. apply effects_ret. }
  apply effects_bind; [apply effects_choose_target|]. intros target.
  apply effects_bind; [apply effects_sha256_file|]. intros hb.
  apply effects_bind; [apply effects_sha256_file|]. intros ht.
  destruct (String.eqb hb ht).
  + apply effects_bind; [by apply effects_print|]. intros _. apply effects_ret.
  + apply bindings_replace_content; [done|apply effects_ret].
Qed.

(** X18: what the DCS restorer applies.  Every file that a pass copies
    from, into a temporary sibling or into the live tree, is a device file
    of the backup tree: its name ends in [.diff.lua] and holds a GUID in
    braces, and its folder is named [joystick] in any mix of cases.  Files
    of keyboards and mice, archives and files without a GUID are never
    applied. *)
Theorem dcs_applies_bindings_only dry w :
  ∃ evs, trace (Dcs.restore_dcs st dry w).2 = trace w ++ evs ∧
         ∀ src dst, EvCopyfile src dst ∈ evs ∨ EvCopy2 src dst ∈ evs →
                    binding_file src.
Proof.
  assert (effects (copies_from binding_file) (Dcs.restore_dcs st dry)) as Heff.
  { unfold Dcs.restore_dcs.
    apply effects_bind; [apply effects_exists_|]. intros eb.
    destruct (negb eb); [apply effects_raise|].
    apply effects_bind; [apply effects_exists_|]. intros el.
    destruct (negb el); [apply effects_raise|].
    apply effects_bind; [apply effects_rglob_all|]. intros fs.
    apply effects_bind.
    { apply effects_for_each. intros acc bf _. apply bindings_restore_file. }
    intros s. apply effects_bind; [by apply effects_emit|]. intros _. apply effects_ret. }
  destruct (Heff w) as (_ & evs & Ht & Hall & _). exists evs. split; [done|].
  intros src dst [Hin|Hin];
    by apply (proj1 (Forall_forall _ _) Hall _ Hin).
Qed.

End Pass.
End DcsPass.

Module DcsCounts.
Import World Audit AuditFacts PathFacts ReplaceFacts StepFacts PassFacts DryFacts.
Import OrderFacts ListingFacts Order ArchiveFacts.

Ltac unbind H :=
  repeat (let a := fresh "a" in let w := fresh "w" in
          apply bind_Ok in H as (a & w & _ & H));
  simpl in H.

Section Counts.
Context `{Hashlib} `{Archiver}.
Variable st : Dcs.Settings.

Lemma replace_content_restored dry bf target shown extra acc w s w' :
  Dcs.replace_content dry bf target shown extra acc w = (Ok s, w') →
  s = add_restored acc.
Proof.
  unfold Dcs.replace_content. intros Hrun.
  apply bind_Ok in Hrun as (tmp & w1 & _ & Hrun).
  apply try_finally_Ok in Hrun as [w0 Hrun].
  unbind Hrun. by injection Hrun as <- _.
Qed.

(** What one backup file adds to the counters. *)
Lemma restore_file_counts dry acc bf w s w' :
  Dcs.restore_file st dry acc bf w = (Ok s, w') →
  s = acc
  ∨ (Dcs.copy_if_missing st = false ∧ s = add_missing acc)
  ∨ (Dcs.copy_if_missing st = true ∧ s = add_copied (add_missing acc))
  ∨ s = add_identical acc
  ∨ s = add_restored acc.
Proof.
  unfold Dcs.restore_file. intros Hrun.
  apply bind_Ok in Hrun as (f & w1 & _ & Hrun).
  destruct (negb f); [left; by injection Hrun as <- _|].
  destruct (String.eqb _ ".zip"); [left; by injection Hrun as <- _|].
  destruct (Dcs.is_diff_lua bf) eqn:Ediff; [|left; by injection Hrun as <- _].
  cbn [negb] in Hrun.
  destruct (bool_decide _) eqn:Eguid; [|left; by injection Hrun as <- _].
  cbn [negb andb] in Hrun.
  destruct (negb (String.eqb _ "joystick")); [left; by injection Hrun as <- _|].
  destruct (relative_to _ bf) as [rel|]; [|done].
  apply bind_Ok in Hrun as (e & w2 & _ & Hrun).
  destruct (negb e).
  { destruct (Dcs.copy_if_missing st) eqn:Ec; unbind Hrun; injection Hrun as <- _; auto. }
  apply bind_Ok in Hrun as (ps & w3 & _ & Hrun).
  apply bind_Ok in Hrun as (cands & w4 & _ & Hrun).
  destruct cands as [|c cs].
  { destruct (Dcs.copy_if_missing st) eqn:Ec; unbind Hrun; injection Hrun as <- _; auto. }
  apply bind_Ok in Hrun as (target & w5 & _ & Hrun).
  apply bind_Ok in Hrun as (hb & w6 & _ & Hrun).
  apply bind_Ok in Hrun as (ht & w7 & _ & Hrun).
  destruct (String.eqb hb ht).
  - unbind Hrun. injection Hrun as <- _. auto.
  - apply replace_content_restored in Hrun as ->. auto 6.
Qed.

Lemma dcs_for_each_counts dry items : ∀ acc w acc' w',
  for_each (Dcs.restore_file st dry) acc items w = (Ok acc', w') →
  restored acc ≤ restored acc' ∧ identical acc ≤ identical acc' ∧
  missing acc ≤ missing acc' ∧
  restored acc' + identical acc' + missing acc'
    ≤ restored acc + identical acc + missing acc + Z.of_nat (length items) ∧
  copied_missing acc' - copied_missing acc
    = if Dcs.copy_if_missing st then missing acc' - missing acc else 0.
Proof.
  induction items as [|bf items IH]; intros acc w acc' w'.
  { simpl. intros [= <- <-]. destruct (Dcs.copy_if_missing st); lia. }
  cbn [for_each]. intros Hrun. apply bind_Ok in Hrun as (acc1 & w1 & Hstep & Hrest).
  apply IH in Hrest. cbn [length]. rewrite Nat2Z.inj_succ.
  apply restore_file_counts in Hstep
    as [->|[[Ec ->]|[[Ec ->]|[->| ->]]]]; simpl in *;
    try rewrite Ec in *; destruct (Dcs.copy_if_missing st); try done; lia.
Qed.

(** X9: the counters of a pass of the DCS restorer.  When a pass returns,
    dry or not, no counter is negative; the backup files that were counted
    as restored, identical or missing are no more than the entries that
    [rglob] found below the backup folder; and the count of copies is the
    count of the missing when [copy_if_missing] is set, and 0 when it is
    not. *)
Theorem dcs_pass_counts dry w s w' :
  Dcs.restore_dcs st dry w = (Ok s, w') →
  0 ≤ restored s ∧ 0 ≤ identical s ∧ 0 ≤ missing s ∧
  restored s + identical s + missing s
    ≤ Z.of_nat (length (fs_descendants (files w) (Dcs.backup_dir st))) ∧
  copied_missing s = if Dcs.copy_if_missing st then missing s else 0.
Proof.
  unfold Dcs.restore_dcs. intros Hrun.
  apply bind_Ok in Hrun as (eb & w1 & Heb & Hrun). injection Heb as <- <-.
  destruct (negb _); [done|].
  apply bind_Ok in Hrun as (el & w1 & Hel & Hrun). injection Hel as <- <-.
  destruct (negb _); [done|].
  apply bind_Ok in Hrun as (fs & w1 & Hfs & Hrun).
  assert (w1 = w ∧ (length fs
            ≤ length (fs_descendants (files w) (Dcs.backup_dir st)))%nat) as [-> Hlen].
  { revert Hfs. unfold rglob_all.
    destruct (files w !! Dcs.backup_dir st) as [[c m|m]|]; intros [= <- <-];
      (split; [done|]); simpl; lia. }
  apply bind_Ok in Hrun as (s0 & w2 & Hloop & Hrun).
  unbind Hrun. injection Hrun as <- _.
  apply dcs_for_each_counts in Hloop. simpl in Hloop.
  rewrite (Permutation_length (sorted_Permutation _)) in Hloop.
  destruct (Dcs.copy_if_missing st); lia.
Qed.

End Counts.
End DcsCounts.

(** ** The document remapper *)

Module OkbPlan.
Import World Okb OkbSpec OkbFacts OkbRun AuditFacts ArchiveFacts.

Section Plan.
Context `{PyText} `{Archiver}.

Lemma dict_set_elem {A} (d : list (string * A)) k v x :
  x ∈ dict_set d k v → x = (k, v) ∨ x ∈ d.
Proof.
  induction d as [|[k' v'] d IH]; simpl.
  - intros ->%list_elem_of_singleton. by left.
  - destruct (String.eqb_spec k' k) as [->|Hne].
    + intros [->|Hx]%elem_of_cons; [by left|]. right. by right.
    + intros [->|Hx]%elem_of_cons; [right; by left|].
      destruct (IH Hx) as [->|?]; [by left|]. right. by right.
Qed.

Lemma dict_set_set {A} (d : list (string * A)) k v v' :
  dict_set (dict_set d k v) k v' = dict_set d k v'.
Proof.
  induction d as [|[k0 v0] d IH]; simpl.
  - by rewrite String.eqb_refl.
  - destruct (String.eqb_spec k0 k) as [->|Hne]; simpl.
    + by rewrite String.eqb_refl.
    + rewrite (proj2 (String.eqb_neq _ _)) by done. by rewrite IH.
Qed.

Lemma rekey_elem dm items : ∀ nd x,
  x ∈ rekey dm items nd →
  x ∈ nd ∨ ∃ it, it ∈ items ∧ x = (out_key dm it, out_val dm it).
Proof.
  induction items as [|it items IH]; intros nd x; [by left|].
  rewrite rekey_cons. intros [Hx|(it' & Hit & ->)]%IH.
  - apply dict_set_elem in Hx as [->|Hx]; [|by left]. right. exists it. split; [left|done].
  - right. exists it'. split; [by right|done].
Qed.

(** The two ways in which a record is handled when the step returns. *)
Lemma remap_entry_cases dm nd ch k e nd' ch' :
  remap_entry dm (nd, ch) (k, e) = Ok (nd', ch') →
  (live_guid dm e = None ∧ nd' = dict_set nd k e ∧ ch' = ch ∧
   ∀ nd0 ch0, remap_entry dm (nd0, ch0) (k, e) = Ok (dict_set nd0 k e, ch0))
  ∨ ∃ fields g,
      e = JObj fields ∧ live_guid dm e = Some g ∧
      truthy (dict_get fields "Kind") = true ∧ truthy (dict_get fields "Name") = true ∧
      (∃ gs, lookup_device dm (dict_get fields "Kind") (dict_get fields "Name")
             = Ok (Some (g :: gs))) ∧
      nd' = dict_set nd g (JObj (dict_set fields "ID" (JStr g))).
Proof.
  unfold remap_entry, live_guid.
  destruct e as [| | | | |fields]; try (intros [= <- <-]; by left).
  destruct (truthy (dict_get fields "Kind")) eqn:Ek; cbn [negb orb andb];
    [|intros [= <- <-]; by left].
  destruct (truthy (dict_get fields "Name")) eqn:En; cbn [negb orb andb];
    [|intros [= <- <-]; by left].
  destruct (lookup_device dm _ _) as [[[|g gs]|]|err] eqn:El; try done;
    try (intros [= <- <-]; by left).
  intros [= <- _]. right. exists fields, g. eauto 10.
Qed.

Lemma remap_devices_items dm items : ∀ nd ch nd' ch',
  remap_devices dm (nd, ch) items = Ok (nd', ch') →
  ∀ it, it ∈ items → ∃ nd1 ch1 nd2 ch2, remap_entry dm (nd1, ch1) it = Ok (nd2, ch2).
Proof.
  induction items as [|it items IH]; intros nd ch nd' ch' Hrun it' Hin.
  { by apply elem_of_nil in Hin. }
  cbn [remap_devices] in Hrun.
  destruct (remap_entry dm (nd, ch) it) as [[nd1 ch1]|e] eqn:Hstep; [|done].
  apply elem_of_cons in Hin as [->|Hin]; [by eauto|]. by eapply IH.
Qed.

Lemma dict_get_ID_other fields (v : json) f :
  f ≠ "ID" → dict_get (dict_set fields "ID" v) f = dict_get fields f.
Proof. intros Hf. apply dict_get_set_ne. congruence. Qed.

(** A record that the remapper has written is left as it is by the
    remapper, when the identifiers of the registry are in upper case. *)
Lemma remap_entry_again dm it nd1 ch1 nd2 ch2 :
  (∀ kind n g gs, registry_get dm kind n = Some (g :: gs) → upper g = g) →
  remap_entry dm (nd1, ch1) it = Ok (nd2, ch2) →
  ∀ nd ch, remap_entry dm (nd, ch) (out_key dm it, out_val dm it)
           = Ok (dict_set nd (out_key dm it) (out_val dm it), ch).
Proof.
  intros Hup Hrun nd ch. destruct it as [k e].
  apply remap_entry_cases in Hrun
    as [(Hlive & _ & _ & Hsame)|(fields & g & -> & Hlive & Hk & Hn & [gs Hl] & _)].
  - unfold out_key, out_val. cbn [fst snd]. rewrite Hlive. cbn [default].
    rewrite Hsame. by destruct e.
  - unfold out_key, out_val. cbn [fst snd]. rewrite Hlive. cbn [default].
    unfold remap_entry.
    rewrite !dict_get_ID_other by done. rewrite Hk, Hn. cbn [negb orb].
    rewrite Hl, dict_get_set_eq. cbn [default py_str].
    assert (upper g = g) as Hg.
    { revert Hl. unfold lookup_device.
      destruct (dict_get fields "Name") as [[| | |n| |]|]; try done.
      destruct (dict_get fields "Kind") as [[| | |kd| |]|]; try done.
      intros [= Hr]. by eapply Hup. }
    unfold id. cbn [py_str]. rewrite Hg, String.eqb_refl. cbn [negb orb].
    by rewrite dict_set_set.
Qed.

Lemma remap_devices_again dm items : ∀ nd ch,
  (∀ it, it ∈ items →
     ∀ nd ch, remap_entry dm (nd, ch) it = Ok (dict_set nd it.1 it.2, ch)) →
  ∃ nd', remap_devices dm (nd, ch) items = Ok (nd', ch).
Proof.
  induction items as [|it items IH]; intros nd ch Hall; [by eexists|].
  cbn [remap_devices]. rewrite Hall by left. apply IH. intros it' Hin. apply Hall. by right.
Qed.

(** X10: a second plan is empty.  When the identifiers that the registry
    lists are in upper case, as [guid_to_string] writes them, the document
    that a plan holds needs no further change: the remapping of
    [build_plan_for_file], applied to that document with the same
    registry, records no change and gives no plan. *)
Theorem second_plan_is_empty (p p' : path) dm data pl :
  (∀ kind n g gs, registry_get dm kind n = Some (g :: gs) → upper g = g) →
  plan_of_data p dm data = Ok (Some pl) →
  plan_of_data p' dm (new_data pl) = Ok None.
Proof.
  intros Hup. unfold plan_of_data at 1.
  destruct data as [| | | | |top]; try done.
  destruct (default (JObj []) (dict_get top "Devices")) as [| | | | |devices]; try done.
  destruct (remap_devices dm ([], []) devices) as [[nd chs]|e] eqn:Hrun; [|done].
  destruct chs as [|c chs]; [done|]. intros [= <-]. cbn [new_data].
  unfold plan_of_data. rewrite dict_get_set_eq. cbn [default].
  pose proof (remap_devices_Ok _ _ _ _ _ _ Hrun) as ->. unfold id.
  destruct (remap_devices_again dm (rekey dm devices []) [] []) as [nd' ->]; [|done].
  intros it [Hin|(it0 & Hin & ->)]%rekey_elem; [by apply elem_of_nil in Hin|].
  destruct (remap_devices_items _ _ _ _ _ _ Hrun it0 Hin) as (nd1 & ch1 & nd2 & ch2 & Hstep).
  by eapply remap_entry_again.
Qed.

(** X11: what a plan keeps.  The document of a plan differs from the
    document read in its ["Devices"] member only, and every record of the
    new ["Devices"] is a record of the old one, either as it was and under
    its old key, or under the live identifier with its ["ID"] set to that
    identifier and every other field as it was. *)
Theorem plan_keeps_payload (p : path) dm top pl :
  plan_of_data p dm (JObj top) = Ok (Some pl) →
  ∃ devices new_devices,
    default (JObj []) (dict_get top "Devices") = JObj devices ∧
    new_data pl = JObj (dict_set top "Devices" (JObj new_devices)) ∧
    (∀ k, k ≠ "Devices" →
       dict_get (dict_set top "Devices" (JObj new_devices)) k = dict_get top k) ∧
    ∀ k e, (k, e) ∈ new_devices →
      ∃ k0 e0, (k0, e0) ∈ devices ∧
        ((k = k0 ∧ e = e0)
         ∨ ∃ fields fields',
             e0 = JObj fields ∧ e = JObj fields' ∧
             dict_get fields' "ID" = Some (JStr k) ∧
             ∀ f, f ≠ "ID" → dict_get fields' f = dict_get fields f).
Proof.
  unfold plan_of_data.
  destruct (default (JObj []) (dict_get top "Devices")) as [| | | | |devices]; try done.
  destruct (remap_devices dm ([], []) devices) as [[nd chs]|e] eqn:Hrun; [|done].
  destruct chs as [|c chs]; [done|]. intros [= <-]. cbn [new_data].
  exists devices, nd. split; [done|]. split; [done|]. split.
  { intros k Hk. by apply dict_get_set_ne. }
  pose proof (remap_devices_Ok _ _ _ _ _ _ Hrun) as ->.
  intros k e [Hin|([k0 e0] & Hin & Heq)]%rekey_elem; [by apply elem_of_nil in Hin|].
  exists k0, e0. split; [done|].
  destruct (remap_devices_items _ _ _ _ _ _ Hrun _ Hin) as (nd1 & ch1 & nd2 & ch2 & Hstep).
  injection Heq as -> ->. unfold out_key, out_val. cbn [fst snd].
  apply remap_entry_cases in Hstep
    as [(Hlive & _ & _ & _)|(fields & g & -> & Hlive & _ & _ & _ & _)]; rewrite Hlive.
  - left. split; [done|]. by destruct e0.
  - right. exists fields, (dict_set fields "ID" (JStr g)). cbn [default].
    split; [done|]. split; [done|]. split; [apply dict_get_set_eq|].
    intros f Hf. by apply dict_get_ID_other.
Qed.

(** X12: nothing to do.  When no [DirectInput.json] file is found, or none
    of those found has a plan, a run of [main], dry or not, returns and
    leaves a world that differs from the one it found in what was printed
    only: no archive is written and no file is changed. *)
Theorem nothing_to_do okb_root backup_root dry_run dm ts w json_files :
  (find_directinput okb_root w).1 = Ok json_files →
  (∀ f, f ∈ json_files → build_plan_for_file f dm w = (Ok None, w)) →
  ∃ line, main okb_root backup_root dry_run dm ts w
          = (Ok (), log (EvPrint TagINFO line) w).
Proof.
  intros Hfind Hnone. rewrite main_unfold.
  destruct (find_directinput okb_root w) as [[js|e] w1]; simpl in Hfind; [|done].
  injection Hfind as ->.
  destruct json_files as [|j js]; [by eexists|].
  assert (∀ fs plans, (∀ f, f ∈ fs → build_plan_for_file f dm w = (Ok None, w)) →
            collect_plans dm fs plans w = (Ok plans, w)) as Hcollect.
  { induction fs as [|f fs IH]; intros plans Hfs; [done|].
    cbn [collect_plans]. rewrite bind_unfold, Hfs by left.
    apply IH. intros f' Hf'. apply Hfs. by right. }
  rewrite Hcollect by done. by eexists.
Qed.

End Plan.
End OkbPlan.

(** ** The prompts and the device kinds *)

Module PromptClaims.
Import PyStr Prompt.

(** X13: [ask_run_mode].  The choice is that of the first answer which,
    stripped and in lower case, is empty, [d] or [r]; the answers before it
    are asked again.  So the replace mode is chosen exactly when that
    answer is [r], an empty answer chooses the dry run, and when no answer
    is valid the prompt goes on until the input ends. *)
Theorem ask_run_mode_choice answers :
  ((ask_run_mode answers).1 = Some false ↔
   ∃ pre a post, answers = pre ++ a :: post ∧ lower (strip a) = "r" ∧
     Forall (λ b, lower (strip b) ≠ "" ∧ lower (strip b) ≠ "d" ∧
                  lower (strip b) ≠ "r") pre)
  ∧ ((ask_run_mode answers).1 = Some true ↔
     ∃ pre a post, answers = pre ++ a :: post ∧
       (lower (strip a) = "" ∨ lower (strip a) = "d") ∧
       Forall (λ b, lower (strip b) ≠ "" ∧ lower (strip b) ≠ "d" ∧
                    lower (strip b) ≠ "r") pre)
  ∧ ((ask_run_mode answers).1 = None ↔
     Forall (λ b, lower (strip b) ≠ "" ∧ lower (strip b) ≠ "d" ∧
                  lower (strip b) ≠ "r") answers).
Proof.
  induction answers as [|a rest (IH1 & IH2 & IH3)].
  { simpl. split; [|split].
    - split; [done|]. intros (pre & a & post & E & _). by destruct pre.
    - split; [done|]. intros (pre & a & post & E & _). by destruct pre.
    - split; [by constructor|done]. }
  cbn [ask_run_mode].
  destruct (String.eqb_spec (lower (strip a)) "") as [E1|N1]; cbn [orb].
  { split; [|split]; cbn [fst].
    - split; [done|]. intros (pre & a' & post & E & Hr & Hpre).
      destruct pre as [|b pre]; simplify_eq/=; [congruence|].
      apply Forall_cons in Hpre as [(? & _) _]. done.
    - split; [|done]. intros _. exists [], a, rest. auto.
    - split; [done|]. intros [(? & _) _]%Forall_cons. done. }
  destruct (String.eqb_spec (lower (strip a)) "d") as [E2|N2].
  { split; [|split]; cbn [fst].
    - split; [done|]. intros (pre & a' & post & E & Hr & Hpre).
      destruct pre as [|b pre]; simplify_eq/=; [congruence|].
      apply Forall_cons in Hpre as [(_ & ? & _) _]. done.
    - split; [|done]. intros _. exists [], a, rest. auto.
    - split; [done|]. intros [(_ & ? & _) _]%Forall_cons. done. }
  destruct (String.eqb_spec (lower (strip a)) "r") as [E3|N3].
  { split; [|split]; cbn [fst].
    - split; [|done]. intros _. exists [], a, rest. auto.
    - split; [done|]. intros (pre & a' & post & E & Hr & Hpre).
      destruct pre as [|b pre]; simplify_eq/=; [destruct Hr; congruence|].
      apply Forall_cons in Hpre as [(_ & _ & ?) _]. done.
    - split; [done|]. intros [(_ & _ & ?) _]%Forall_cons. done. }
  destruct (ask_run_mode rest) as [r out]. cbn [fst] in *.
  split; [|split].
  - rewrite IH1. split.
    + intros (pre & a' & post & -> & Hr & Hpre). exists (a :: pre), a', post.
      split; [done|]. split; [done|]. by constructor.
    + intros (pre & a' & post & E & Hr & Hpre).
      destruct pre as [|b pre]; simplify_eq/=.
      apply Forall_cons in Hpre as [_ Hpre]. eauto 6.
  - rewrite IH2. split.
    + intros (pre & a' & post & -> & Hr & Hpre). exists (a :: pre), a', post.
      split; [done|]. split; [done|]. by constructor.
    + intros (pre & a' & post & E & Hr & Hpre).
      destruct pre as [|b pre]; simplify_eq/=; [by destruct Hr|].
      apply Forall_cons in Hpre as [_ Hpre]. eauto 6.
  - rewrite IH3. split.
    + intros Hall. by constructor.
    + by intros [_ ?]%Forall_cons.
Qed.

Lemma ask_mode_step dd a rest :
  let ans := lower (strip a) in
  (ans = "" → (ask_mode dd (a :: rest)).1 = Some dd)
  ∧ (startswith ans "d" = true → (ask_mode dd (a :: rest)).1 = Some true)
  ∧ (startswith ans "r" = true → (ask_mode dd (a :: rest)).1 = Some false)
  ∧ (ans ≠ "" → startswith ans "d" = false → startswith ans "r" = false →
     (ask_mode dd (a :: rest)).1 = (ask_mode dd rest).1).
Proof.
  intros ans. cbn [ask_mode]. fold ans.
  destruct (String.eqb_spec ans "") as [E|N].
  { split; [done|]. rewrite E. split; [done|]. split; [done|]. done. }
  split; [done|].
  destruct (startswith ans "d") eqn:Ed.
  { split; [done|]. split; [|done]. intros Hr.
    destruct ans as [|c ans']; [done|]. cbn [startswith] in Ed, Hr.
    apply andb_true_iff in Ed as [Ed _]. apply andb_true_iff in Hr as [Hr _].
    apply Ascii.eqb_eq in Ed. apply Ascii.eqb_eq in Hr. congruence. }
  split; [done|].
  destruct (startswith ans "r") eqn:Er.
  { split; [done|]. done. }
  split; [done|]. intros _ _ _. by destruct (ask_mode dd rest).
Qed.

(** X14: [ask_mode].  The replace mode is chosen exactly when the first
    answer which, stripped and in lower case, is empty or begins with [d]
    or [r], begins with [r], whatever follows that letter, or is empty
    while the default is the replace mode; the answers before it are asked
    again.  With the default of the program, the dry run, nothing but an
    answer that begins with [r] or [R] chooses the replace mode. *)
Theorem ask_mode_replace dd answers :
  (ask_mode dd answers).1 = Some false ↔
  ∃ pre a post,
    answers = pre ++ a :: post ∧
    Forall (λ b, lower (strip b) ≠ "" ∧ startswith (lower (strip b)) "d" = false ∧
                 startswith (lower (strip b)) "r" = false) pre ∧
    (lower (strip a) = "" ∧ dd = false ∨ startswith (lower (strip a)) "r" = true).
Proof.
  induction answers as [|a rest IH].
  { simpl. split; [done|]. intros (pre & a & post & E & _). by destruct pre. }
  destruct (ask_mode_step dd a rest) as (S1 & S2 & S3 & S4).
  destruct (String.eqb_spec (lower (strip a)) "") as [E|N].
  { rewrite (S1 E). split.
    - intros [= ->]. exists [], a, rest. auto.
    - intros (pre & a' & post & Heq & Hpre & Hc).
      destruct pre as [|b pre]; simplify_eq/=.
      + destruct Hc as [[_ ->]|Hc]; [done|]. rewrite E in Hc. done.
      + apply Forall_cons in Hpre as [(? & _) _]. done. }
  destruct (startswith (lower (strip a)) "d") eqn:Ed.
  { rewrite (S2 eq_refl). split; [done|].
    intros (pre & a' & post & Heq & Hpre & Hc).
    destruct pre as [|b pre]; simplify_eq/=.
    + destruct Hc as [[? _]|Hc]; [done|]. rewrite (S3 Hc) in S2.
      by specialize (S2 eq_refl).
    + apply Forall_cons in Hpre as [(_ & ? & _) _]. congruence. }
  destruct (startswith (lower (strip a)) "r") eqn:Er.
  { rewrite (S3 eq_refl). split; [|done]. intros _. exists [], a, rest. auto. }
  rewrite (S4 N eq_refl eq_refl), IH. split.
  - intros (pre & a' & post & -> & Hpre & Hc). exists (a :: pre), a', post.
    split; [done|]. split; [by constructor|done].
  - intros (pre & a' & post & Heq & Hpre & Hc).
    destruct pre as [|b pre]; simplify_eq/=.
    + destruct Hc as [[? _]|Hc]; [done|congruence].
    + apply Forall_cons in Hpre as [_ Hpre]. eauto 6.
Qed.

End PromptClaims.

Module KindClaims.
Import DeviceKind.

Lemma low_byte d : Z.land d 255 = d mod 256.
Proof. change 255 with (Z.ones 8). rewrite Z.land_ones by lia. done. Qed.

(** X15: [kind_from_dwDevType].  The kind depends on the low byte of the
    device type alone, whatever the subtype and the flags above it: it is
    [Keyboard] for 0x12, [Mouse] for 0x13, [GameController] for 0x14 to
    0x18, and [Other] for every other low byte. *)
Theorem kind_by_low_byte d :
  kind_from_dwDevType d = kind_from_dwDevType (d mod 256)
  ∧ (kind_from_dwDevType d = "Keyboard" ↔ d mod 256 = 18)
  ∧ (kind_from_dwDevType d = "Mouse" ↔ d mod 256 = 19)
  ∧ (kind_from_dwDevType d = "GameController" ↔ 20 ≤ d mod 256 ≤ 24)
  ∧ (kind_from_dwDevType d = "Other" ↔
     d mod 256 < 18 ∨ 24 < d mod 256).
Proof.
  unfold kind_from_dwDevType. rewrite !low_byte, Z.mod_mod by lia.
  split; [done|].
  unfold DIDEVTYPE_KEYBOARD, DIDEVTYPE_MOUSE, DIDEVTYPE_JOYSTICK, DIDEVTYPE_GAMEPAD,
    DIDEVTYPE_DRIVING, DIDEVTYPE_FLIGHT, DIDEVTYPE_1STPERSON.
  set (t := d mod 256).
  destruct (Z.eqb_spec t 18); [repeat split; intros; (done || lia)|].
  destruct (Z.eqb_spec t 19); [repeat split; intros; (done || lia)|].
  destruct (Z.eqb_spec t 20); [repeat split; intros; (done || lia)|].
  destruct (Z.eqb_spec t 21); [repeat split; intros; (done || lia)|].
  destruct (Z.eqb_spec t 22); [repeat split; intros; (done || lia)|].
  destruct (Z.eqb_spec t 23); [repeat split; intros; (done || lia)|].
  destruct (Z.eqb_spec t 24); [repeat split; intros; (done || lia)|].
  cbn [orb]. repeat split; intros; (done || lia).
Qed.

End KindClaims.

(** ** The temporary sibling *)

Module TempClaims.
Import World PyStr PyPath StrFacts PathFacts Audit ReplaceFacts TmpFacts.

Lemma split_on_cons sep s : ∃ w ws, split_on sep s = w :: ws.
Proof.
  induction s as [|c s (w & ws & IH)]; simpl; [by eauto|].
  destruct (Ascii.eqb c sep); [by eauto|]. rewrite IH. eauto.
Qed.

Lemma split_on_app_sep sep a b :
  split_on sep (a +:+ String sep b) = split_on sep a ++ split_on sep b.
Proof.
  induction a as [|c a IH]; sapp.
  - simpl. by rewrite Ascii.eqb_refl.
  - simpl. destruct (Ascii.eqb c sep); [by rewrite IH|].
    rewrite IH. by destruct (split_on_cons sep a) as (w & ws & ->).
Qed.

Lemma lstrip_dots_tmp n :
  lstrip_dots (n +:+ ".tmp") = "tmp"
  ∨ ∃ m, m ≠ "" ∧ lstrip_dots (n +:+ ".tmp") = m +:+ ".tmp".
Proof.
  induction n as [|c n IH]; sapp; [by left|].
  cbn [lstrip_dots]. destruct (Ascii.eqb c dot); [done|].
  right. by exists (String c n).
Qed.

Lemma suffixes_tmp n :
  suffixes (n +:+ ".tmp") = [] ∨ ∃ l, suffixes (n +:+ ".tmp") = l ++ [".tmp"].
Proof.
  unfold suffixes. destruct (endswith _ "."); [by left|].
  destruct (lstrip_dots_tmp n) as [-> |(m & Hm & ->)]; [by left|].
  right. change (m +:+ ".tmp") with (m +:+ String dot "tmp").
  rewrite split_on_app_sep.
  destruct (split_on_cons dot m) as (w & ws & ->).
  exists (map (String dot) ws). simpl. by rewrite map_app.
Qed.

Lemma last_two_snoc {A} (l : list A) x a b : last_two (l ++ [x]) = [a; b] → b = x.
Proof.
  unfold last_two. intros E.
  assert (last (l ++ [x]) = Some b) as Hl.
  { rewrite <-(take_drop (length (l ++ [x]) - 2) (l ++ [x])), E.
    rewrite last_app. done. }
  rewrite last_snoc in Hl. congruence.
Qed.

Lemma is_diff_lua_tmp t : Dcs.is_diff_lua (tmp_of t) = false.
Proof.
  unfold Dcs.is_diff_lua, tmp_of. rewrite name_snoc.
  apply bool_decide_eq_false. intros E.
  destruct (suffixes_tmp (name t)) as [E'|[l E']]; rewrite E' in E; [done|].
  by apply last_two_snoc in E.
Qed.

(** X16: the temporary sibling.  For a target with a name, the temporary
    path of both restorers is the target's name followed by [.tmp], in the
    target's folder: the extension is added to the name, none is replaced.
    It is never the target itself, and no listing takes it for a device
    file, neither as [.xml] nor as [.diff.lua], so that one left behind is
    not restored into.  A target without a name raises [ValueError]. *)
Theorem temporary_sibling (t : path) (w : world) :
  (name t ≠ "" →
     with_tmp_suffix t w = (Ok (parent t ++ [name t +:+ ".tmp"]), w) ∧
     parent t ++ [name t +:+ ".tmp"] ≠ t ∧
     Bms.is_xml (parent t ++ [name t +:+ ".tmp"]) = false ∧
     Dcs.is_diff_lua (parent t ++ [name t +:+ ".tmp"]) = false)
  ∧ (name t = "" → with_tmp_suffix t w = (Raise ValueError, w)).
Proof.
  split.
  - intros Hn. split; [by apply with_tmp_suffix_eq|]. split; [apply tmp_ne|].
    split; [apply is_xml_tmp|apply is_diff_lua_tmp].
  - intros E. unfold with_tmp_suffix, with_suffix. rewrite E. done.
Qed.

End TempClaims.

(** ** The names of devices *)

Module NameClaims.
Import PyStr StrFacts Okb.

Lemma rev_app_spec s : ∀ t, String.rev_app s t = String.rev_app s "" +:+ t.
Proof.
  induction s as [|a s IH]; intros t; simpl; [done|].
  rewrite (IH (String a t)), (IH (String a "")), app_assoc. by sapp.
Qed.

Lemma rev_cons c s : String.rev (String c s) = String.rev s +:+ String c "".
Proof. unfold String.rev. simpl. apply rev_app_spec. Qed.

Lemma rev_empty s : String.rev s = "" → s = "".
Proof.
  destruct s as [|c s]; [done|]. rewrite rev_cons. intros E.
  apply (f_equal String.length) in E. rewrite length_app in E. simpl in E. lia.
Qed.

Lemma forallb_rev p s : forallb_str p (String.rev s) = forallb_str p s.
Proof.
  induction s as [|c s IH]; [done|]. rewrite rev_cons, forallb_app, IH. simpl.
  rewrite andb_true_r. apply andb_comm.
Qed.

(** A run of characters that are no white space goes into the word that
    is being read. *)
Lemma go_word w : ∀ cur rest,
  forallb_str (λ c, negb (is_space c)) w = true →
  ∃ cur', split_ws_go cur (w +:+ rest) = split_ws_go cur' rest ∧
          String.rev cur' = String.rev cur +:+ w ∧
          (w ≠ "" → cur' ≠ "").
Proof.
  induction w as [|c w IH]; intros cur rest Hw; sapp.
  { exists cur. by rewrite app_nil_r. }
  simpl in Hw. apply andb_true_iff in Hw as [Hc Hw].
  cbn [split_ws_go]. rewrite (negb_true_iff _) in Hc. rewrite Hc.
  destruct (IH (String c cur) rest Hw) as (cur' & Hgo & Hrev & _).
  exists cur'. split; [done|]. split.
  - rewrite Hrev, rev_cons, app_assoc. by sapp.
  - intros _ ->. rewrite rev_cons in Hrev. simpl in Hrev.
    symmetry in Hrev. apply (f_equal String.length) in Hrev.
    rewrite !length_app in Hrev. simpl in Hrev. lia.
Qed.

(** The words of [split] hold no white space and are not empty. *)
Lemma go_words s : ∀ cur,
  forallb_str (λ c, negb (is_space c)) cur = true →
  Forall (λ w, w ≠ "" ∧ forallb_str (λ c, negb (is_space c)) w = true)
    (split_ws_go cur s).
Proof.
  induction s as [|c s IH]; intros cur Hcur; cbn [split_ws_go].
  - destruct cur as [|d cur]; [by constructor|]. constructor; [|by constructor].
    split; [intros E%rev_empty; done|]. by rewrite forallb_rev.
  - destruct (is_space c) eqn:Hc.
    + destruct cur as [|d cur]; [by apply IH|]. constructor; [|by apply IH].
      split; [intros E%rev_empty; done|]. by rewrite forallb_rev.
    + apply IH. simpl. by rewrite Hc.
Qed.

Lemma split_join ws :
  Forall (λ w, w ≠ "" ∧ forallb_str (λ c, negb (is_space c)) w = true) ws →
  split_ws (join " " ws) = ws.
Proof.
  induction ws as [|w ws IH]; [done|]. intros [[Hne Hw] Hws]%Forall_cons.
  unfold split_ws in *. destruct ws as [|w2 ws].
  - cbn [join]. destruct (go_word w "" "" Hw) as (cur' & Hgo & Hrev & Hcur).
    rewrite app_nil_r in Hgo. rewrite Hgo.
    cbn [split_ws_go]. destruct cur' as [|d cur']; [by destruct Hcur|].
    rewrite Hrev. by sapp.
  - change (join " " (w :: w2 :: ws)) with (w +:+ " " +:+ join " " (w2 :: ws)).
    destruct (go_word w "" (" " +:+ join " " (w2 :: ws)) Hw)
      as (cur' & -> & Hrev & Hcur).
    sapp. cbn [split_ws_go]. change (is_space " ") with true. cbn iota.
    destruct cur' as [|d cur']; [by destruct Hcur|].
    rewrite Hrev, IH by done. by sapp.
Qed.

Lemma go_leading ws s :
  forallb_str is_space ws = true → split_ws_go "" (ws +:+ s) = split_ws_go "" s.
Proof.
  induction ws as [|c ws IH]; sapp; [done|]. simpl.
  intros [Hc Hws]%andb_true_iff. rewrite Hc. by apply IH.
Qed.

Lemma go_trailing_end ws : ∀ cur,
  forallb_str is_space ws = true → split_ws_go cur ws = split_ws_go cur "".
Proof.
  induction ws as [|c ws IH]; intros cur; [done|]. simpl.
  intros [Hc Hws]%andb_true_iff. rewrite Hc.
  destruct cur; rewrite (IH "" Hws); done.
Qed.

Lemma go_trailing s ws : ∀ cur,
  forallb_str is_space ws = true → split_ws_go cur (s +:+ ws) = split_ws_go cur s.
Proof.
  induction s as [|c s IH]; intros cur Hws; sapp.
  - by apply go_trailing_end.
  - cbn [split_ws_go]. destruct (is_space c); [|by apply IH].
    destruct cur; by rewrite IH.
Qed.

Section Names.
Context `{PyText}.

(** X17: [normalize_name] and white space.  White space before and after
    a name does not count, and it makes no difference whether the words of
    a name are set apart by one space or by any run of white space: a name
    and the name made of its words with one space between them have the
    same normal form. *)
Theorem normalize_name_spacing :
  (∀ ws1 s ws2, forallb_str is_space ws1 = true → forallb_str is_space ws2 = true →
     normalize_name (ws1 +:+ s +:+ ws2) = normalize_name s)
  ∧ (∀ s, normalize_name (join " " (split_ws s)) = normalize_name s)
  ∧ (∀ s, Forall (λ w, w ≠ "" ∧ forallb_str (λ c, negb (is_space c)) w = true)
            (split_ws s)).
Proof.
  split; [|split].
  - intros ws1 s ws2 H1 H2. unfold normalize_name, NORMALIZE_WHITESPACE, split_ws.
    by rewrite go_leading, go_trailing.
  - intros s. unfold normalize_name, NORMALIZE_WHITESPACE.
    rewrite split_join; [done|]. by apply go_words.
  - intros s. by apply go_words.
Qed.

End Names.
End NameClaims.

(** ** What the remapper writes, and what an archive holds *)

Module OkbWrites.
Import World Audit AuditFacts Okb OkbSpec OkbRun OrderFacts ListingFacts Order ArchiveFacts.

Section Writes.
Context `{PyText} `{Archiver}.

Lemma fs_descendants_below fs root p :
  p ∈ fs_descendants fs root → ∃ rel, p = root ++ rel.
Proof.
  unfold fs_descendants. intros [_ Hr]%elem_of_List_filter.
  unfold fs_reaches in Hr.
  destruct (relative_to root p) as [[|x rel]|] eqn:E; try done.
  apply relative_to_Some in E. eauto.
Qed.

Lemma find_directinput_elem okb_root w js w1 p :
  find_directinput okb_root w = (Ok js, w1) → p ∈ js →
  name p = "DirectInput.json" ∧ ∃ rel, p = okb_root ++ rel.
Proof.
  unfold find_directinput. intros Hrun Hp.
  apply bind_Ok in Hrun as (ps & w2 & Hps & Hrun). injection Hrun as <- _.
  apply sorted_elem_of, elem_of_List_filter in Hp as [Hp Hn].
  split; [by apply String.eqb_eq|].
  revert Hps. unfold rglob_all.
  destruct (files w !! okb_root) as [[c m|m]|]; intros [= <- _];
    [by apply elem_of_nil in Hp|by eapply fs_descendants_below
    |by apply elem_of_nil in Hp].
Qed.

Lemma effects_after_plans Q okb_root backup_root dry_run ts plans :
  (∀ t s, Q (EvPrint t s)) → (∀ p n, Q (EvPlanned p n)) →
  (∀ ps, Q (EvZipOpen (backup_root ++ [ZIP_PREFIX +:+ "_" +:+ ts +:+ ".zip"])) ∧
         Q (EvZip (backup_root ++ [ZIP_PREFIX +:+ "_" +:+ ts +:+ ".zip"]) ps)) →
  (dry_run = false → ∀ pl, pl ∈ plans → Q (EvWriteText (file pl))) →
  effects Q (after_plans okb_root backup_root dry_run ts plans).
Proof.
  intros Hprint Hplanned Hzip Hwrite. unfold after_plans.
  apply effects_bind; [by apply effects_print_planned|].
  intros _. destruct plans as [|pl plans]; [by apply effects_print|].
  destruct (Hzip (map file (pl :: plans))) as [Ho Hz].
  apply effects_bind; [by apply effects_zip_write_list|]. intros _.
  apply effects_bind; [by apply effects_print|]. intros _.
  destruct dry_run; [by apply effects_print|].
  apply effects_bind; [|intros _; by apply effects_print].
  apply effects_apply_plans. by apply Hwrite.
Qed.

(** X19: what the remapper writes.  In a run of [main] the only files
    written are the archive and, unless the run is dry, documents that the
    search for [DirectInput.json] found, all of them below the
    OpenKneeboard root; every other file or folder that exists is
    afterwards what it was, however the run ends. *)
Theorem okb_writes_documents_only okb_root backup_root dry_run dm ts w :
  let z := backup_root ++ [ZIP_PREFIX +:+ "_" +:+ ts +:+ ".zip"] in
  let w' := (main okb_root backup_root dry_run dm ts w).2 in
  let found := match (find_directinput okb_root w).1 with Ok js => js | Raise _ => [] end in
  (∀ p, p ∈ found → ∃ rel, p = okb_root ++ rel) ∧
  ∃ evs, trace w' = trace w ++ evs ∧
         Forall (okb_event found z dry_run) evs ∧
         ∀ p n, files w !! p = Some n → p ≠ z → (dry_run = true ∨ p ∉ found) →
                files w' !! p = Some n.
Proof.
  intros z w' found. split.
  { intros p Hp. subst found.
    destruct (find_directinput okb_root w) as [[js|e] w1] eqn:Hfind; simpl in Hp;
      [|by apply elem_of_nil in Hp].
    by destruct (find_directinput_elem _ _ _ _ _ Hfind Hp) as [_ ?]. }
  assert (same_env w w' ∧
          ∃ evs, trace w' = trace w ++ evs ∧ Forall (okb_event found z dry_run) evs ∧
                 ∀ p n, files w !! p = Some n → (∀ e, e ∈ evs → ¬ touches e p) →
                        files w' !! p = Some n) as (_ & evs & Ht & Hall & Hfr).
  { subst w' found. rewrite main_unfold.
    destruct (find_directinput okb_root w) as [[[|j js]|e] w1] eqn:Hfind; cbn [fst].
    - by apply effects_print.
    - pose proof (collect_plans_spec dm (j :: js) [] w) as [_ Hplans].
      destruct (collect_plans dm (j :: js) [] w) as [[plans|e] w2].
      + apply effects_after_plans; try done.
        intros -> pl Hpl. split; [done|].
        destruct (Hplans plans eq_refl pl Hpl) as [Hin|(p & Hp & Hb)];
          [by apply elem_of_nil in Hin|].
        by apply build_plan_file in Hb as ->.
      + by apply (effects_raise (okb_event (j :: js) z dry_run) e).
    - by apply (effects_raise (okb_event [] z dry_run) e). }
  exists evs. split; [done|]. split; [done|].
  intros p n Hp Hz Hother. apply Hfr; [done|]. intros e He Htouch.
  apply (proj1 (Forall_forall _ _) Hall) in He.
  destruct e; simpl in *; try done.
  - congruence.
  - subst. destruct He as (Hd & Hin).
    destruct Hother as [?|?]; [congruence|done].
Qed.

End Writes.
End OkbWrites.

Module ArchiveSelf.
Import World Audit AuditFacts PathFacts OrderFacts ListingFacts Order ArchiveFacts.

Lemma write_file_Ok p c w w' :
  write_file p c w = (Ok (), w') → w' = set_files <[p := File c (now w)]> w.
Proof.
  unfold write_file.
  destruct (files w !! p) as [[? ?|?]|]; try done;
    destruct (files w !! parent p) as [[? ?|?]|]; try done;
    destruct (deny w OpWrite p); try done; by intros [= <-].
Qed.

Lemma child_descends fs (d : path) x c m :
  fs !! (d ++ [x]) = Some (File c m) →
  d ++ [x] ∈ List.filter (fs_is_file fs) (fs_descendants fs d).
Proof.
  intros Hf. apply elem_of_List_filter. split; [|unfold fs_is_file; by rewrite Hf].
  unfold fs_descendants. apply elem_of_List_filter. split.
  - apply list_elem_of_fmap. exists (d ++ [x], File c m). split; [done|].
    by apply elem_of_map_to_list.
  - unfold fs_reaches. by rewrite relative_to_app.
Qed.

Section Self.
Context `{Hashlib} `{Archiver}.

(** X20: an archive in the folder that it holds.  When [zip_destination]
    is not [backup_dir], the archive of the BMS restorer is written into the
    live folder itself: it is created there before the folder is walked,
    so the archive that [make_zip_of_bms_config] returns is among the files
    that it has put into that archive. *)
Theorem archive_holds_itself st ts w z w' :
  Bms.make_zip_of_bms_config st ts w = (Ok z, w') →
  Bms.zip_destination st ≠ "backup_dir" →
  z = Bms.bms_config_dir st ++ [Bms.zip_name_prefix st +:+ "." +:+ ts +:+ ".zip"] ∧
  ∃ evs srcs, trace w' = trace w ++ evs ∧ EvZip z srcs ∈ evs ∧ z ∈ srcs.
Proof.
  intros Hrun Hdest. unfold Bms.make_zip_of_bms_config in Hrun.
  rewrite (proj2 (String.eqb_neq _ _) Hdest) in Hrun.
  set (L := Bms.bms_config_dir st) in *.
  set (zp := L ++ [Bms.zip_name_prefix st +:+ "." +:+ ts +:+ ".zip"]) in *.
  apply bind_Ok in Hrun as ([] & w1 & Hmk & Hrun).
  apply bind_Ok in Hrun as ([] & w2 & Hzip & Hrun).
  apply bind_Ok in Hrun as ([] & w3 & Hpr & Hrun). injection Hrun as <- <-.
  injection Hpr as <-. split; [done|].
  assert (∃ e1, trace w1 = trace w ++ e1) as [e1 T1].
  { destruct (emits_of_effects (λ _, True) _ (effects_mkdir_parents _ L I) w)
      as (e1 & T & _). rewrite Hmk in T. eauto. }
  unfold zip_write in Hzip.
  apply bind_Ok in Hzip as (d & wa & Hd & Hzip). injection Hd as <- <-.
  destruct (deny w1 OpZip zp); [done|].
  apply bind_Ok in Hzip as ([] & wa & Hopen & Hzip). injection Hopen as <-.
  apply bind_Ok in Hzip as ([] & wb & Hw & Hzip).
  apply bind_Ok in Hzip as (ps & wc & Hps & Hzip). injection Hps as <- <-.
  apply bind_Ok in Hzip as (es & wd & Hes & Hzip).
  apply bind_Ok in Hzip as ([] & we & Hz & Hzip). injection Hz as <-.
  apply write_file_Ok in Hw as ->.
  match type of Hes with
  | zip_entries ?a ?b ?c ?d = _ => pose proof (zip_entries_trace a b c d) as T3
  end.
  rewrite Hes in T3.
  match type of Hzip with
  | write_file ?a ?b ?c = _ => pose proof (write_file_trace a b c) as T4
  end.
  rewrite Hzip in T4. simpl in T3, T4.
  eexists _, _. split; [|split].
  - simpl. rewrite T4. simpl. rewrite T3. simpl. rewrite T1, <-!app_assoc. reflexivity.
  - repeat (rewrite elem_of_app || rewrite elem_of_cons). naive_solver.
  - eapply child_descends. apply lookup_insert_eq.
Qed.

End Self.
End ArchiveSelf.

(** * The further properties on the sample worlds *)

Module MoreRuns.
Import World Audit IndexSpec Okb OkbSpec OkbRun Order Samples Samples2.

#[local] Existing Instance hash_id.
#[local] Existing Instance zip_stub.
#[local] Existing Instance text_toy.

Ltac by_eval :=
  lazymatch goal with
  | |- @eq ?T ?a ?b => vm_cast_no_check (@eq_refl T a)
  end.

Lemma run_on {A} (o : res A * world) (r : res A) w : o.1 = r → o.2 = w → o = (r, w).
Proof. destruct o as [r' w']. simpl. by intros -> ->. Qed.

Lemma run_and_world {A} (o : res A * world) (r : res A) : o.1 = r → o = (r, o.2).
Proof. destruct o as [r' w']. simpl. by intros ->. Qed.

Lemma choose_target_newest_witness :
  ∃ pre t post mt,
    [bms_stick; bms_throttle] = pre ++ t :: post ∧
    choose_target [bms_stick; bms_throttle] bms_world = (Ok t, bms_world) ∧
    mtime_of (files bms_world) t = Some mt ∧
    (∀ p m, p ∈ pre → mtime_of (files bms_world) p = Some m → m < mt) ∧
    (∀ p m, p ∈ post → mtime_of (files bms_world) p = Some m → m ≤ mt).
Proof.
  apply (proj1 ChooseClaims.choose_target_newest [bms_stick; bms_throttle] bms_world).
  - discriminate.
  - intros p Hp. apply elem_of_cons in Hp as [->|Hp].
    { exists 2. by_eval. }
    apply elem_of_cons in Hp as [->|Hp]; [|by apply elem_of_nil in Hp].
    exists 2. by_eval.
Defined.

Lemma xml_listing_witness :
  ∃ l, Bms.list_xml_files ["bak"] bms_world = (Ok l, bms_world) ∧ NoDup l.
Proof.
  destruct (proj1 ListingClaims.xml_listing ["bak"] bms_world 0) as (l & Hl & _ & Hnd & _).
  - by_eval.
  - exists l. split; [exact Hl|exact Hnd].
Defined.

Lemma index_groups_witness :
  ∃ idx, Bms.build_index ["bak"] bms_world = (Ok idx, bms_world) ∧ NoDup idx.*1.
Proof.
  destruct (ListingClaims.index_groups ["bak"] bms_world 0) as (idx & l & Hi & _ & Hnd & _).
  - by_eval.
  - exists idx. split; [exact Hi|exact Hnd].
Defined.

Lemma pass_keeps_outside_witness :
  files (Bms.restore_from_backups bms_settings bms_world).2 !! bak_stick
  = files bms_world !! bak_stick.
Proof.
  apply (BmsPass.pass_keeps_outside bms_settings bms_world bak_stick).
  intros x r E. discriminate E.
Defined.

Lemma pass_counts_witness :
  ∃ backup_index,
    Bms.build_index ["bak"] bms_world = (Ok backup_index, bms_world) ∧
    2 + 0 + 0 = Z.of_nat (length backup_index).
Proof.
  destruct (BmsPass.pass_counts bms_settings bms_world (Summary 2 0 0 0) bms_after
              Runs.bms_first_run) as (bi & Hbi & Hsum & _).
  exists bi. split; [exact Hbi|exact Hsum].
Defined.

Lemma identical_step_witness :
  ∃ bf target cb mb ct mt,
    bf ∈ [bak_stick] ∧ target ∈ Bms.index_get bms_live_index "Stick" ∧
    files bms_after !! bf = Some (File cb mb) ∧
    files bms_after !! target = Some (File ct mt) ∧
    sha256 cb = sha256 ct ∧
    add_identical summary0 = add_identical summary0 ∧
    (Bms.restore_key bms_settings bms_live_index summary0 ("Stick", [bak_stick])
       bms_after).2 = log (EvPrint TagOK (name target)) bms_after.
Proof.
  apply (BmsPass.identical_step_writes_nothing bms_settings bms_live_index summary0
           "Stick" [bak_stick] bms_after).
  - apply run_and_world. by_eval.
  - intros E. discriminate E.
Defined.

Lemma dcs_pass_keeps_outside_witness :
  files (Dcs.restore_dcs (dcs_settings false) false dcs_twice).2 !! dcs_bak_stick g1
  = Some (File "X1" 1).
Proof.
  apply (DcsPass.dcs_pass_keeps_outside (dcs_settings false) false dcs_twice
           (dcs_bak_stick g1) (File "X1" 1)).
  - by_eval.
  - intros [r E]. discriminate E.
Defined.

Lemma dcs_pass_counts_witness :
  0 ≤ 2 ∧ 0 ≤ 0 ∧ 0 ≤ 0 ∧
  2 + 0 + 0 ≤ Z.of_nat (length (fs_descendants (files dcs_twice) ["bak"; "tree"])) ∧
  0 = 0.
Proof.
  apply (DcsCounts.dcs_pass_counts (dcs_settings false) false dcs_twice
           (Summary 2 0 0 0) dcs_after).
  unfold dcs_after. apply run_and_world. by_eval.
Defined.

Lemma okb_plan_run :
  plan_of_data okb_good okb_registry (JObj okb_doc) = Ok (Some okb_plan).
Proof. by_eval. Qed.

Lemma second_plan_is_empty_witness :
  plan_of_data okb_good okb_registry (new_data okb_plan) = Ok None.
Proof.
  apply (OkbPlan.second_plan_is_empty okb_good okb_good okb_registry (JObj okb_doc)).
  - intros kind n g gs _. reflexivity.
  - exact okb_plan_run.
Defined.

Lemma plan_keeps_payload_witness :
  ∃ devices new_devices,
    default (JObj []) (dict_get okb_doc "Devices") = JObj devices ∧
    new_data okb_plan = JObj (dict_set okb_doc "Devices" (JObj new_devices)).
Proof.
  destruct (OkbPlan.plan_keeps_payload okb_good okb_registry okb_doc okb_plan okb_plan_run)
    as (devices & nd & Hd & Hn & _).
  exists devices, nd. split; [exact Hd|exact Hn].
Defined.

Lemma nothing_to_do_witness :
  ∃ line, main ["okb"] ["zips"] false okb_no_devices "T" okb_world
          = (Ok (), log (EvPrint TagINFO line) okb_world).
Proof.
  apply (OkbPlan.nothing_to_do ["okb"] ["zips"] false okb_no_devices "T" okb_world
           [okb_good; okb_broken]).
  - by_eval.
  - intros f Hf. apply run_on; [|apply build_plan_world].
    apply elem_of_cons in Hf as [->|Hf]; [by_eval|].
    apply elem_of_cons in Hf as [->|Hf]; [by_eval|]. by apply elem_of_nil in Hf.
Defined.

Lemma temporary_sibling_witness :
  with_tmp_suffix bms_stick bms_world
    = (Ok (parent bms_stick ++ [name bms_stick +:+ ".tmp"]), bms_world) ∧
  parent bms_stick ++ [name bms_stick +:+ ".tmp"] ≠ bms_stick ∧
  Bms.is_xml (parent bms_stick ++ [name bms_stick +:+ ".tmp"]) = false ∧
  Dcs.is_diff_lua (parent bms_stick ++ [name bms_stick +:+ ".tmp"]) = false.
Proof.
  apply (proj1 (TempClaims.temporary_sibling bms_stick bms_world)).
  intros E. discriminate E.
Defined.

Lemma normalize_name_spacing_witness :
  normalize_name ("  " +:+ "T.16000M Stick" +:+ " ") = normalize_name "T.16000M Stick".
Proof.
  apply (proj1 NameClaims.normalize_name_spacing "  " "T.16000M Stick" " ");
    reflexivity.
Defined.

Lemma archive_holds_itself_witness :
  bms_archive = Bms.bms_config_dir bms_settings_live
                ++ [Bms.zip_name_prefix bms_settings_live +:+ "." +:+ "T" +:+ ".zip"] ∧
  ∃ evs srcs,
    trace (Bms.make_zip_of_bms_config bms_settings_live "T" bms_world).2
      = trace bms_world ++ evs ∧
    EvZip bms_archive srcs ∈ evs ∧ bms_archive ∈ srcs.
Proof.
  apply (ArchiveSelf.archive_holds_itself bms_settings_live "T" bms_world).
  - apply run_and_world. by_eval.
  - intros E. discriminate E.
Defined.

End MoreRuns.
